(** * vstrike-bot: ledger, validators, gateway client, bridge and webhook verifier

    A shallow embedding of the Python sources [validator.py], [database.py],
    [payments.py], [bridge.py] and [webhook_validator.py], followed by the
    statements proved about them.

    Conventions of the embedding.
    - A Python [str] is a [list ascii]; the 256 values of [ascii] are read as
      the code points U+0000..U+00FF, so [str.strip], [str.lower], [\w] and
      [str.encode] (UTF-8) are the Python ones restricted to that range.
    - A Python [float] or [int] amount is the rational number it denotes
      ([Q]); comparisons are exact, [float(text)] is the exact decimal value
      of the text and [round(x, 2)] the exact two-digit decimal, half to
      even.  The interpreter takes the nearest double of each, so at an exact
      decimal tie or bound its answer can differ in the last digit; no
      statement below rests on such an input.  Infinities and NaN are not
      part of the model.
    - A database file is the rows of its two tables together with the
      columns each table was created with, since [CREATE TABLE IF NOT
      EXISTS] keeps a table that is already there.
    - Log output is not modelled: a handler that only logs is the identity.
    - A text sent to Telegram is the list of its code points, since the
      texts of [bridge.py] have characters above U+00FF.  A round of
      [bridge_task] is taken on the items that wait when it starts.
    - The connections of the pool are numbered in the order they were
      made. *)

From Stdlib Require Import ZArith QArith Qround Lqa Ascii String List Lia.
From stdpp Require Import base option list gmap strings.

Local Open Scope Z_scope.

Abbreviation str := (list ascii).

(** A Python string literal. *)
Definition py (s : string) : str := list_ascii_of_string s.
Arguments py : simpl never.

(* ===================================================================== *)
(** ** Python string primitives *)
(* ===================================================================== *)

Module Py.

Definition ord (c : ascii) : Z := Z.of_N (N_of_ascii c).
Definition chr (n : Z) : ascii := ascii_of_N (Z.to_N n).

Definition between (lo hi n : Z) : bool := (lo <=? n) && (n <=? hi).

(** [str.isspace] on one code point: the characters [str.strip()] removes. *)
Definition isspace (c : ascii) : bool :=
  let n := ord c in
  between 9 13 n || between 28 31 n || (n =? 32) || (n =? 133) || (n =? 160).

(** [\d] of a [str] pattern: decimal digits, which below U+0100 are 0-9. *)
Definition isdecimal (c : ascii) : bool := between 48 57 (ord c).

Definition isupper_ascii (c : ascii) : bool := between 65 90 (ord c).
Definition islower_ascii (c : ascii) : bool := between 97 122 (ord c).

(** [[a-zA-Z0-9_-]] *)
Definition is_id_char (c : ascii) : bool :=
  isupper_ascii c || islower_ascii c || isdecimal c
  || (ord c =? 95) || (ord c =? 45).

(** [\w] of a [str] pattern: alphanumeric code points and the underscore.
    Below U+0100 the alphanumerics are the ASCII ones, the letters
    U+00AA, U+00B5, U+00BA, U+00C0-U+00D6, U+00D8-U+00F6, U+00F8-U+00FF and
    the numerics U+00B2, U+00B3, U+00B9, U+00BC-U+00BE. *)
Definition is_word (c : ascii) : bool :=
  let n := ord c in
  isupper_ascii c || islower_ascii c || isdecimal c || (n =? 95)
  || (n =? 170) || (n =? 181) || (n =? 186)
  || between 192 214 n || between 216 246 n || between 248 255 n
  || (n =? 178) || (n =? 179) || (n =? 185) || between 188 190 n.

(** [str.lower] on one code point below U+0100. *)
Definition lower_char (c : ascii) : ascii :=
  let n := ord c in
  if isupper_ascii c || (between 192 222 n && negb (n =? 215))
  then chr (n + 32) else c.

Definition lower (s : str) : str := map lower_char s.

Fixpoint lstrip (s : str) : str :=
  match s with
  | c :: s' => if isspace c then lstrip s' else s
  | [] => []
  end.

Definition rstrip (s : str) : str := rev (lstrip (rev s)).

(** [s.strip()] *)
Definition strip (s : str) : str := rstrip (lstrip s).

(** [re.sub(r'[^...]', '', s)] with the kept class given as a predicate. *)
Definition keep (p : ascii -> bool) (s : str) : str := List.filter p s.

(** [s.count(c)] for a one-character [c]. *)
Definition count (c : ascii) (s : str) : nat :=
  List.length (List.filter (fun d => if ascii_dec d c then true else false) s).

(** [a == b] on two strings. *)
Definition str_eqb (a b : str) : bool := bool_decide (a = b).
Arguments str_eqb : simpl never.

(** [needle in hay] *)
Definition contains (needle hay : str) : Prop :=
  exists before after : str, hay = before ++ needle ++ after.

(** [int(s)] for a string of decimal digits. *)
Definition int_of_digits (s : str) : Z :=
  fold_left (fun acc c => acc * 10 + (ord c - 48)) s 0.

(** The decimal digits of a natural number; [fuel] bounds their count. *)
Fixpoint digits_of_nat (fuel : nat) (n : Z) (acc : str) : str :=
  match fuel with
  | O => acc
  | S f =>
      let acc' := chr (48 + n mod 10) :: acc in
      if n / 10 =? 0 then acc' else digits_of_nat f (n / 10) acc'
  end.

(** [str(z)] for an integer; a number has no more decimal digits than
    binary ones. *)
Definition str_of_int (z : Z) : str :=
  let digits n := digits_of_nat (S (Z.to_nat (Z.log2 n))) n [] in
  if z <? 0 then py "-" ++ digits (- z) else digits z.

(** [s.partition(c)]: the text before the first [c] and, when there is
    one, the text after it. *)
Fixpoint partition (c : ascii) (s : str) : str * option str :=
  match s with
  | [] => ([], None)
  | d :: s' =>
      if bool_decide (d = c) then ([], Some s')
      else let '(a, b) := partition c s' in (d :: a, b)
  end.

(** [float(s)] for a string over digits and dots: at most one dot and at
    least one digit, otherwise [ValueError] ([None]). *)
Definition float_of_str (s : str) : option Q :=
  match partition "."%char s with
  | (ip, None) =>
      if forallb isdecimal ip && negb (bool_decide (ip = []))
      then Some (inject_Z (int_of_digits ip)) else None
  | (ip, Some fp) =>
      if forallb isdecimal ip && forallb isdecimal fp
         && negb (bool_decide (ip ++ fp = []))
      then Some (Qmake (int_of_digits (ip ++ fp))
                       (Z.to_pos (10 ^ Z.of_nat (List.length fp))))
      else None
  end.

(** [c.encode('utf-8')] for a code point below U+0100. *)
Definition utf8 (c : ascii) : list Z :=
  let n := ord c in
  if n <? 128 then [n] else [192 + n / 64; 128 + n mod 64].

(** [s.encode()] *)
Definition encode (s : str) : list Z := flat_map utf8 s.

(** Rounding half to even of a rational to an integer. *)
Definition round_half_even (x : Q) : Z :=
  let f := Qfloor x in
  match Qcompare (x - inject_Z f)%Q (1 # 2)%Q with
  | Lt => f
  | Gt => f + 1
  | Eq => if Z.even f then f else f + 1
  end.

(** [round(x, 2)] *)
Definition round2 (x : Q) : Q :=
  Qmake (round_half_even (x * inject_Z 100)%Q) 100.

End Py.

(* ===================================================================== *)
(** ** JSON objects and json.dumps *)
(* ===================================================================== *)

Module Json.

(** The values of a metadata mapping or of a gateway's JSON answer.
    Arrays and floats are left out of the model. *)
#[warnings="-register-all"]
Inductive value :=
| JStr (s : str)
| JInt (z : Z)
| JBool (b : bool)
| JNull
| JObj (members : list (str * value)).

(** A Python [dict] with string keys, in insertion order. *)
Abbreviation dict := (list (str * value)).

(** [d.get(k)] *)
Fixpoint get (k : str) (d : dict) : option value :=
  match d with
  | [] => None
  | (k', v) :: d' => if bool_decide (k' = k) then Some v else get k d'
  end.

Definition hex_digit (n : Z) : ascii :=
  if n <? 10 then Py.chr (48 + n) else Py.chr (87 + n).

(** One character of [py_encode_basestring_ascii]. *)
Definition escape_char (c : ascii) : str :=
  let n := Py.ord c in
  if n =? 34 then py "\" ++ [c]
  else if n =? 92 then py "\\"
  else if n =? 10 then py "\n"
  else if n =? 13 then py "\r"
  else if n =? 9 then py "\t"
  else if n =? 8 then py "\b"
  else if n =? 12 then py "\f"
  else if Py.between 32 126 n then [c]
  else py "\u00" ++ [hex_digit (n / 16); hex_digit (n mod 16)].

Definition quote : ascii := Py.chr 34.

Definition dumps_str (s : str) : str :=
  quote :: flat_map escape_char s ++ [quote].

Fixpoint join (sep : str) (l : list str) : str :=
  match l with
  | [] => []
  | [x] => x
  | x :: l' => x ++ sep ++ join sep l'
  end.

(** [json.dumps(v)] with the default separators and [ensure_ascii]. *)
Fixpoint dumps_value (v : value) : str :=
  match v with
  | JStr s => dumps_str s
  | JInt z => Py.str_of_int z
  | JBool true => py "true"
  | JBool false => py "false"
  | JNull => py "null"
  | JObj d =>
      py "{"
      ++ join (py ", ")
           ((fix items (d : list (str * value)) : list str :=
               match d with
               | [] => []
               | (k, v') :: d' =>
                   (dumps_str k ++ py ": " ++ dumps_value v') :: items d'
               end) d)
      ++ py "}"
  end.

(** [json.dumps(d)] for a dictionary. *)
Definition dumps (d : dict) : str := dumps_value (JObj d).

End Json.

(* ===================================================================== *)
(** ** validator.py *)
(* ===================================================================== *)

Module Validator.

(** The [ValidationResult] dataclass.  Messages built with an f-string
    keep their fixed part only. *)
Record ValidationResult (A : Type) := mkResult {
  is_valid : bool;
  error_message : option str;
  sanitized_value : option A
}.
Arguments mkResult {A}.
Arguments is_valid {A}.
Arguments error_message {A}.
Arguments sanitized_value {A}.

Definition invalid {A} (msg : string) : ValidationResult A :=
  mkResult false (Some (py msg)) None.
Definition valid {A} (v : A) : ValidationResult A :=
  mkResult true None (Some v).

(** A [telegram_id] argument: [None], an [int] or a [str]. *)
Inductive id_input := IdNone | IdInt (z : Z) | IdStr (s : str).

(** An [amount] argument: [None], a number ([int] or [float]) or a [str]. *)
Inductive amount_input := AmtNone | AmtNum (q : Q) | AmtStr (s : str).

(** A [metadata] argument: a [str], a [dict], or any other object, given
    by its [str()] text. *)
Inductive metadata_input :=
| MStr (s : str)
| MDict (d : Json.dict)
| MOther (text : str).

(** [InputValidator.validate_order_id] *)
Definition validate_order_id (order_id : str) : ValidationResult str :=
  if bool_decide (order_id = []) then
    invalid "Order ID is required and must be string"
  else
    let cleaned :=
      Py.keep (fun c => Py.is_word c || bool_decide (c = "-"%char))
              (Py.strip order_id) in
    if (List.length cleaned <? 3)%nat || (64 <? List.length cleaned)%nat then
      invalid "Order ID must be 3-64 characters"
    else if negb (forallb Py.is_id_char cleaned) then
      invalid "Invalid order ID format"
    else valid cleaned.

(** [InputValidator.validate_telegram_id] *)
Definition validate_telegram_id (telegram_id : id_input) : ValidationResult Z :=
  let check (n : Z) : ValidationResult Z :=
    if n <=? 0 then invalid "Telegram ID must be positive"
    else if 9999999999 <? n then invalid "Telegram ID too large"
    else valid n in
  match telegram_id with
  | IdNone => invalid "Telegram ID is required"
  | IdStr s =>
      let cleaned_id := Py.keep Py.isdecimal (Py.strip s) in
      if bool_decide (cleaned_id = []) then invalid "Invalid Telegram ID format"
      else check (Py.int_of_digits cleaned_id)
  | IdInt z => check z
  end.

(** The configured maximum of [validate_amount]. *)
Definition MAX_AMOUNT : Q := 10000.

(** [InputValidator.validate_amount] *)
Definition validate_amount (amount : amount_input) : ValidationResult Q :=
  let check (amount : Q) : ValidationResult Q :=
    if Qle_bool amount 0 then invalid "Amount must be positive"
    else if negb (Qle_bool amount MAX_AMOUNT) then
      invalid "Amount exceeds maximum allowed"
    else valid (Py.round2 amount) in
  match amount with
  | AmtNone => invalid "Amount is required"
  | AmtStr s =>
      let cleaned_amount :=
        Py.keep (fun c => Py.isdecimal c || bool_decide (c = "."%char))
                (Py.strip s) in
      if bool_decide (cleaned_amount = [])
         || (1 <? Py.count "."%char cleaned_amount)%nat
      then invalid "Invalid amount format"
      else match Py.float_of_str cleaned_amount with
           | Some amount => check amount
           | None => invalid "Invalid amount"
           end
  | AmtNum q => check q
  end.

Definition valid_methods : list str :=
  [py "OxaPay"; py "Cryptomus"; py "NOWPayments"; py "Stars"].

(** [InputValidator.validate_payment_method] *)
Definition validate_payment_method (method : str) : ValidationResult str :=
  if bool_decide (method = []) then
    invalid "Payment method is required and must be string"
  else
    let cleaned_method := Py.strip method in
    match List.find (fun m => Py.str_eqb (Py.lower m) (Py.lower cleaned_method))
                    valid_methods with
    | None => invalid "Invalid payment method"
    | Some m => valid m
    end.

(** The characters the pattern of [sanitize_string] removes: the angle
    brackets, the double and the single quote, and the semicolon. *)
Definition dangerous (c : ascii) : bool :=
  let n := Py.ord c in
  (n =? 60) || (n =? 62) || (n =? 34) || (n =? 39) || (n =? 59).

Definition harmless (c : ascii) : Prop := dangerous c = false.

(** [InputValidator.sanitize_string] *)
Definition sanitize_string (text : str) (max_length : nat) : str :=
  if bool_decide (text = []) then []
  else
    let cleaned := Py.keep (fun c => negb (dangerous c)) (Py.strip text) in
    if (max_length <? List.length cleaned)%nat then take max_length cleaned
    else cleaned.

(** [TransactionValidator.sanitize_transaction_metadata] *)
Definition sanitize_transaction_metadata (metadata : metadata_input) : str :=
  match metadata with
  | MDict d =>
      let sanitized :=
        map (fun kv : str * Json.value =>
               match snd kv with
               | Json.JStr s => (fst kv, Json.JStr (sanitize_string s 500))
               | v => (fst kv, v)
               end) d in
      Json.dumps sanitized
  | MStr s => sanitize_string s 1000
  | MOther text => text
  end.

(** The dictionary returned by [validate_transaction_input]. *)
Record validated := mkValidated {
  v_tx_id : str;
  v_user_id : Z;
  v_amount : Q;
  v_method : str;
  v_metadata : str
}.

(** [validate_transaction_input]; [None] stands for the Python [None]. *)
Definition validate_transaction_input
    (tx_id : str) (user_id : id_input) (amount : amount_input)
    (method : str) (metadata : metadata_input) : option validated :=
  if bool_decide (tx_id = []) then None else
  let tx_validation := validate_order_id tx_id in
  if negb (is_valid tx_validation) then None else
  if (match user_id with IdNone => true | _ => false end) then None else
  let user_validation := validate_telegram_id user_id in
  if negb (is_valid user_validation) then None else
  if (match amount with AmtNone => true | _ => false end) then None else
  let amount_validation := validate_amount amount in
  if negb (is_valid amount_validation) then None else
  if bool_decide (method = []) then None else
  let method_validation := validate_payment_method method in
  if negb (is_valid method_validation) then None else
  let sanitized_metadata := sanitize_transaction_metadata metadata in
  match sanitized_value tx_validation, sanitized_value user_validation,
        sanitized_value amount_validation, sanitized_value method_validation with
  | Some t, Some u, Some a, Some m =>
      Some (mkValidated t u a m sanitized_metadata)
  | _, _, _, _ => None
  end.

(** [[0-9a-f]] under [re.IGNORECASE] *)
Definition is_hex (c : ascii) : bool :=
  Py.isdecimal c || Py.between 97 102 (Py.ord c) || Py.between 65 70 (Py.ord c).

(** Runs of hexadecimal digits of the given sizes with a hyphen between
    two runs, and nothing else: [UUID_PATTERN] is the sizes 8, 4, 4, 4, 12. *)
Fixpoint hex_groups (sizes : list nat) (s : str) : bool :=
  match sizes with
  | [] => bool_decide (s = [])
  | n :: rest =>
      (n <=? List.length s)%nat && forallb is_hex (take n s)
      && match rest, drop n s with
         | [], tail => bool_decide (tail = [])
         | _ :: _, c :: tail => bool_decide (c = "-"%char) && hex_groups rest tail
         | _ :: _, [] => false
         end
  end.

Definition UUID_PATTERN (s : str) : bool := hex_groups [8; 4; 4; 4; 12]%nat s.

(** [InputValidator.validate_uuid] *)
Definition validate_uuid (uuid_str : str) : ValidationResult str :=
  if bool_decide (uuid_str = []) then
    invalid "UUID is required and must be string"
  else
    let cleaned_uuid := Py.strip uuid_str in
    if negb (UUID_PATTERN cleaned_uuid) then invalid "Invalid UUID format"
    else valid cleaned_uuid.

Definition valid_statuses : list str :=
  [py "pending"; py "completed"; py "failed"; py "cancelled"; py "refunded"].

(** [InputValidator.validate_status] *)
Definition validate_status (status : str) : ValidationResult str :=
  if bool_decide (status = []) then
    invalid "Status is required and must be string"
  else
    let cleaned_status := Py.lower (Py.strip status) in
    if negb (bool_decide (cleaned_status ∈ valid_statuses)) then
      invalid "Invalid status"
    else valid cleaned_status.

Definition upper_hex_digit (n : Z) : ascii :=
  if n <? 10 then Py.chr (48 + n) else Py.chr (55 + n).

(** [secrets.token_hex(n).upper()] for the random bytes drawn. *)
Definition token_hex_upper (random : list Z) : str :=
  flat_map (fun b => [upper_hex_digit (b / 16); upper_hex_digit (b mod 16)]) random.

(** [InputValidator.generate_secure_order_id], given the value of
    [int(time.time() * 1000)] and the four bytes [secrets.token_hex(4)]
    draws. *)
Definition generate_secure_order_id (prefix : str) (timestamp : Z)
    (random : list Z) : str :=
  prefix ++ py "_" ++ Py.str_of_int timestamp ++ py "_" ++ token_hex_upper random.

(** The characters the pattern of [validate_amount] keeps: digits and the
    dot. *)
Definition amount_char (c : ascii) : bool :=
  Py.isdecimal c || bool_decide (c = "."%char).

(** The characters of a text [UUID_PATTERN] matches. *)
Definition hex_or_hyphen (c : ascii) : bool :=
  is_hex c || bool_decide (c = "-"%char).

End Validator.

(* ===================================================================== *)
(** ** database.py *)
(* ===================================================================== *)

Module Database.

(** A row of [users], keyed by [telegram_id].  The column [created_at] is
    filled by its default and never read. *)
Record user_row := mkUser {
  join_date : str;
  last_interaction : str;
  is_vip : bool;
  user_updated_at : str
}.

(** A row of [transactions], keyed by [tx_id].  [tx_updated_at] is the
    column [updated_at] of a table that has one. *)
Record tx_row := mkTx {
  user_id : Z;
  amount : Q;
  method : str;
  metadata : str;
  status : str;
  timestamp : str;
  processed_at : option str;
  created_at : str;
  tx_updated_at : option str
}.

Inductive table := Users | Transactions.

(** The database file: the columns each table was created with (none when
    the table does not exist) and the rows. *)
Record database := mkDb {
  users_columns : list str;
  transactions_columns : list str;
  users : gmap Z user_row;
  transactions : gmap str tx_row
}.

Definition columns (d : database) (t : table) : list str :=
  match t with Users => users_columns d | Transactions => transactions_columns d end.

(** The column lists of the two [CREATE TABLE] statements of [init_db]. *)
Definition create_users_table : list str :=
  [py "telegram_id"; py "join_date"; py "last_interaction"; py "is_vip";
   py "created_at"; py "updated_at"].

Definition create_transactions_table : list str :=
  [py "tx_id"; py "user_id"; py "amount"; py "method"; py "metadata";
   py "status"; py "timestamp"; py "processed_at"; py "created_at"].

(** Whether every column a statement names exists in the table. *)
Definition declared (d : database) (t : table) (names : list string) : bool :=
  forallb (fun n => bool_decide (py n ∈ columns d t)) names.

Definition set_users (f : gmap Z user_row -> gmap Z user_row) (d : database) :=
  mkDb (users_columns d) (transactions_columns d) (f (users d)) (transactions d).

Definition set_transactions
    (f : gmap str tx_row -> gmap str tx_row) (d : database) :=
  mkDb (users_columns d) (transactions_columns d) (users d) (f (transactions d)).

(** The row an [UPDATE transactions] turns [r] into. *)
Definition transitioned (r : tx_row) (stat now : str) : tx_row :=
  mkTx (user_id r) (amount r) (method r) (metadata r) stat (timestamp r)
       (Some now) (created_at r) (Some now).

(** The row [UPDATE users SET is_vip = 1] turns [u] into. *)
Definition upgraded (u : user_row) (now : str) : user_row :=
  mkUser (join_date u) (last_interaction u) true now.

(** *** Statement execution: state, exceptions and storage faults *)

Inductive exn := OperationalError | IntegrityError.

Inductive outcome (A : Type) :=
| Return (a : A)
| Raise (e : exn).
Arguments Return {A}.
Arguments Raise {A}.

(** The committed database and the number of statements sent so far. *)
Record world := mkWorld { db : database; calls : nat }.

(** A computation over the storage.  [faults n] says that the [n]-th
    statement sent to the storage raises (database locked, I/O error). *)
Definition storage (A : Type) : Type :=
  (nat -> bool) -> world -> outcome A * world.

Definition ret {A} (a : A) : storage A := fun _ w => (Return a, w).

Definition bind {A B} (m : storage A) (k : A -> storage B) : storage B :=
  fun faults w =>
    match m faults w with
    | (Return a, w') => k a faults w'
    | (Raise e, w') => (Raise e, w')
    end.

(** [try: m except Exception: h] *)
Definition try_except {A} (m : storage A) (h : exn -> storage A) : storage A :=
  fun faults w =>
    match m faults w with
    | (Return a, w') => (Return a, w')
    | (Raise e, w') => h e faults w'
    end.

#[global] Instance storage_ret : MRet storage := @ret.
#[global] Instance storage_bind : MBind storage := fun A B k m => bind m k.

(** [DatabaseManager.execute_update]: run one statement and commit it.  A
    statement that raises is rolled back by [get_connection]. *)
Definition execute_update
    (stmt : database -> outcome (nat * database)) : storage nat :=
  fun faults w =>
    let n := calls w in
    if faults n then (Raise OperationalError, mkWorld (db w) (S n))
    else match stmt (db w) with
         | Return (rowcount, d) => (Return rowcount, mkWorld d (S n))
         | Raise e => (Raise e, mkWorld (db w) (S n))
         end.

(** [DatabaseManager.execute_query] *)
Definition execute_query {A} (q : database -> outcome A) : storage A :=
  fun faults w =>
    let n := calls w in
    if faults n then (Raise OperationalError, mkWorld (db w) (S n))
    else (q (db w), mkWorld (db w) (S n)).

(** *** The SQL statements of the module *)

(** [CREATE TABLE IF NOT EXISTS t (...)] *)
Definition sql_create_table (t : table) (d : database) : outcome (nat * database) :=
  match t, columns d t with
  | Users, [] =>
      Return (0%nat, mkDb create_users_table (transactions_columns d)
                          (users d) (transactions d))
  | Transactions, [] =>
      Return (0%nat, mkDb (users_columns d) create_transactions_table
                          (users d) (transactions d))
  | _, _ => Return (0%nat, d)
  end.

(** [CREATE INDEX IF NOT EXISTS ... ON t(names)] *)
Definition sql_create_index (t : table) (names : list string) (d : database)
    : outcome (nat * database) :=
  if declared d t names then Return (0%nat, d) else Raise OperationalError.

(** [SELECT telegram_id FROM users WHERE telegram_id = ?] *)
Definition sql_select_user (telegram_id : Z) (d : database) : outcome (list Z) :=
  if negb (declared d Users ["telegram_id"]) then Raise OperationalError
  else Return (match users d !! telegram_id with
               | Some _ => [telegram_id] | None => [] end).

(** [INSERT INTO users (telegram_id, join_date, last_interaction, is_vip,
    updated_at) VALUES (?, ?, ?, 0, ?)] *)
Definition sql_insert_user (telegram_id : Z) (now : str) (d : database)
    : outcome (nat * database) :=
  if negb (declared d Users
             ["telegram_id"; "join_date"; "last_interaction"; "is_vip";
              "updated_at"])
  then Raise OperationalError
  else match users d !! telegram_id with
       | Some _ => Raise IntegrityError
       | None =>
           Return (1%nat,
                   set_users (insert telegram_id (mkUser now now false now)) d)
       end.

(** [UPDATE users SET last_interaction = ?, updated_at = ?
    WHERE telegram_id = ?] *)
Definition sql_touch_user (now : str) (telegram_id : Z) (d : database)
    : outcome (nat * database) :=
  if negb (declared d Users ["last_interaction"; "updated_at"; "telegram_id"])
  then Raise OperationalError
  else match users d !! telegram_id with
       | None => Return (0%nat, d)
       | Some u =>
           Return (1%nat,
                   set_users (insert telegram_id
                                (mkUser (join_date u) now (is_vip u) now)) d)
       end.

(** [INSERT INTO transactions (tx_id, user_id, amount, method, metadata,
    status, timestamp, created_at) VALUES (?, ?, ?, ?, ?, ?, ?, ?)] *)
Definition sql_insert_transaction
    (tx_id : str) (uid : Z) (amt : Q) (meth meta stat ts created : str)
    (d : database) : outcome (nat * database) :=
  if negb (declared d Transactions
             ["tx_id"; "user_id"; "amount"; "method"; "metadata"; "status";
              "timestamp"; "created_at"])
  then Raise OperationalError
  else match transactions d !! tx_id with
       | Some _ => Raise IntegrityError
       | None =>
           Return (1%nat,
                   set_transactions
                     (insert tx_id
                        (mkTx uid amt meth meta stat ts None created None)) d)
       end.

(** [UPDATE transactions SET status = ?, processed_at = ?, updated_at = ?
    WHERE tx_id = ?] *)
Definition sql_update_transaction (stat now : str) (tx_id : str) (d : database)
    : outcome (nat * database) :=
  if negb (declared d Transactions
             ["status"; "processed_at"; "updated_at"; "tx_id"])
  then Raise OperationalError
  else match transactions d !! tx_id with
       | None => Return (0%nat, d)
       | Some r =>
           Return (1%nat,
                   set_transactions (insert tx_id (transitioned r stat now)) d)
       end.

(** [SELECT user_id FROM transactions WHERE tx_id = ?] *)
Definition sql_select_owner (tx_id : str) (d : database) : outcome (list Z) :=
  if negb (declared d Transactions ["user_id"; "tx_id"])
  then Raise OperationalError
  else Return (match transactions d !! tx_id with
               | Some r => [user_id r] | None => [] end).

(** [UPDATE users SET is_vip = 1, updated_at = ? WHERE telegram_id = ?] *)
Definition sql_set_vip (now : str) (telegram_id : Z) (d : database)
    : outcome (nat * database) :=
  if negb (declared d Users ["is_vip"; "updated_at"; "telegram_id"])
  then Raise OperationalError
  else match users d !! telegram_id with
       | None => Return (0%nat, d)
       | Some u =>
           Return (1%nat,
                   set_users (insert telegram_id (upgraded u now)) d)
       end.

(** *** The operations *)

(** The indexes of [init_db]; a failing index is logged and skipped. *)
Definition indexes : list (table * list string) :=
  [(Users, ["telegram_id"]); (Users, ["is_vip"]);
   (Users, ["last_interaction"]); (Transactions, ["user_id"]);
   (Transactions, ["status"]); (Transactions, ["timestamp"]);
   (Transactions, ["method"]); (Transactions, ["status"; "timestamp"])].

(** [init_db] *)
Definition init_db : storage unit :=
  execute_update (sql_create_table Users) ;;
  execute_update (sql_create_table Transactions) ;;
  fold_right
    (fun ix k =>
       try_except (execute_update (sql_create_index (fst ix) (snd ix)) ;; mret tt)
                  (fun _ => mret tt) ;; k)
    (mret tt) indexes.

(** [add_user] *)
Definition add_user (telegram_id : Z) (now : str) : storage bool :=
  try_except
    (existing ← execute_query (sql_select_user telegram_id);
     match existing with
     | [] => execute_update (sql_insert_user telegram_id now) ;; mret true
     | _ => execute_update (sql_touch_user now telegram_id) ;; mret true
     end)
    (fun _ => mret false).

(** [create_transaction] *)
Definition create_transaction
    (tx_id : str) (uid : Validator.id_input) (amt : Validator.amount_input)
    (meth : str) (meta : Validator.metadata_input) (now : str) : storage bool :=
  try_except
    (match Validator.validate_transaction_input tx_id uid amt meth meta with
     | None => mret false
     | Some validated_data =>
         execute_update
           (sql_insert_transaction
              (Validator.v_tx_id validated_data)
              (Validator.v_user_id validated_data)
              (Validator.v_amount validated_data)
              (Validator.v_method validated_data)
              (Validator.v_metadata validated_data)
              (py "pending") now now) ;;
         mret true
     end)
    (fun _ => mret false).

(** [update_transaction_status] *)
Definition update_transaction_status (tx_id : str) (stat : str) (now : str)
    : storage bool :=
  try_except
    (row_count ← execute_update (sql_update_transaction stat now tx_id);
     if (row_count =? 0)%nat then mret false
     else
       (if Py.str_eqb stat (py "completed") then
          user_result ← execute_query (sql_select_owner tx_id);
          match user_result with
          | uid :: _ => execute_update (sql_set_vip now uid) ;; mret tt
          | [] => mret tt
          end
        else mret tt) ;;
       mret true)
    (fun _ => mret false).

(** Running an operation on a database, statement numbers from 0. *)
Definition run {A} (m : storage A) (faults : nat -> bool) (d : database)
    : outcome A * database :=
  let '(r, w) := m faults (mkWorld d 0) in (r, db w).

(** No statement raises for a reason of the storage. *)
Definition no_faults : nat -> bool := fun _ => false.

(** Every column named by the three statements of
    [update_transaction_status] exists in its table. *)
Definition update_statements_prepare (d : database) : bool :=
  declared d Transactions ["status"; "processed_at"; "updated_at"; "tx_id"]
  && declared d Transactions ["user_id"; "tx_id"]
  && declared d Users ["is_vip"; "updated_at"; "telegram_id"].

(** The statuses other than [pending]. *)
Definition terminal (s : str) : bool :=
  bool_decide (s ∈ [py "completed"; py "failed"; py "cancelled"; py "refunded"]).

(** [SELECT * FROM users WHERE telegram_id = ?]; the row is given with its
    key. *)
Definition sql_select_user_row (telegram_id : Z) (d : database)
    : outcome (list (Z * user_row)) :=
  if negb (declared d Users ["telegram_id"]) then Raise OperationalError
  else Return (match users d !! telegram_id with
               | Some u => [(telegram_id, u)] | None => [] end).

(** [get_user] *)
Definition get_user (telegram_id : Z) : storage (option (Z * user_row)) :=
  try_except
    (result ← execute_query (sql_select_user_row telegram_id);
     mret (head result))
    (fun _ => mret None).

(** [a < b] on two [TEXT] values: the order of their UTF-8 bytes. *)
Fixpoint bytes_ltb (a b : list Z) : bool :=
  match a, b with
  | _, [] => false
  | [], _ :: _ => true
  | x :: a', y :: b' => (x <? y) || ((x =? y) && bytes_ltb a' b')
  end.

Definition text_ltb (a b : str) : bool := bytes_ltb (Py.encode a) (Py.encode b).

(** The rows the [WHERE] clause of [cleanup_old_sessions] selects. *)
Definition stale (cutoff_date : str) (u : user_row) : bool :=
  text_ltb (last_interaction u) cutoff_date && negb (is_vip u).

(** The row the [SET] clause of [cleanup_old_sessions] leaves of a user. *)
Definition cleaned (cutoff_date now : str) (u : user_row) : user_row :=
  if stale cutoff_date u then mkUser (join_date u) cutoff_date (is_vip u) now
  else u.

(** [UPDATE users SET last_interaction = ?, updated_at = ?
    WHERE last_interaction < ? AND is_vip = 0] *)
Definition sql_cleanup (cutoff_date now : str) (d : database)
    : outcome (nat * database) :=
  if negb (declared d Users ["last_interaction"; "updated_at"; "is_vip"])
  then Raise OperationalError
  else
    Return (size (filter (fun kv : Z * user_row => stale cutoff_date (snd kv) = true)
                         (users d)),
            set_users (fmap (cleaned cutoff_date now)) d).

(** [cleanup_old_sessions], given the two timestamps it computes: the
    cutoff [(now - days).isoformat()] and the later [now.isoformat()]. *)
Definition cleanup_old_sessions (cutoff_date now : str) : storage nat :=
  try_except
    (execute_update (sql_cleanup cutoff_date now))
    (fun _ => mret 0%nat).


(** A call of one of the writing operations of the module, with the
    timestamps it reads from the clock. *)
Inductive ledger_call :=
| CallAddUser (telegram_id : Z) (now : str)
| CallCreateTransaction (tx_id : str) (uid : Validator.id_input)
    (amt : Validator.amount_input) (meth : str)
    (meta : Validator.metadata_input) (now : str)
| CallUpdateTransactionStatus (tx_id : str) (stat : str) (now : str)
| CallCleanupOldSessions (cutoff_date now : str).

(** The database after a call, under the storage faults met by the call. *)
Definition perform (c : ledger_call) (faults : nat -> bool) (d : database)
    : database :=
  match c with
  | CallAddUser telegram_id now => snd (run (add_user telegram_id now) faults d)
  | CallCreateTransaction tx_id uid amt meth meta now =>
      snd (run (create_transaction tx_id uid amt meth meta now) faults d)
  | CallUpdateTransactionStatus tx_id stat now =>
      snd (run (update_transaction_status tx_id stat now) faults d)
  | CallCleanupOldSessions cutoff_date now =>
      snd (run (cleanup_old_sessions cutoff_date now) faults d)
  end.

(** The database after a sequence of calls. *)
Definition perform_all (calls : list (ledger_call * (nat -> bool)))
    (d : database) : database :=
  fold_left (fun d c => perform (fst c) (snd c) d) calls d.

(** What stays of a user row: the day it joined, and VIP once granted. *)
Definition user_kept (u u' : user_row) : Prop :=
  join_date u' = join_date u /\ (is_vip u = true -> is_vip u' = true).

(** What stays of a transaction row: everything [create_transaction]
    wrote except the status. *)
Definition tx_kept (r r' : tx_row) : Prop :=
  user_id r' = user_id r /\ amount r' = amount r /\ method r' = method r
  /\ metadata r' = metadata r /\ timestamp r' = timestamp r
  /\ created_at r' = created_at r.

(** Every transaction is as [create_transaction] wrote it: [pending] and
    without a [processed_at]. *)
Definition all_pending (d : database) : Prop :=
  forall tx r, transactions d !! tx = Some r ->
               status r = py "pending" /\ processed_at r = None.

End Database.

(* ===================================================================== *)
(** ** database.py: the connection pool *)
(* ===================================================================== *)

Module ConnectionPool.

(** [_connection_pool] and the connections made so far.  Connections are
    numbered in the order [sqlite3.connect] made them; the list of a thread
    has the connection appended last at its head. *)
Record state := mkState {
  pool : gmap Z (list nat);
  opened : nat;
  closed : list nat
}.

(** The module as loaded: [_connection_pool = {}]. *)
Definition initial : state := mkState ∅ 0 [].

(** What happens inside one [with self.get_connection() as conn]:
    [sqlite3.connect] raises, a [PRAGMA] or the body raises, or the body
    ends. *)
Inductive course := ConnectRaises | BodyRaises | BodyReturns.

(** The [finally] clause: the connection goes back to the list of its
    thread when that list has fewer than 5 connections, and is closed
    otherwise. *)
Definition give_back (thread_id : Z) (conn : nat) (s : state) : state :=
  let waiting := default [] (pool s !! thread_id) in
  if (List.length waiting <? 5)%nat
  then mkState (<[thread_id := conn :: waiting]> (pool s)) (opened s) (closed s)
  else mkState (pool s) (opened s) (conn :: closed s).

(** One use of [get_connection] by thread [thread_id], as made by
    [execute_query], [execute_update] and [execute_many]: the connection
    the body got, whether the exception leaves the [with], and the state
    afterwards. *)
Definition get_connection (thread_id : Z) (c : course) (s : state)
    : option nat * bool * state :=
  let waiting := default [] (pool s !! thread_id) in
  match waiting with
  | conn :: rest =>
      let s1 := mkState (<[thread_id := rest]> (pool s)) (opened s) (closed s) in
      (Some conn,
       match c with BodyRaises => true | _ => false end,
       give_back thread_id conn s1)
  | [] =>
      let s1 := mkState (<[thread_id := []]> (pool s)) (opened s) (closed s) in
      match c with
      | ConnectRaises => (None, true, s1)
      | _ =>
          let conn := opened s in
          (Some conn,
           match c with BodyRaises => true | _ => false end,
           give_back thread_id conn
             (mkState (pool s1) (S (opened s)) (closed s1)))
      end
  end.

(** The state after a sequence of uses, each by a thread. *)
Definition uses (calls : list (Z * course)) (s : state) : state :=
  fold_left (fun s c => snd (get_connection (fst c) (snd c) s)) calls s.

(** What holds of the pool between two uses: nothing was closed, and the
    threads in [live] each have one connection waiting, the others none. *)
Definition pool_inv (threads live : gset Z) (s : state) : Prop :=
  closed s = []
  /\ opened s = size live
  /\ live ⊆ threads
  /\ dom (pool s) = threads
  /\ (forall t, t ∈ live -> exists conn, pool s !! t = Some [conn])
  /\ (forall t, t ∉ live -> pool s !! t = None \/ pool s !! t = Some []).

End ConnectionPool.

(* ===================================================================== *)
(** ** payments.py *)
(* ===================================================================== *)

Module Payments.

(** What one [session.request] call does: it raises, or a response with a
    status code and a body arrives ([None] for a body that is not JSON). *)
Inductive request_outcome :=
| RaiseTimeout
| RaiseConnectionError
| RaiseRequestException
| RaiseException
| Response (status_code : Z) (body : option Json.dict).

(** What the module reads from its surroundings: the configuration read
    from the process environment, the clock, the text of a float, and the
    answers of the network. *)
Record environment := mkEnv {
  OXAPAY_API_KEY : option str;
  CRYPTOMUS_API_KEY : option str;
  CRYPTOMUS_MERCHANT_ID : option str;
  NOWPAYMENTS_API_KEY : option str;
  RETURN_URL_BASE : str;
  USDT_WALLET_ADDRESS : option str;
  STRIPE_SECRET_KEY : option str;
  (** [int(time.time())] *)
  clock : Z;
  (** [str(x)] of a float *)
  float_str : Q -> str;
  (** the outcome of the request to a URL at a given attempt *)
  network : str -> nat -> request_outcome;
  (** the [stripe] library: absent, or the outcome of
      [checkout.Session.create] (an exception, or the id and url) *)
  stripe : option (option (str * str))
}.

(** What a call does to the outside world. *)
Inductive event :=
| Sleep (seconds : Z)
| Request (url : str) (attempt : nat)
| StripeCall.

(** Truth value of an optional string: [None] and [''] are false. *)
Definition truthy (o : option str) : bool :=
  match o with Some (_ :: _) => true | _ => false end.

(** A value of a result dictionary. *)
Inductive result_value :=
| RStr (s : str)
| RBool (b : bool)
| RNum (q : Q)
| RGet (v : option Json.value).

Abbreviation result := (list (str * result_value)).

(** [response.raise_for_status()] raises [HTTPError] on 4xx and 5xx. *)
Definition raise_for_status (status_code : Z) : bool :=
  (400 <=? status_code) && (status_code <? 600).

(** The [for attempt in range(self.max_retries + 1)] loop of
    [_make_request], from [attempt] on with [remaining] iterations left.
    The four [except] clauses do the same up to the text they log. *)
Fixpoint request_loop (max_retries : nat) (net : nat -> request_outcome)
    (url : str) (remaining attempt : nat) : option Json.dict * list event :=
  match remaining with
  | O => (None, [])
  | S remaining' =>
      let backoff :=
        if (0 <? attempt)%nat then [Sleep (2 ^ Z.of_nat attempt)] else [] in
      let handler :=
        if (attempt =? max_retries)%nat then (None, [])
        else request_loop max_retries net url remaining' (S attempt) in
      let '(answer, later) :=
        match net attempt with
        | Response status_code body =>
            if raise_for_status status_code then handler else (body, [])
        | _ => handler
        end in
      (answer, backoff ++ Request url attempt :: later)
  end.

(** [PaymentGateway._make_request] *)
Definition _make_request (max_retries : nat) (net : nat -> request_outcome)
    (url : str) : option Json.dict * list event :=
  request_loop max_retries net url (S max_retries) 0.

(** Whether an attempt ends in one of the [except] clauses: the request
    raised, or [raise_for_status] raised on the response. *)
Definition attempt_raises (o : request_outcome) : bool :=
  match o with
  | Response status_code _ => raise_for_status status_code
  | _ => true
  end.

(** The value [_make_request] returns from an attempt that does not
    raise: [response.json()], or [None] for a body that is not JSON. *)
Definition response_json (o : request_outcome) : option Json.dict :=
  match o with
  | Response _ body => body
  | _ => None
  end.

(** What attempt [k] does to the outside: the backoff sleep of
    [2 ** k] seconds before every attempt but the first, then the
    request. *)
Definition attempt_events (url : str) (k : nat) : list event :=
  (if (0 <? k)%nat then [Sleep (2 ^ Z.of_nat k)] else []) ++ [Request url k].

(** The [max_retries] every gateway is constructed with. *)
Definition MAX_RETRIES : nat := 3.

(** [if response:] for an optional dictionary. *)
Definition nonempty (r : option Json.dict) : option Json.dict :=
  match r with Some ((_ :: _) as d) => Some d | _ => None end.

(** [OxaPay.create_payment] *)
Definition OxaPay_create_payment (env : environment) (amount : Q)
    : option result * list event :=
  let url := py "https://api.oxapay.com/merchants/request" in
  if negb (truthy (OXAPAY_API_KEY env)) then (None, [])
  else if Qle_bool amount 0 then (None, [])
  else
    let '(response, events) := _make_request MAX_RETRIES (network env url) url in
    match nonempty response with
    | Some r =>
        match Json.get (py "result") r with
        | Some (Json.JInt 100) =>
            (Some [(py "trackId", RGet (Json.get (py "trackId") r));
                   (py "payLink", RGet (Json.get (py "payLink") r));
                   (py "amount", RGet (Json.get (py "amount") r));
                   (py "currency", RGet (Json.get (py "currency") r))], events)
        | _ => (None, events)
        end
    | None => (None, events)
    end.

(** [Cryptomus.create_payment]; [response["result"].get] on a value that
    is not a dictionary raises, which [generate_payment_link] catches. *)
Definition Cryptomus_create_payment (env : environment) (amount : Q)
    : option result * list event :=
  let url := py "https://api.cryptomus.com/v1/payment" in
  if negb (truthy (CRYPTOMUS_API_KEY env))
     || negb (truthy (CRYPTOMUS_MERCHANT_ID env)) then (None, [])
  else if Qle_bool amount 0 then (None, [])
  else
    let '(response, events) := _make_request MAX_RETRIES (network env url) url in
    match nonempty response with
    | Some r =>
        let state_is_0 :=
          match Json.get (py "state") r with
          | Some (Json.JInt 0) | Some (Json.JBool false) => true
          | _ => false
          end in
        match state_is_0, Json.get (py "result") r with
        | true, Some (Json.JObj res) =>
            (Some [(py "uuid", RGet (Json.get (py "uuid") res));
                   (py "url", RGet (Json.get (py "url") res));
                   (py "amount", RGet (Json.get (py "amount") res));
                   (py "currency", RGet (Json.get (py "currency") res))], events)
        | _, _ => (None, events)
        end
    | None => (None, events)
    end.

(** [NOWPayments.create_payment] *)
Definition NOWPayments_create_payment (env : environment) (amount : Q)
    : option result * list event :=
  let url := py "https://api.nowpayments.io/v1/invoice" in
  if negb (truthy (NOWPAYMENTS_API_KEY env)) then (None, [])
  else if Qle_bool amount 0 then (None, [])
  else
    let '(response, events) := _make_request MAX_RETRIES (network env url) url in
    match nonempty response with
    | Some r =>
        match Json.get (py "invoice_url") r with
        | Some _ =>
            (Some [(py "id", RGet (Json.get (py "id") r));
                   (py "invoice_url", RGet (Json.get (py "invoice_url") r));
                   (py "price_amount", RGet (Json.get (py "price_amount") r));
                   (py "price_currency", RGet (Json.get (py "price_currency") r))],
             events)
        | None => (None, events)
        end
    | None => (None, events)
    end.

(** [StripePayment.create_payment] *)
Definition StripePayment_create_payment (env : environment) (amount : Q)
    : option result * list event :=
  match stripe env with
  | None => (None, [])
  | Some session =>
      if negb (truthy (STRIPE_SECRET_KEY env)) then (None, [])
      else match session with
           | Some (id, url) =>
               (Some [(py "id", RStr id); (py "url", RStr url);
                      (py "amount", RNum amount); (py "currency", RStr (py "USD"))],
                [StripeCall])
           | None => (None, [StripeCall])
           end
  end.

(** *** The redirect provider *)

(** The characters [urllib.parse.quote] never escapes. *)
Definition unreserved (c : ascii) : bool :=
  let n := Py.ord c in
  Py.isupper_ascii c || Py.islower_ascii c || Py.isdecimal c
  || (n =? 95) || (n =? 46) || (n =? 45) || (n =? 126).

Definition HEX_digit (n : Z) : ascii :=
  if n <? 10 then Py.chr (48 + n) else Py.chr (55 + n).

Definition percent (b : Z) : str :=
  "%"%char :: [HEX_digit (b / 16); HEX_digit (b mod 16)].

(** [urllib.parse.quote_plus] *)
Definition quote_plus (s : str) : str :=
  flat_map (fun c =>
              if unreserved c then [c]
              else if bool_decide (c = " "%char) then py "+"
              else flat_map percent (Py.utf8 c)) s.

(** [urllib.parse.urlencode] of a dictionary of strings. *)
Definition urlencode (params : list (str * str)) : str :=
  Json.join (py "&")
    (map (fun kv => quote_plus (fst kv) ++ py "=" ++ quote_plus (snd kv)) params).

(** The key the [Transak] class is constructed with by default. *)
Definition TRANSAK_API_KEY : str := py "4fcd6904-706b-4e0e-9764-159cc4142646".

(** The query parameters of [Transak.create_payment_link]; a wallet that
    is [None] is written as the text [None] by [urlencode]. *)
Definition transak_params (env : environment) (amount : Q)
    (currency crypto_currency net : str) : list (str * str) :=
  [(py "apiKey", TRANSAK_API_KEY);
   (py "defaultCryptoCurrency", crypto_currency);
   (py "defaultNetwork", net);
   (py "defaultFiatAmount", float_str env amount);
   (py "defaultFiatCurrency", currency);
   (py "walletAddress", default (py "None") (USDT_WALLET_ADDRESS env));
   (py "redirectURL", RETURN_URL_BASE env);
   (py "disableWalletAddressForm", py "true");
   (py "hideMenu", py "true");
   (py "exchangeScreenTitle", py "Pagar VIP V-Strike");
   (py "cryptoCurrencyList", py "USDT");
   (py "networks", py "tron")].

(** [Transak.create_payment_link] *)
Definition Transak_create_payment_link (env : environment) (amount : Q)
    (currency crypto_currency net : str) : result * list event :=
  let query_string :=
    urlencode (transak_params env amount currency crypto_currency net) in
  let payment_url := py "https://global.transak.com" ++ py "?" ++ query_string in
  ([(py "ok", RBool true);
    (py "pay_url", RStr payment_url);
    (py "order_id", RStr (py "transak_" ++ Py.str_of_int (clock env)));
    (py "amount", RNum amount);
    (py "currency", RStr currency)], []).

(** *** The entry point *)

Definition mock (id_key : string) (id : str) (url_key : string) (url : str)
    : result :=
  [(py id_key, RStr id); (py url_key, RStr url)].

(** [generate_payment_link].  The result is [None] where the function
    returns [None]; the events are the calls made to the outside. *)
Definition generate_payment_link (env : environment)
    (method : str) (amount : Q) (order_id : str) (user_id : Z)
    : option result * list event :=
  if bool_decide (method = []) || Qeq_bool amount 0
     || bool_decide (order_id = []) || (user_id =? 0)
  then (None, [])
  else if Qle_bool amount 0 then (None, [])
  else if Py.str_eqb method (py "Transak") then
    if negb (truthy (USDT_WALLET_ADDRESS env)) then (None, [])
    else
      let '(link, events) :=
        Transak_create_payment_link env amount (py "USD") (py "USDT") (py "tron") in
      (Some link, events)
  else if negb (bool_decide
                  (method ∈ [py "OxaPay"; py "Cryptomus"; py "NOWPayments";
                             py "Stripe"]))
  then (None, [])
  else if Py.str_eqb method (py "OxaPay") then
    if negb (truthy (OXAPAY_API_KEY env)) then
      (Some (mock "trackId" order_id "payLink"
               (py "https://oxapay.com/pay/" ++ order_id ++ py " (MOCK)")), [])
    else OxaPay_create_payment env amount
  else if Py.str_eqb method (py "Cryptomus") then
    if negb (truthy (CRYPTOMUS_API_KEY env)) then
      (Some (mock "uuid" order_id "url"
               (py "https://cryptomus.com/pay/" ++ order_id ++ py " (MOCK)")), [])
    else Cryptomus_create_payment env amount
  else if Py.str_eqb method (py "NOWPayments") then
    if negb (truthy (NOWPAYMENTS_API_KEY env)) then
      (Some (mock "id" order_id "invoice_url"
               (py "https://nowpayments.io/payment/" ++ order_id ++ py " (MOCK)")), [])
    else NOWPayments_create_payment env amount
  else
    if negb (truthy (STRIPE_SECRET_KEY env)) then
      (Some (mock "id" (py "mock_sess") "url"
               (py "https://stripe.com/docs/testing (MOCK)")), [])
    else StripePayment_create_payment env amount.

(** The requests among the events of a call. *)
Definition requests (events : list event) : list (str * nat) :=
  flat_map (fun e => match e with Request url k => [(url, k)] | _ => [] end)
           events.

(** The seconds a call slept. *)
Definition slept (events : list event) : Z :=
  fold_right (fun e acc => match e with Sleep s => s + acc | _ => acc end)
             0 events.

(** The characters [quote_plus] writes: the unreserved ones, the plus sign
    for a space and the percent sign of an escape. *)
Definition url_safe (c : ascii) : bool :=
  unreserved c || bool_decide (c = "+"%char) || bool_decide (c = "%"%char).

End Payments.

(* ===================================================================== *)
(** ** bridge.py *)
(* ===================================================================== *)

Module Bridge.

(** The dictionary [send_payment_notification] puts on the queue. *)
Record notification := mkNotification {
  type : str;
  order_id : str;
  user_id : Z;
  message : str;
  admin_id : option Z
}.

(** A [queue.Queue]: its [maxsize] and the items waiting, oldest first. *)
Record Queue := mkQueue {
  maxsize : Z;
  items : list notification
}.

(** [queue.Queue()]: [maxsize] defaults to 0. *)
Definition new_Queue : Queue := mkQueue 0 [].

(** [_sync_queue = queue.Queue()] *)
Definition _sync_queue : Queue := new_Queue.

(** What a call that may wait does: it comes back, or it waits for the
    consumer. *)
Inductive call (A : Type) :=
| Returns (a : A) (q : Queue)
| Blocks.
Arguments Returns {A}.
Arguments Blocks {A}.

(** [Queue.put(item)] with [block=True] and no timeout: it waits while
    [maxsize > 0] and [qsize() >= maxsize], and never raises [Full]. *)
Definition put (q : Queue) (item : notification) : call unit :=
  if (0 <? maxsize q) && (maxsize q <=? Z.of_nat (List.length (items q)))
  then Blocks
  else Returns tt (mkQueue (maxsize q) (items q ++ [item])).

(** [send_payment_notification], on the current state of [_sync_queue]. *)
Definition send_payment_notification (q : Queue)
    (order_id : str) (user_id : Z) (message : str) (admin_id : option Z)
    : call bool :=
  match put q (mkNotification (py "payment_notification")
                 order_id user_id message admin_id) with
  | Returns _ q' => Returns true q'
  | Blocks => Blocks
  end.

(** The states of [_sync_queue]: it is created once and only its items
    change. *)
Definition sync_queue_state (q : Queue) : Prop := maxsize q = maxsize _sync_queue.

(** The default of [message]: its first character is U+00A1. *)
Definition DEFAULT_MESSAGE : str := Py.chr 161 :: py "Pago completado!".

(** [notify_user_success] *)
Definition notify_user_success (q : Queue)
    (order_id : str) (user_id : Z) (admin_id : option Z) : call bool :=
  send_payment_notification q order_id user_id DEFAULT_MESSAGE admin_id.

(** A text sent to Telegram is held as its code points: the texts of
    [_handle_payment_notification] have characters above U+00FF. *)
Definition code_points (s : str) : list Z := map Py.ord s.

(** One [bot.send_message(chat_id=..., text=...)] that did not raise. *)
Record delivery := mkDelivery { chat_id : Z; text : list Z }.

(** The text for the user: U+2705, the message, the order and U+1F31F. *)
Definition user_text (data : notification) : list Z :=
  [0x2705] ++ code_points (py " ") ++ code_points (message data)
  ++ [10; 10] ++ code_points (py "Orden: ") ++ code_points (order_id data)
  ++ [10; 10; 0x1F31F] ++ code_points (py " Ya eres VIP!").

(** The text for the admin: U+1F4B0, the user and the order. *)
Definition admin_text (data : notification) : list Z :=
  [0x1F4B0] ++ code_points (py " Nueva venta completada!")
  ++ [10; 10] ++ code_points (py "Usuario: ")
  ++ code_points (Py.str_of_int (user_id data))
  ++ [10] ++ code_points (py "Orden: ") ++ code_points (order_id data).

(** [data.get('admin_id') or config.ADMIN_ID] *)
Definition admin_of (ADMIN_ID : Z) (data : notification) : Z :=
  match admin_id data with
  | Some a => if a =? 0 then ADMIN_ID else a
  | None => ADMIN_ID
  end.

Definition to_user (data : notification) : delivery :=
  mkDelivery (user_id data) (user_text data).

Definition to_admin (ADMIN_ID : Z) (data : notification) : delivery :=
  mkDelivery (admin_of ADMIN_ID data) (admin_text data).

(** [_handle_payment_notification].  [raises k] says that the call number
    [k] of [bot.send_message] raises, [k] counts the calls made before;
    the result is what was delivered and the new count.  The [except]
    clause ends the function at the first call that raises. *)
Definition _handle_payment_notification (ADMIN_ID : Z) (raises : nat -> bool)
    (k : nat) (data : notification) : list delivery * nat :=
  if raises k then ([], S k)
  else if raises (S k) then ([to_user data], S (S k))
  else ([to_user data; to_admin ADMIN_ID data], S (S k)).

(** The [while not _sync_queue.empty()] loop of [bridge_task] on the items
    that wait. *)
Fixpoint drain (ADMIN_ID : Z) (raises : nat -> bool) (k : nat)
    (waiting : list notification) : list delivery * nat :=
  match waiting with
  | [] => ([], k)
  | data :: rest =>
      if Py.str_eqb (type data) (py "payment_notification") then
        let '(first, k1) := _handle_payment_notification ADMIN_ID raises k data in
        let '(later, k2) := drain ADMIN_ID raises k1 rest in
        (first ++ later, k2)
      else drain ADMIN_ID raises k rest
  end.

(** One round of the outer loop of [bridge_task], during which no other
    thread puts an item: what was delivered, the count of
    [bot.send_message] calls, and the queue the round leaves. *)
Definition bridge_task_round (ADMIN_ID : Z) (raises : nat -> bool) (k : nat)
    (q : Queue) : list delivery * nat * Queue :=
  let '(delivered, k') := drain ADMIN_ID raises k (items q) in
  (delivered, k', mkQueue (maxsize q) []).

(** A call of one of the two producers. *)
Inductive producer_call :=
| CallSendPaymentNotification (o : str) (u : Z) (m : str) (a : option Z)
| CallNotifyUserSuccess (o : str) (u : Z) (a : option Z).

Definition produce (q : Queue) (c : producer_call) : call bool :=
  match c with
  | CallSendPaymentNotification o u m a => send_payment_notification q o u m a
  | CallNotifyUserSuccess o u a => notify_user_success q o u a
  end.

(** The queue after a sequence of producer calls, when none of them
    waits. *)
Fixpoint produce_all (q : Queue) (cs : list producer_call) : option Queue :=
  match cs with
  | [] => Some q
  | c :: cs' =>
      match produce q c with
      | Returns _ q' => produce_all q' cs'
      | Blocks => None
      end
  end.

(** The record a producer call describes. *)
Definition described (c : producer_call) : notification :=
  match c with
  | CallSendPaymentNotification o u m a =>
      mkNotification (py "payment_notification") o u m a
  | CallNotifyUserSuccess o u a =>
      mkNotification (py "payment_notification") o u DEFAULT_MESSAGE a
  end.

End Bridge.

(* ===================================================================== *)
(** ** hashlib.sha256 and hmac *)
(* ===================================================================== *)

Module Sha256.

(** Words are 32-bit, held in [Z] and reduced after each addition. *)
Definition w32 (x : Z) : Z := x mod 2 ^ 32.
Definition add32 (x y : Z) : Z := w32 (x + y).
Definition not32 (x : Z) : Z := Z.lxor x (2 ^ 32 - 1).
Definition rotr (n x : Z) : Z :=
  Z.lor (Z.shiftr x n) (w32 (Z.shiftl x (32 - n))).

Definition Ch (x y z : Z) : Z := Z.lxor (Z.land x y) (Z.land (not32 x) z).
Definition Maj (x y z : Z) : Z :=
  Z.lxor (Z.lxor (Z.land x y) (Z.land x z)) (Z.land y z).
Definition bsig0 (x : Z) : Z := Z.lxor (Z.lxor (rotr 2 x) (rotr 13 x)) (rotr 22 x).
Definition bsig1 (x : Z) : Z := Z.lxor (Z.lxor (rotr 6 x) (rotr 11 x)) (rotr 25 x).
Definition ssig0 (x : Z) : Z := Z.lxor (Z.lxor (rotr 7 x) (rotr 18 x)) (Z.shiftr x 3).
Definition ssig1 (x : Z) : Z := Z.lxor (Z.lxor (rotr 17 x) (rotr 19 x)) (Z.shiftr x 10).

(** The round constants. *)
Definition K : list Z :=
  [0x428A2F98; 0x71374491; 0xB5C0FBCF; 0xE9B5DBA5] ++
  [0x3956C25B; 0x59F111F1; 0x923F82A4; 0xAB1C5ED5] ++
  [0xD807AA98; 0x12835B01; 0x243185BE; 0x550C7DC3] ++
  [0x72BE5D74; 0x80DEB1FE; 0x9BDC06A7; 0xC19BF174] ++
  [0xE49B69C1; 0xEFBE4786; 0x0FC19DC6; 0x240CA1CC] ++
  [0x2DE92C6F; 0x4A7484AA; 0x5CB0A9DC; 0x76F988DA] ++
  [0x983E5152; 0xA831C66D; 0xB00327C8; 0xBF597FC7] ++
  [0xC6E00BF3; 0xD5A79147; 0x06CA6351; 0x14292967] ++
  [0x27B70A85; 0x2E1B2138; 0x4D2C6DFC; 0x53380D13] ++
  [0x650A7354; 0x766A0ABB; 0x81C2C92E; 0x92722C85] ++
  [0xA2BFE8A1; 0xA81A664B; 0xC24B8B70; 0xC76C51A3] ++
  [0xD192E819; 0xD6990624; 0xF40E3585; 0x106AA070] ++
  [0x19A4C116; 0x1E376C08; 0x2748774C; 0x34B0BCB5] ++
  [0x391C0CB3; 0x4ED8AA4A; 0x5B9CCA4F; 0x682E6FF3] ++
  [0x748F82EE; 0x78A5636F; 0x84C87814; 0x8CC70208] ++
  [0x90BEFFFA; 0xA4506CEB; 0xBEF9A3F7; 0xC67178F2].

(** The initial hash value. *)
Definition H0 : list Z :=
  [0x6A09E667; 0xBB67AE85; 0x3C6EF372; 0xA54FF53A] ++
  [0x510E527F; 0x9B05688C; 0x1F83D9AB; 0x5BE0CD19].

(** Big-endian bytes of a number, [n] of them. *)
Fixpoint be_bytes (n : nat) (x : Z) : list Z :=
  match n with
  | O => []
  | S n' => (x / 256 ^ Z.of_nat n') mod 256 :: be_bytes n' x
  end.

(** The message followed by the bit 1, zeros, and its length in bits on 64
    bits, up to a multiple of 64 bytes. *)
Definition pad (msg : list Z) : list Z :=
  let len := Z.of_nat (List.length msg) in
  let zeros := Z.to_nat ((55 - len) mod 64) in
  msg ++ [128] ++ repeat 0 zeros ++ be_bytes 8 (8 * len).

(** Big-endian words of a byte string whose length is a multiple of 4. *)
Fixpoint words (bytes : list Z) : list Z :=
  match bytes with
  | b0 :: b1 :: b2 :: b3 :: rest =>
      (((b0 * 256 + b1) * 256 + b2) * 256 + b3) :: words rest
  | _ => []
  end.

(** The message schedule, most recent word first. *)
Fixpoint schedule (n : nat) (rw : list Z) : list Z :=
  match n with
  | O => rw
  | S n' =>
      let wt :=
        add32 (add32 (ssig1 (nth 1 rw 0)) (nth 6 rw 0))
              (add32 (ssig0 (nth 14 rw 0)) (nth 15 rw 0)) in
      schedule n' (wt :: rw)
  end.

(** One round on the working variables a..h, given as a list. *)
Definition round (v : list Z) (kw : Z * Z) : list Z :=
  match v with
  | [a; b; c; d; e; f; g; h] =>
      let t1 := add32 (add32 (add32 h (bsig1 e)) (add32 (Ch e f g) (fst kw))) (snd kw) in
      let t2 := add32 (bsig0 a) (Maj a b c) in
      [add32 t1 t2; a; b; c; add32 d t1; e; f; g]
  | _ => v
  end.

(** The compression of one 16-word block into the hash value. *)
Definition compress (h : list Z) (block : list Z) : list Z :=
  let w := rev (schedule 48 (rev block)) in
  let v := fold_left round (combine K w) h in
  map (fun xy => add32 (fst xy) (snd xy)) (combine h v).

(** The 16-word blocks of a word list. *)
Fixpoint blocks (n : nat) (ws : list Z) : list (list Z) :=
  match n with
  | O => []
  | S n' => take 16 ws :: blocks n' (drop 16 ws)
  end.

(** [hashlib.sha256(msg).digest()] *)
Definition sha256 (msg : list Z) : list Z :=
  let ws := words (pad msg) in
  let digest := fold_left compress (blocks (List.length ws / 16) ws) H0 in
  flat_map (be_bytes 4) digest.

Definition BLOCK_SIZE : nat := 64.

(** [hmac.new(key, msg, hashlib.sha256).digest()]: a key longer than a
    block is hashed, then the key is filled with zero bytes to a block. *)
Definition hmac (key msg : list Z) : list Z :=
  let key' := if (BLOCK_SIZE <? List.length key)%nat then sha256 key else key in
  let block := key' ++ repeat 0 (BLOCK_SIZE - List.length key') in
  let inner := sha256 (map (Z.lxor 54) block ++ msg) in
  sha256 (map (Z.lxor 92) block ++ inner).

(** [.hexdigest()]: two lower-case hexadecimal digits per byte. *)
Definition hex (bytes : list Z) : str :=
  flat_map (fun b => [Json.hex_digit (b / 16); Json.hex_digit (b mod 16)]) bytes.

End Sha256.

(* ===================================================================== *)
(** ** hashlib.sha512 *)
(* ===================================================================== *)

Module Sha512.

(** Words are 64-bit, held in [Z] and reduced after each addition. *)
Definition w64 (x : Z) : Z := x mod 2 ^ 64.
Definition add64 (x y : Z) : Z := w64 (x + y).
Definition not64 (x : Z) : Z := Z.lxor x (2 ^ 64 - 1).
Definition rotr (n x : Z) : Z :=
  Z.lor (Z.shiftr x n) (w64 (Z.shiftl x (64 - n))).

Definition Ch (x y z : Z) : Z := Z.lxor (Z.land x y) (Z.land (not64 x) z).
Definition Maj (x y z : Z) : Z :=
  Z.lxor (Z.lxor (Z.land x y) (Z.land x z)) (Z.land y z).
Definition bsig0 (x : Z) : Z := Z.lxor (Z.lxor (rotr 28 x) (rotr 34 x)) (rotr 39 x).
Definition bsig1 (x : Z) : Z := Z.lxor (Z.lxor (rotr 14 x) (rotr 18 x)) (rotr 41 x).
Definition ssig0 (x : Z) : Z := Z.lxor (Z.lxor (rotr 1 x) (rotr 8 x)) (Z.shiftr x 7).
Definition ssig1 (x : Z) : Z := Z.lxor (Z.lxor (rotr 19 x) (rotr 61 x)) (Z.shiftr x 6).

(** The round constants. *)
Definition K : list Z :=
  [0x428A2F98D728AE22; 0x7137449123EF65CD] ++
  [0xB5C0FBCFEC4D3B2F; 0xE9B5DBA58189DBBC] ++
  [0x3956C25BF348B538; 0x59F111F1B605D019] ++
  [0x923F82A4AF194F9B; 0xAB1C5ED5DA6D8118] ++
  [0xD807AA98A3030242; 0x12835B0145706FBE] ++
  [0x243185BE4EE4B28C; 0x550C7DC3D5FFB4E2] ++
  [0x72BE5D74F27B896F; 0x80DEB1FE3B1696B1] ++
  [0x9BDC06A725C71235; 0xC19BF174CF692694] ++
  [0xE49B69C19EF14AD2; 0xEFBE4786384F25E3] ++
  [0x0FC19DC68B8CD5B5; 0x240CA1CC77AC9C65] ++
  [0x2DE92C6F592B0275; 0x4A7484AA6EA6E483] ++
  [0x5CB0A9DCBD41FBD4; 0x76F988DA831153B5] ++
  [0x983E5152EE66DFAB; 0xA831C66D2DB43210] ++
  [0xB00327C898FB213F; 0xBF597FC7BEEF0EE4] ++
  [0xC6E00BF33DA88FC2; 0xD5A79147930AA725] ++
  [0x06CA6351E003826F; 0x142929670A0E6E70] ++
  [0x27B70A8546D22FFC; 0x2E1B21385C26C926] ++
  [0x4D2C6DFC5AC42AED; 0x53380D139D95B3DF] ++
  [0x650A73548BAF63DE; 0x766A0ABB3C77B2A8] ++
  [0x81C2C92E47EDAEE6; 0x92722C851482353B] ++
  [0xA2BFE8A14CF10364; 0xA81A664BBC423001] ++
  [0xC24B8B70D0F89791; 0xC76C51A30654BE30] ++
  [0xD192E819D6EF5218; 0xD69906245565A910] ++
  [0xF40E35855771202A; 0x106AA07032BBD1B8] ++
  [0x19A4C116B8D2D0C8; 0x1E376C085141AB53] ++
  [0x2748774CDF8EEB99; 0x34B0BCB5E19B48A8] ++
  [0x391C0CB3C5C95A63; 0x4ED8AA4AE3418ACB] ++
  [0x5B9CCA4F7763E373; 0x682E6FF3D6B2B8A3] ++
  [0x748F82EE5DEFB2FC; 0x78A5636F43172F60] ++
  [0x84C87814A1F0AB72; 0x8CC702081A6439EC] ++
  [0x90BEFFFA23631E28; 0xA4506CEBDE82BDE9] ++
  [0xBEF9A3F7B2C67915; 0xC67178F2E372532B] ++
  [0xCA273ECEEA26619C; 0xD186B8C721C0C207] ++
  [0xEADA7DD6CDE0EB1E; 0xF57D4F7FEE6ED178] ++
  [0x06F067AA72176FBA; 0x0A637DC5A2C898A6] ++
  [0x113F9804BEF90DAE; 0x1B710B35131C471B] ++
  [0x28DB77F523047D84; 0x32CAAB7B40C72493] ++
  [0x3C9EBE0A15C9BEBC; 0x431D67C49C100D4C] ++
  [0x4CC5D4BECB3E42B6; 0x597F299CFC657E2A] ++
  [0x5FCB6FAB3AD6FAEC; 0x6C44198C4A475817].

(** The initial hash value. *)
Definition H0 : list Z :=
  [0x6A09E667F3BCC908; 0xBB67AE8584CAA73B] ++
  [0x3C6EF372FE94F82B; 0xA54FF53A5F1D36F1] ++
  [0x510E527FADE682D1; 0x9B05688C2B3E6C1F] ++
  [0x1F83D9ABFB41BD6B; 0x5BE0CD19137E2179].

(** The message followed by the bit 1, zeros, and its length in bits on
    128 bits, up to a multiple of 128 bytes. *)
Definition pad (msg : list Z) : list Z :=
  let len := Z.of_nat (List.length msg) in
  let zeros := Z.to_nat ((111 - len) mod 128) in
  msg ++ [128] ++ repeat 0 zeros ++ Sha256.be_bytes 16 (8 * len).

(** Big-endian words of a byte string whose length is a multiple of 8. *)
Fixpoint words (bytes : list Z) : list Z :=
  match bytes with
  | b0 :: b1 :: b2 :: b3 :: b4 :: b5 :: b6 :: b7 :: rest =>
      fold_left (fun acc b => acc * 256 + b) [b1; b2; b3; b4; b5; b6; b7] b0
      :: words rest
  | _ => []
  end.

(** The message schedule, most recent word first. *)
Fixpoint schedule (n : nat) (rw : list Z) : list Z :=
  match n with
  | O => rw
  | S n' =>
      let wt :=
        add64 (add64 (ssig1 (nth 1 rw 0)) (nth 6 rw 0))
              (add64 (ssig0 (nth 14 rw 0)) (nth 15 rw 0)) in
      schedule n' (wt :: rw)
  end.

(** One round on the working variables a..h, given as a list. *)
Definition round (v : list Z) (kw : Z * Z) : list Z :=
  match v with
  | [a; b; c; d; e; f; g; h] =>
      let t1 := add64 (add64 (add64 h (bsig1 e)) (add64 (Ch e f g) (fst kw))) (snd kw) in
      let t2 := add64 (bsig0 a) (Maj a b c) in
      [add64 t1 t2; a; b; c; add64 d t1; e; f; g]
  | _ => v
  end.

(** The compression of one 16-word block into the hash value. *)
Definition compress (h : list Z) (block : list Z) : list Z :=
  let w := rev (schedule 64 (rev block)) in
  let v := fold_left round (combine K w) h in
  map (fun xy => add64 (fst xy) (snd xy)) (combine h v).

(** [hashlib.sha512(msg).digest()] *)
Definition sha512 (msg : list Z) : list Z :=
  let ws := words (pad msg) in
  let digest :=
    fold_left compress (Sha256.blocks (List.length ws / 16) ws) H0 in
  flat_map (Sha256.be_bytes 8) digest.

Definition BLOCK_SIZE : nat := 128.

(** [hmac.new(key, msg, hashlib.sha512).digest()]: a key longer than a
    block is hashed, then the key is filled with zero bytes to a block. *)
Definition hmac (key msg : list Z) : list Z :=
  let key' := if (BLOCK_SIZE <? List.length key)%nat then sha512 key else key in
  let block := key' ++ repeat 0 (BLOCK_SIZE - List.length key') in
  let inner := sha512 (map (Z.lxor 54) block ++ msg) in
  sha512 (map (Z.lxor 92) block ++ inner).

End Sha512.

(* ===================================================================== *)
(** ** webhook_validator.py *)
(* ===================================================================== *)

Module WebhookValidator.

(** The comparison loop behind [hmac.compare_digest]: every position of
    [b] is visited and the differences are accumulated; a length mismatch
    compares [b] with itself and sets the result beforehand. *)
Definition tscmp (a b : list Z) : bool :=
  let same_length := bool_decide (List.length a = List.length b) in
  let left := if same_length then a else b in
  let result :=
    fold_left (fun acc lr => Z.lor acc (Z.lxor (fst lr) (snd lr)))
              (combine left b) (if same_length then 0 else 1) in
  result =? 0.

Definition ascii_only (s : str) : bool := forallb (fun c => Py.ord c <? 128) s.

(** [hmac.compare_digest(a, b)] on two [str]: [TypeError] ([None]) unless
    both are ASCII. *)
Definition compare_digest (a b : str) : option bool :=
  if ascii_only a && ascii_only b
  then Some (tscmp (map Py.ord a) (map Py.ord b))
  else None.

(** The signature [verify_oxapay] expects. *)
Definition expected_signature (api_key payload : str) : str :=
  Sha256.hex (Sha256.hmac (Py.encode api_key) (Py.encode payload)).

(** [WebhookValidator.verify_oxapay]; an argument that is [None] is given
    as [None]. *)
Definition verify_oxapay (payload : str) (signature : option str)
    (api_key : option str) : bool :=
  match signature, api_key with
  | Some ((_ :: _) as sig), Some ((_ :: _) as key) =>
      match compare_digest (expected_signature key payload) sig with
      | Some equal => equal
      | None => false
      end
  | _, _ => false
  end.

(** The signature [verify_nowpayments] expects. *)
Definition expected_signature_sha512 (ipn_secret payload : str) : str :=
  Sha256.hex (Sha512.hmac (Py.encode ipn_secret) (Py.encode payload)).

(** [WebhookValidator.verify_nowpayments]; an argument that is [None] is
    given as [None]. *)
Definition verify_nowpayments (payload : str) (signature : option str)
    (ipn_secret : option str) : bool :=
  match signature, ipn_secret with
  | Some ((_ :: _) as sig), Some ((_ :: _) as secret) =>
      match compare_digest (expected_signature_sha512 secret payload) sig with
      | Some equal => equal
      | None => false
      end
  | _, _ => false
  end.

(** [key in data] *)
Definition has_key (k : str) (data : Json.dict) : bool :=
  bool_decide (k ∈ map fst data).

(** [validate_webhook_data] on a dictionary; [None] stands for an argument
    that is not a dictionary. *)
Definition validate_webhook_data (data : option Json.dict) : bool :=
  match data with
  | Some ((_ :: _) as d) =>
      existsb (fun field => has_key field d)
              [py "order_id"; py "orderId"; py "trackId"; py "id"]
  | _ => false
  end.

End WebhookValidator.

(* ===================================================================== *)
(** ** Sample data *)
(* ===================================================================== *)

Module Examples.
Import Database.

(** A database file created by [init_db]. *)
Definition fresh_db : database :=
  snd (run init_db no_faults (mkDb [] [] ∅ ∅)).

(** A database file whose [transactions] table was created with the
    [updated_at] column that the [UPDATE] of [update_transaction_status]
    names; [init_db] leaves such a table as it is. *)
Definition older_db : database :=
  snd (run init_db no_faults
         (mkDb [] (create_transactions_table ++ [py "updated_at"]) ∅ ∅)).

(** User 42 and the pending transaction [order_1] of 10.00 in a file. *)
Definition with_order (d : database) : database :=
  let d1 := snd (run (add_user 42 (py "2024-01-01T09:00:00")) no_faults d) in
  snd (run (create_transaction (py "order_1") (Validator.IdInt 42)
              (Validator.AmtNum 10) (py "OxaPay")
              (Validator.MStr (py "vip")) (py "2024-01-01T10:00:00"))
           no_faults d1).

Definition pending_ledger : database := with_order older_db.

(** The same ledger after the gateway reported [failed]. *)
Definition failed_ledger : database :=
  snd (run (update_transaction_status (py "order_1") (py "failed")
              (py "2024-01-01T11:00:00")) no_faults pending_ledger).

(** The third statement sent to the storage raises. *)
Definition third_statement_fails : nat -> bool := fun n => (n =? 2)%nat.

(** A gateway that answers every request with status 500. *)
Definition always_500 : nat -> Payments.request_outcome :=
  fun _ => Payments.Response 500 None.

(** A configuration with a receiving wallet and no gateway key. *)
Definition wallet_env : Payments.environment :=
  Payments.mkEnv None None None None (py "https://t.me/YourBotName")
    (Some (py "TTpXe9kQ1")) None 1700000000 (fun _ => py "10.0")
    (fun _ _ => Payments.RaiseTimeout) None.

(** The answer of OxaPay to an accepted request. *)
Definition oxapay_answer : Json.dict :=
  [(py "result", Json.JInt 100); (py "trackId", Json.JStr (py "T1"));
   (py "payLink", Json.JStr (py "https://oxapay.com/pay/T1"))].

(** A configuration with the OxaPay key; the first request times out and
    the second is answered. *)
Definition oxapay_env : Payments.environment :=
  Payments.mkEnv (Some (py "key")) None None None (py "https://t.me/YourBotName")
    None None 1700000000 (fun _ => py "10.0")
    (fun _ k => if (k =? 0)%nat then Payments.RaiseTimeout
                else Payments.Response 200 (Some oxapay_answer))
    None.

End Examples.

(* ===================================================================== *)
(** * Properties *)
(* ===================================================================== *)

(** ** The ledger *)

Section Ledger.
Import Database.

Ltac run_storage :=
  unfold run, update_transaction_status, create_transaction, try_except,
    mbind, storage_bind, bind, mret, storage_ret, ret,
    execute_update, execute_query; simpl.

Lemma prepare_inv d :
  update_statements_prepare d = true ->
  declared d Transactions ["status"; "processed_at"; "updated_at"; "tx_id"] = true
  /\ declared d Transactions ["user_id"; "tx_id"] = true
  /\ declared d Users ["is_vip"; "updated_at"; "telegram_id"] = true.
Proof.
  unfold update_statements_prepare.
  rewrite !andb_true_iff. tauto.
Qed.

Lemma declared_set_transactions d f t names :
  declared (set_transactions f d) t names = declared d t names.
Proof. by destruct t. Qed.

Lemma declared_set_users d f t names :
  declared (set_users f d) t names = declared d t names.
Proof. by destruct t. Qed.

(** The [UPDATE] on a table that has its columns rewrites the row. *)
Lemma sql_update_transaction_found d tx r stat now :
  update_statements_prepare d = true ->
  transactions d !! tx = Some r ->
  sql_update_transaction stat now tx d
  = Return (1%nat, set_transactions (insert tx (transitioned r stat now)) d).
Proof.
  intros (Hu & _ & _)%prepare_inv Hr.
  unfold sql_update_transaction. by rewrite Hu, Hr.
Qed.

(** On the table [init_db] creates, the [UPDATE] names a column that does
    not exist: the statement raises and the operation reports failure
    without writing, whatever the transaction and the status. *)
Lemma update_transaction_status_init_db_schema d tx stat now faults :
  transactions_columns d = create_transactions_table ->
  run (update_transaction_status tx stat now) faults d = (Return false, d).
Proof.
  intros Hc. run_storage.
  unfold sql_update_transaction, declared, columns. rewrite Hc.
  destruct (faults 0%nat); reflexivity.
Qed.

(** The three statements in a run where none raises. *)
Lemma update_transaction_status_run d tx r stat now :
  update_statements_prepare d = true ->
  transactions d !! tx = Some r ->
  run (update_transaction_status tx stat now) no_faults d
  = (Return true,
     let d1 := set_transactions (insert tx (transitioned r stat now)) d in
     if Py.str_eqb stat (py "completed") then
       match users d !! user_id r with
       | Some u => set_users (insert (user_id r) (upgraded u now)) d1
       | None => d1
       end
     else d1).
Proof.
  intros Hp Hr. pose proof (prepare_inv _ Hp) as (Hu & Hs & Hv).
  run_storage. rewrite (sql_update_transaction_found _ _ _ _ _ Hp Hr). simpl.
  destruct (Py.str_eqb stat (py "completed")); simpl; [|done].
  unfold sql_select_owner. rewrite declared_set_transactions, Hs. simpl.
  rewrite lookup_insert_eq. simpl.
  unfold sql_set_vip. rewrite declared_set_transactions, Hv. simpl.
  destruct (users d !! user_id r); done.
Qed.

(** The same run of a [completed] transition when statements may raise:
    each statement that went through stays committed. *)
Lemma update_transaction_status_completed_faults d tx r u now faults :
  update_statements_prepare d = true ->
  transactions d !! tx = Some r ->
  users d !! user_id r = Some u ->
  run (update_transaction_status tx (py "completed") now) faults d
  = let d1 :=
      set_transactions (insert tx (transitioned r (py "completed") now)) d in
    if faults 0%nat then (Return false, d)
    else if faults 1%nat || faults 2%nat then (Return false, d1)
    else (Return true, set_users (insert (user_id r) (upgraded u now)) d1).
Proof.
  intros Hp Hr Hu. pose proof (prepare_inv _ Hp) as (_ & Hs & Hv).
  run_storage. destruct (faults 0%nat); [done|].
  rewrite (sql_update_transaction_found _ _ _ _ _ Hp Hr). simpl.
  destruct (faults 1%nat); [done|]. simpl.
  unfold sql_select_owner. rewrite declared_set_transactions, Hs. simpl.
  rewrite lookup_insert_eq. simpl.
  destruct (faults 2%nat); [done|].
  unfold sql_set_vip. rewrite declared_set_transactions, Hv. simpl.
  by rewrite Hu.
Qed.

(** C1, as stated, fails.  On a table that has the [updated_at] column, a
    transaction already [failed] (terminal) is moved to [completed] by a
    later call, which also rewrites [processed_at] and makes its owner VIP,
    and the call reports success. *)
Lemma terminal_status_not_guarded :
  let tx := py "order_1" in
  let later := py "2024-01-02T08:00:00" in
  let d := Examples.failed_ledger in
  let '(res, d') :=
    run (update_transaction_status tx (py "completed") later) no_faults d in
  (terminal <$> (status <$> transactions d !! tx) = Some true
   /\ processed_at <$> transactions d !! tx = Some (Some (py "2024-01-01T11:00:00"))
   /\ is_vip <$> users d !! 42 = Some false)
  /\ res = Return true
  /\ status <$> transactions d' !! tx = Some (py "completed")
  /\ processed_at <$> transactions d' !! tx = Some (Some later)
  /\ is_vip <$> users d' !! 42 = Some true.
Proof. vm_compute. repeat split; reflexivity. Qed.

(** C1 (amended): when the table has the columns the [UPDATE] names, a
    call on a transaction whose status is already terminal is not a no-op:
    it reports success, stores the requested status and the current time
    as [processed_at], and, when the requested status is [completed], sets
    the owner's [is_vip]; for any other requested status the users are
    left as they are. *)
Theorem update_transaction_status_overwrites_terminal d tx r stat now :
  update_statements_prepare d = true ->
  transactions d !! tx = Some r ->
  terminal (status r) = true ->
  let '(res, d') := run (update_transaction_status tx stat now) no_faults d in
  res = Return true
  /\ status <$> transactions d' !! tx = Some stat
  /\ processed_at <$> transactions d' !! tx = Some (Some now)
  /\ (stat <> py "completed" -> users d' = users d)
  /\ (stat = py "completed" ->
      forall u, users d !! user_id r = Some u ->
                users d' !! user_id r = Some (upgraded u now)).
Proof.
  intros Hp Hr _. rewrite (update_transaction_status_run _ _ _ _ _ Hp Hr).
  unfold Py.str_eqb. case_bool_decide as Hc.
  - split; [done|]. destruct (users d !! user_id r) as [u|] eqn:Hu; simpl.
    + rewrite !lookup_insert_eq. repeat split; try done.
      intros _ u' [= <-]. done.
    + rewrite !lookup_insert_eq. repeat split; try done.
  - simpl. rewrite !lookup_insert_eq. repeat split; try done.
Qed.

Lemma update_transaction_status_overwrites_terminal_witness :
  let '(res, d') :=
    run (update_transaction_status (py "order_1") (py "refunded") (py "t"))
        no_faults Examples.failed_ledger in
  res = Return true /\ status <$> transactions d' !! py "order_1" = Some (py "refunded").
Proof.
  pose proof (update_transaction_status_overwrites_terminal
                Examples.failed_ledger (py "order_1")
                (transitioned
                   (mkTx 42 (Py.round2 10) (py "OxaPay") (py "vip") (py "pending")
                         (py "2024-01-01T10:00:00") None
                         (py "2024-01-01T10:00:00") None)
                   (py "failed") (py "2024-01-01T11:00:00"))
                (py "refunded") (py "t") eq_refl eq_refl eq_refl) as H.
  destruct (run _ _ _) as [res d']. destruct H as (H1 & H2 & _). by split.
Defined.

(** C2, as stated, fails.  On a table that has the [updated_at] column, a
    second delivery of [completed] replaces the [processed_at] written by
    the first. *)
Lemma second_completed_moves_processed_at :
  let tx := py "order_1" in
  let first := py "2024-01-01T11:00:00" in
  let second := py "2024-01-01T11:00:05" in
  let '(_, d1) :=
    run (update_transaction_status tx (py "completed") first) no_faults
        Examples.pending_ledger in
  let '(res2, d2) :=
    run (update_transaction_status tx (py "completed") second) no_faults d1 in
  processed_at <$> transactions d1 !! tx = Some (Some first)
  /\ res2 = Return true
  /\ processed_at <$> transactions d2 !! tx = Some (Some second)
  /\ processed_at <$> transactions d2 !! tx <> processed_at <$> transactions d1 !! tx.
Proof. vm_compute. repeat split; try reflexivity. discriminate. Qed.

(** C2 (amended): when the table has the columns the [UPDATE] names and no
    statement raises, two deliveries of [completed] both report success;
    the owner's [is_vip] is true after the first and still true after the
    second, which runs the VIP update again (the user's [updated_at]
    moves); [processed_at] is the time of the first delivery after the
    first and the time of the second after the second. *)
Theorem completed_delivered_twice d tx r u first second :
  update_statements_prepare d = true ->
  transactions d !! tx = Some r ->
  users d !! user_id r = Some u ->
  let '(res1, d1) :=
    run (update_transaction_status tx (py "completed") first) no_faults d in
  let '(res2, d2) :=
    run (update_transaction_status tx (py "completed") second) no_faults d1 in
  res1 = Return true /\ res2 = Return true
  /\ is_vip <$> users d1 !! user_id r = Some true
  /\ is_vip <$> users d2 !! user_id r = Some true
  /\ user_updated_at <$> users d2 !! user_id r = Some second
  /\ processed_at <$> transactions d1 !! tx = Some (Some first)
  /\ processed_at <$> transactions d2 !! tx = Some (Some second)
  /\ status <$> transactions d2 !! tx = Some (py "completed").
Proof.
  intros Hp Hr Hu.
  rewrite (update_transaction_status_completed_faults _ _ _ _ _ _ Hp Hr Hu).
  cbn [no_faults orb]. cbv zeta.
  set (d1 := set_users _ _).
  assert (Hr1 : transactions d1 !! tx = Some (transitioned r (py "completed") first))
    by apply lookup_insert_eq.
  assert (Hu1 : users d1 !! user_id (transitioned r (py "completed") first)
                = Some (upgraded u first)) by apply lookup_insert_eq.
  assert (Hp1 : update_statements_prepare d1 = true) by exact Hp.
  rewrite (update_transaction_status_completed_faults _ _ _ _ _ _ Hp1 Hr1 Hu1).
  cbn [no_faults orb]. cbv zeta. simpl.
  rewrite !lookup_insert_eq. done.
Qed.

Lemma completed_delivered_twice_witness :
  let '(_, d1) :=
    run (update_transaction_status (py "order_1") (py "completed") (py "t1"))
        no_faults Examples.pending_ledger in
  let '(_, d2) :=
    run (update_transaction_status (py "order_1") (py "completed") (py "t2"))
        no_faults d1 in
  is_vip <$> users d2 !! 42 = Some true
  /\ processed_at <$> transactions d2 !! py "order_1" = Some (Some (py "t2")).
Proof.
  pose proof (completed_delivered_twice
                Examples.pending_ledger (py "order_1")
                (mkTx 42 (Py.round2 10) (py "OxaPay") (py "vip") (py "pending")
                      (py "2024-01-01T10:00:00") None
                      (py "2024-01-01T10:00:00") None)
                (mkUser (py "2024-01-01T09:00:00") (py "2024-01-01T09:00:00")
                        false (py "2024-01-01T09:00:00"))
                (py "t1") (py "t2") eq_refl eq_refl eq_refl) as H.
  destruct (run _ _ Examples.pending_ledger) as [res1 d1].
  destruct (run _ _ d1) as [res2 d2].
  destruct H as (_ & _ & _ & H4 & _ & _ & H7 & _). by split.
Defined.

(** C3, as stated, fails.  On a table that has the [updated_at] column,
    when the third statement (the update of the user) raises, the call
    reports failure and leaves the transaction [completed] with its owner
    not VIP. *)
Lemma completed_without_vip :
  let tx := py "order_1" in
  let '(res, d') :=
    run (update_transaction_status tx (py "completed") (py "2024-01-01T11:00:00"))
        Examples.third_statement_fails Examples.pending_ledger in
  res = Return false
  /\ status <$> transactions d' !! tx = Some (py "completed")
  /\ (user_id <$> transactions d' !! tx = Some 42
      /\ is_vip <$> users d' !! 42 = Some false).
Proof. vm_compute. repeat split; reflexivity. Qed.

(** C3 (amended): the transition to [completed] is three statements, each
    committed on its own.  When the first raises, nothing is written and
    the call reports failure.  When the first goes through and the lookup
    of the owner or the update of the user raises, the call reports
    failure, the new status and [processed_at] stay committed and the
    users are unchanged.  When none raises, status, [processed_at] and the
    owner's [is_vip] are all written and the call reports success. *)
Theorem completed_transition_statement_by_statement d tx r u now faults :
  update_statements_prepare d = true ->
  transactions d !! tx = Some r ->
  users d !! user_id r = Some u ->
  let '(res, d') :=
    run (update_transaction_status tx (py "completed") now) faults d in
  (faults 0%nat = true -> res = Return false /\ d' = d)
  /\ (faults 0%nat = false -> faults 1%nat || faults 2%nat = true ->
      res = Return false
      /\ transactions d' !! tx = Some (transitioned r (py "completed") now)
      /\ users d' = users d)
  /\ (faults 0%nat = false -> faults 1%nat || faults 2%nat = false ->
      res = Return true
      /\ transactions d' !! tx = Some (transitioned r (py "completed") now)
      /\ users d' !! user_id r = Some (upgraded u now)).
Proof.
  intros Hp Hr Hu.
  rewrite (update_transaction_status_completed_faults _ _ _ _ _ _ Hp Hr Hu).
  cbv zeta.
  destruct (faults 0%nat); [by repeat split|].
  destruct (faults 1%nat || faults 2%nat); simpl;
    rewrite ?lookup_insert_eq; by repeat split.
Qed.

Lemma completed_transition_statement_by_statement_witness :
  let '(res, d') :=
    run (update_transaction_status (py "order_1") (py "completed") (py "t1"))
        no_faults Examples.pending_ledger in
  res = Return true /\ is_vip <$> users d' !! 42 = Some true.
Proof.
  pose proof (completed_transition_statement_by_statement
                Examples.pending_ledger (py "order_1")
                (mkTx 42 (Py.round2 10) (py "OxaPay") (py "vip") (py "pending")
                      (py "2024-01-01T10:00:00") None
                      (py "2024-01-01T10:00:00") None)
                (mkUser (py "2024-01-01T09:00:00") (py "2024-01-01T09:00:00")
                        false (py "2024-01-01T09:00:00"))
                (py "t1") no_faults eq_refl eq_refl eq_refl) as H.
  destruct (run _ _ _) as [res d'].
  destruct H as (_ & _ & H). destruct (H eq_refl eq_refl) as (H1 & _ & H3).
  split; [done|]. change 42 with (user_id
                (mkTx 42 (Py.round2 10) (py "OxaPay") (py "vip") (py "pending")
                      (py "2024-01-01T10:00:00") None
                      (py "2024-01-01T10:00:00") None)).
  by rewrite H3.
Defined.

End Ledger.

(** ** The gateway client *)

Section GatewayClient.
Import Payments.

Lemma request_loop_unfold m net url rem a :
  request_loop m net url (S rem) a
  = if attempt_raises (net a) then
      if (a =? m)%nat then (None, attempt_events url a)
      else let '(answer, later) := request_loop m net url rem (S a) in
           (answer, attempt_events url a ++ later)
    else (response_json (net a), attempt_events url a).
Proof.
  unfold attempt_events. cbn [request_loop].
  destruct (net a) as [| | | |status_code body]; cbn [attempt_raises response_json];
    try destruct (raise_for_status status_code);
    try destruct (a =? m)%nat;
    try destruct (request_loop m net url rem (S a));
    by rewrite <- ?app_assoc.
Qed.

(** The loop stops at the first attempt that does not raise, or at the
    last one allowed. *)
Lemma request_loop_spec m net url rem a :
  (a + rem = S m)%nat -> (0 < rem)%nat ->
  exists n : nat,
    (a <= n <= m)%nat
    /\ (forall j, (a <= j < n)%nat -> attempt_raises (net j) = true)
    /\ ((n < m)%nat -> attempt_raises (net n) = false)
    /\ request_loop m net url rem a
       = (if attempt_raises (net n) then None else response_json (net n),
          flat_map (attempt_events url) (seq a (S n - a))).
Proof.
  revert a. induction rem as [|rem IH]; intros a Ha Hrem; [lia|].
  rewrite request_loop_unfold.
  destruct (attempt_raises (net a)) eqn:Hraise.
  - destruct (a =? m)%nat eqn:Hlast.
    + apply Nat.eqb_eq in Hlast. subst a. exists m.
      repeat split; try lia.
      rewrite Hraise. replace (S m - m)%nat with 1%nat by lia.
      simpl. by rewrite app_nil_r.
    + apply Nat.eqb_neq in Hlast.
      destruct (IH (S a)) as (n & Hn & Hbefore & Hstop & Heq); [lia|lia|].
      exists n. repeat split; try lia.
      * intros j Hj. destruct (decide (j = a)) as [->|]; [done|].
        apply Hbefore. lia.
      * done.
      * rewrite Heq. replace (S n - a)%nat with (S (S n - S a)) by lia.
        done.
  - exists a. repeat split; try lia.
    + done.
    + rewrite Hraise. replace (S a - a)%nat with 1%nat by lia.
      simpl. by rewrite app_nil_r.
Qed.

(** C4, as stated, fails: a response that arrives with status 500 is not
    surfaced at once; the request is sent again three times, after sleeps
    of 2, 4 and 8 seconds. *)
Lemma http_error_is_retried :
  let url := py "https://api.oxapay.com/merchants/request" in
  _make_request MAX_RETRIES Examples.always_500 url
  = (None, [Request url 0; Sleep 2; Request url 1; Sleep 4; Request url 2;
            Sleep 8; Request url 3]).
Proof. reflexivity. Qed.

(** C4 (amended): [_make_request] sends the request again after every
    attempt that raises, whatever raised: a timeout, a connection failure,
    another request error, any other exception, or the error
    [raise_for_status] makes of a response with a 4xx or 5xx status.  It
    makes at most 3 retries; attempt [k >= 1] comes after a sleep of
    [2 ** k] seconds; the loop ends at the first attempt [n] that does not
    raise, whose JSON body it returns, or at attempt 3, where it returns
    [None]. *)
Theorem make_request_retries_every_error net url :
  (forall o, attempt_raises o = false <->
             exists status_code body,
               o = Response status_code body
               /\ ~ (400 <= status_code < 600))
  /\ exists n : nat,
       (n <= 3)%nat
       /\ (forall j, (j < n)%nat -> attempt_raises (net j) = true)
       /\ ((n < 3)%nat -> attempt_raises (net n) = false)
       /\ _make_request MAX_RETRIES net url
          = (if attempt_raises (net n) then None else response_json (net n),
             flat_map (attempt_events url) (seq 0 (S n))).
Proof.
  split.
  - intros o. split.
    + destruct o as [| | | |status_code body]; try discriminate.
      cbn [attempt_raises]. unfold raise_for_status. intros H.
      exists status_code, body. split; [done|]. lia.
    + intros (status_code & body & -> & H). cbn [attempt_raises].
      unfold raise_for_status. lia.
  - destruct (request_loop_spec MAX_RETRIES net url (S MAX_RETRIES) 0)
      as (n & Hn & Hbefore & Hstop & Heq); [done|lia|].
    exists n. unfold MAX_RETRIES in *. repeat split; try lia.
    + intros j Hj. apply Hbefore. lia.
    + done.
    + unfold _make_request. rewrite Heq. by rewrite Nat.sub_0_r.
Qed.

End GatewayClient.

(** ** The notification bridge *)

Section NotificationBridge.
Import Bridge.

(** C5, as stated, fails: the queue has no capacity at which a call is
    refused; however many items wait, the next one is accepted. *)
Lemma sync_queue_is_unbounded :
  ~ exists capacity : nat,
      forall q o u m a,
        sync_queue_state q ->
        (capacity <= List.length (items q))%nat ->
        forall q', send_payment_notification q o u m a <> Returns true q'.
Proof.
  intros (capacity & H).
  set (item := mkNotification [] [] 0 [] None).
  apply (H (mkQueue 0 (repeat item capacity)) [] 0 [] None
           eq_refl ltac:(simpl; rewrite repeat_length; lia)
           (mkQueue 0 (repeat item capacity
                       ++ [mkNotification (py "payment_notification") [] 0 [] None]))).
  reflexivity.
Qed.

(** C5 (amended): [send_payment_notification] puts the record at the end
    of [_sync_queue], a queue without bound ([maxsize] 0): in every state
    of that queue the call does not wait, the record is accepted and the
    call returns [True]. *)
Theorem send_payment_notification_accepts q o u m a :
  sync_queue_state q ->
  send_payment_notification q o u m a
  = Returns true
      (mkQueue 0 (items q ++ [mkNotification (py "payment_notification") o u m a])).
Proof.
  unfold sync_queue_state, send_payment_notification, put. simpl.
  intros ->. reflexivity.
Qed.

Lemma send_payment_notification_accepts_witness :
  send_payment_notification _sync_queue (py "order_1") 42 (py "ok") None
  = Returns true
      (mkQueue 0 [mkNotification (py "payment_notification") (py "order_1") 42
                    (py "ok") None]).
Proof.
  exact (send_payment_notification_accepts _sync_queue (py "order_1") 42
           (py "ok") None eq_refl).
Defined.

End NotificationBridge.

(** ** The validators *)

Section Validators.
Import Validator Database.

(** A number that is not positive, or above the maximum, is rejected. *)
Lemma validate_amount_rejects_number (q : Q) :
  (q <= 0 \/ MAX_AMOUNT < q)%Q ->
  is_valid (validate_amount (AmtNum q)) = false.
Proof.
  intros H. cbn [validate_amount].
  destruct (Qle_bool q 0) eqn:H0; [done|].
  destruct (Qle_bool q MAX_AMOUNT) eqn:H1; [|done].
  exfalso. apply Qle_bool_iff in H1. destruct H as [H|H].
  - apply Qle_bool_iff in H. congruence.
  - by apply Qlt_not_le in H.
Qed.

(** An accepted amount is a whole number of hundredths. *)
Lemma validate_amount_two_digits a v :
  sanitized_value (validate_amount a) = Some v ->
  exists n : Z, v = Qmake n 100.
Proof.
  assert (Hcheck : forall q,
    sanitized_value
      (if Qle_bool q 0 then invalid "Amount must be positive"
       else if negb (Qle_bool q MAX_AMOUNT)
            then invalid "Amount exceeds maximum allowed"
            else valid (Py.round2 q)) = Some v ->
    exists n : Z, v = Qmake n 100).
  { intros q. destruct (Qle_bool q 0); [discriminate|].
    destruct (Qle_bool q MAX_AMOUNT); [|discriminate].
    intros [= <-]. by eexists. }
  destruct a as [|q|s]; cbn [validate_amount]; [discriminate|apply Hcheck|].
  destruct (_ || _); [discriminate|].
  destruct (Py.float_of_str _); [apply Hcheck|discriminate].
Qed.

(** When validation rejects the amount, [create_transaction] reports
    failure and sends no statement to the storage. *)
Lemma create_transaction_rejected_amount tx uid a meth meta now faults d :
  is_valid (validate_amount a) = false ->
  run (create_transaction tx uid a meth meta now) faults d = (Return false, d).
Proof.
  intros Ha.
  assert (validate_transaction_input tx uid a meth meta = None) as Hv.
  { unfold validate_transaction_input. rewrite Ha. simpl.
    repeat (match goal with |- context [if ?b then _ else _] => destruct b end;
            try done). }
  unfold run, create_transaction, try_except. by rewrite Hv.
Qed.

(** C6: the code at the failing input.  The text [-5] denotes a negative
    amount; the pattern that cleans a textual amount removes the sign, so
    validation accepts it as 5.00 and [create_transaction] inserts a
    pending row of 5.00. *)
Theorem negative_text_amount_is_accepted :
  let minus_five := AmtStr (py "-5") in
  validate_amount minus_five = valid (Qmake 500 100)
  /\ is_valid (validate_amount (AmtNum (-5))) = false
  /\ let '(res, d') :=
       run (create_transaction (py "order_2") (IdInt 42) minus_five
              (py "OxaPay") (MStr (py "vip")) (py "2024-01-03T10:00:00"))
           no_faults Examples.pending_ledger in
     res = Return true
     /\ transactions Examples.pending_ledger !! py "order_2" = None
     /\ amount <$> transactions d' !! py "order_2" = Some (Qmake 500 100)
     /\ status <$> transactions d' !! py "order_2" = Some (py "pending").
Proof. vm_compute. repeat split; reflexivity. Qed.

End Validators.

(** ** Payment links *)

Section PaymentLinks.
Import Payments.

Lemma contains_skip needle a hay :
  Py.contains needle hay -> Py.contains needle (a ++ hay).
Proof.
  intros (before & after & ->). exists (a ++ before), after.
  by rewrite <- app_assoc.
Qed.

Lemma urlencode_cons k v k' v' rest :
  urlencode ((k, v) :: (k', v') :: rest)
  = quote_plus k ++ py "=" ++ quote_plus v ++ py "&"
    ++ urlencode ((k', v') :: rest).
Proof. unfold urlencode. simpl. by rewrite <- !app_assoc. Qed.

(** A text made of unreserved characters is its own encoding. *)
Lemma quote_plus_unreserved s :
  forallb unreserved s = true -> quote_plus s = s.
Proof.
  induction s as [|c s IH]; [done|]. simpl.
  intros (Hc & Hs)%andb_true_iff. rewrite Hc. simpl. by rewrite (IH Hs).
Qed.

(** The query string of the redirect link carries the wallet parameter and
    the switch that disables the wallet form. *)
Lemma transak_query env amount currency crypto net wallet :
  USDT_WALLET_ADDRESS env = Some wallet ->
  let query := urlencode (transak_params env amount currency crypto net) in
  Py.contains (py "walletAddress=" ++ quote_plus wallet) query
  /\ Py.contains (py "disableWalletAddressForm=true") query.
Proof.
  intros Hw. cbv zeta. unfold transak_params. rewrite Hw.
  cbn [default from_option id].
  split.
  - do 5 (rewrite urlencode_cons; do 4 apply contains_skip).
    rewrite urlencode_cons.
    by exists [], (py "&" ++
      urlencode [(py "redirectURL", RETURN_URL_BASE env);
                 (py "disableWalletAddressForm", py "true");
                 (py "hideMenu", py "true");
                 (py "exchangeScreenTitle", py "Pagar VIP V-Strike");
                 (py "cryptoCurrencyList", py "USDT");
                 (py "networks", py "tron")]).
  - do 7 (rewrite urlencode_cons; do 4 apply contains_skip).
    rewrite urlencode_cons.
    by exists [], (py "&" ++
      urlencode [(py "hideMenu", py "true");
                 (py "exchangeScreenTitle", py "Pagar VIP V-Strike");
                 (py "cryptoCurrencyList", py "USDT");
                 (py "networks", py "tron")]).
Qed.

(** [generate_payment_link] on the method [Transak]. *)
Lemma generate_payment_link_Transak env amount order_id user_id :
  generate_payment_link env (py "Transak") amount order_id user_id
  = if Qle_bool amount 0 || bool_decide (order_id = []) || (user_id =? 0)
       || negb (truthy (USDT_WALLET_ADDRESS env))
    then (None, [])
    else (Some (fst (Transak_create_payment_link env amount (py "USD")
                       (py "USDT") (py "tron"))), []).
Proof.
  unfold generate_payment_link.
  replace (bool_decide (py "Transak" = [])) with false by done.
  replace (Py.str_eqb (py "Transak") (py "Transak")) with true by done.
  destruct (Qeq_bool amount 0) eqn:Hz.
  - apply Qeq_bool_iff in Hz.
    assert (Qle_bool amount 0 = true) as ->; [|done].
    apply Qle_bool_iff. rewrite Hz. apply Qle_refl.
  - simpl. destruct (bool_decide (order_id = [])); [by rewrite orb_true_r|].
    destruct (user_id =? 0); [by rewrite !orb_true_r|].
    rewrite !orb_false_r. simpl.
    destruct (Qle_bool amount 0); [done|]. simpl.
    by destruct (truthy (USDT_WALLET_ADDRESS env)).
Qed.

(** C7: the redirect provider builds its link locally.  With the wallet
    configured, [Transak.create_payment_link] returns, without any call to
    the outside, a [pay_url] that carries [walletAddress=] followed by the
    URL-encoded wallet (the wallet itself when it has only unreserved
    characters) and [disableWalletAddressForm=true], and
    [generate_payment_link] returns that link for a positive amount, an
    order id and a user id; without the wallet, [generate_payment_link]
    returns [None]. *)
Theorem transak_link_built_locally env amount order_id user_id :
  (truthy (USDT_WALLET_ADDRESS env) = false ->
   generate_payment_link env (py "Transak") amount order_id user_id = (None, []))
  /\ (forall wallet,
        USDT_WALLET_ADDRESS env = Some wallet -> wallet <> [] ->
        (forall currency crypto net,
           exists url rest,
             Transak_create_payment_link env amount currency crypto net
             = ((py "ok", RBool true) :: (py "pay_url", RStr url) :: rest, [])
             /\ Py.contains (py "walletAddress=" ++ quote_plus wallet) url
             /\ (forallb unreserved wallet = true ->
                 Py.contains (py "walletAddress=" ++ wallet) url)
             /\ Py.contains (py "disableWalletAddressForm=true") url)
        /\ ((0 < amount)%Q -> order_id <> [] -> user_id <> 0 ->
            generate_payment_link env (py "Transak") amount order_id user_id
            = (Some (fst (Transak_create_payment_link env amount (py "USD")
                            (py "USDT") (py "tron"))), []))).
Proof.
  split.
  - intros Hw. rewrite generate_payment_link_Transak, Hw.
    by rewrite !orb_true_r.
  - intros wallet Hw Hne. split.
    + intros currency crypto net.
      destruct (transak_query env amount currency crypto net wallet Hw)
        as (Hwallet & Hform).
      eexists _, _. split; [reflexivity|].
      repeat split.
      * by do 2 apply contains_skip.
      * intros Hu. rewrite <- (quote_plus_unreserved _ Hu) at 1.
        by do 2 apply contains_skip.
      * by do 2 apply contains_skip.
    + intros Hpos Hid Hu. rewrite generate_payment_link_Transak, Hw.
      assert (Qle_bool amount 0 = false) as ->.
      { apply not_true_is_false. intros H%Qle_bool_iff.
        by apply Qle_not_lt in H. }
      rewrite bool_decide_eq_false_2 by done.
      assert ((user_id =? 0) = false) as -> by lia.
      by destruct wallet.
Qed.

Lemma transak_link_built_locally_witness :
  generate_payment_link Examples.wallet_env (py "Transak") 10 (py "order_1") 42
  = (Some (fst (Transak_create_payment_link Examples.wallet_env 10 (py "USD")
                  (py "USDT") (py "tron"))), [])
  /\ Py.contains (py "walletAddress=TTpXe9kQ1")
       (py "https://global.transak.com?apiKey=4fcd6904-706b-4e0e-9764-159cc4142646&defaultCryptoCurrency=USDT&defaultNetwork=tron&defaultFiatAmount=10.0&defaultFiatCurrency=USD&walletAddress=TTpXe9kQ1&redirectURL=https%3A%2F%2Ft.me%2FYourBotName&disableWalletAddressForm=true&hideMenu=true&exchangeScreenTitle=Pagar+VIP+V-Strike&cryptoCurrencyList=USDT&networks=tron").
Proof.
  destruct (transak_link_built_locally Examples.wallet_env 10 (py "order_1") 42)
    as [_ H].
  destruct (H (py "TTpXe9kQ1") eq_refl ltac:(discriminate)) as [Hlink Hgen].
  split.
  - apply Hgen; [reflexivity|discriminate|lia].
  - destruct (Hlink (py "USD") (py "USDT") (py "tron"))
      as (url & rest & Heq & _ & Hw & _).
    injection Heq as <- _. exact (Hw eq_refl).
Defined.

End PaymentLinks.

(** ** Sanitising and method names *)

Section Sanitising.
Import Validator.

Lemma lstrip_suffix s : exists spaces, s = spaces ++ Py.lstrip s.
Proof.
  induction s as [|c s (spaces & IH)]; [by exists []|]. simpl.
  destruct (Py.isspace c).
  - exists (c :: spaces). simpl. by rewrite <- IH.
  - by exists [].
Qed.

Lemma Forall_lstrip (P : ascii -> Prop) s : Forall P s -> Forall P (Py.lstrip s).
Proof.
  destruct (lstrip_suffix s) as (spaces & Hs). rewrite Hs at 1.
  by intros (_ & H)%Forall_app.
Qed.

Lemma length_lstrip s : (List.length (Py.lstrip s) <= List.length s)%nat.
Proof.
  destruct (lstrip_suffix s) as (spaces & Hs). rewrite Hs at 2.
  rewrite length_app. lia.
Qed.

Lemma Forall_strip (P : ascii -> Prop) s : Forall P s -> Forall P (Py.strip s).
Proof.
  intros H. unfold Py.strip, Py.rstrip.
  apply Forall_rev, Forall_lstrip, Forall_rev. by apply Forall_lstrip.
Qed.

Lemma length_strip s : (List.length (Py.strip s) <= List.length s)%nat.
Proof.
  unfold Py.strip, Py.rstrip. rewrite length_rev.
  etrans; [apply length_lstrip|]. rewrite length_rev. apply length_lstrip.
Qed.

(** A text without white space at either end is left alone. *)
Lemma strip_no_space s :
  Forall (fun c => Py.isspace c = false) s -> Py.strip s = s.
Proof.
  assert (Hl : forall t, Forall (fun c => Py.isspace c = false) t -> Py.lstrip t = t).
  { intros [|c t]; [done|]. intros [Hc _]%Forall_cons. simpl. by rewrite Hc. }
  intros H. unfold Py.strip, Py.rstrip. rewrite (Hl s H).
  rewrite Hl by by apply Forall_rev. apply rev_involutive.
Qed.

(** The output of [sanitize_string] has none of the removed characters
    and at most [max_length] characters. *)
Lemma sanitize_string_harmless s n : Forall harmless (sanitize_string s n).
Proof.
  unfold sanitize_string. case_bool_decide; [done|].
  assert (Forall harmless (Py.keep (fun c => negb (dangerous c)) (Py.strip s))) as Hk.
  { apply List.Forall_forall. intros c [_ Hc%negb_true_iff]%List.filter_In. done. }
  destruct (_ <? _)%nat; [by apply Forall_take|done].
Qed.

Lemma sanitize_string_length s n : (List.length (sanitize_string s n) <= n)%nat.
Proof.
  unfold sanitize_string. case_bool_decide; [simpl; lia|].
  destruct (_ <? _)%nat eqn:Hlt.
  - rewrite length_take. lia.
  - by apply Nat.ltb_ge in Hlt.
Qed.

Lemma keep_harmless s :
  Forall harmless s -> Py.keep (fun c => negb (dangerous c)) s = s.
Proof.
  induction 1 as [|c s Hc _ IH]; [done|]. unfold Py.keep in *. simpl.
  rewrite Hc. simpl. by rewrite IH.
Qed.

(** A second pass of [sanitize_string] only strips white space. *)
Lemma sanitize_string_twice s n :
  sanitize_string (sanitize_string s n) n = Py.strip (sanitize_string s n).
Proof.
  set (out := sanitize_string s n).
  pose proof (sanitize_string_harmless s n) as Hh.
  pose proof (sanitize_string_length s n) as Hl. fold out in Hh, Hl.
  unfold sanitize_string at 1. case_bool_decide as He; [by rewrite He|].
  rewrite keep_harmless by by apply Forall_strip.
  pose proof (length_strip out).
  destruct (_ <? _)%nat eqn:Hlt; [|done].
  apply Nat.ltb_lt in Hlt. lia.
Qed.

(** C9, as stated, fails: the output for the text [< a] starts with a
    space, which a second application strips; the output for a mapping is
    JSON text, whose quotes a second application removes. *)
Lemma sanitize_transaction_metadata_not_idempotent :
  let once (m : metadata_input) := sanitize_transaction_metadata m in
  let twice (m : metadata_input) := once (MStr (once m)) in
  (once (MStr (py "< a")) = py " a" /\ twice (MStr (py "< a")) = py "a"
   /\ twice (MStr (py "< a")) <> once (MStr (py "< a")))
  /\ (once (MDict [(py "plan", Json.JStr (py "vip"))])
      = [Py.chr 123; Json.quote] ++ py "plan" ++ [Json.quote] ++ py ": "
        ++ [Json.quote] ++ py "vip" ++ [Json.quote; Py.chr 125]
      /\ twice (MDict [(py "plan", Json.JStr (py "vip"))]) = py "{plan: vip}").
Proof. vm_compute. repeat split; try reflexivity. discriminate. Qed.

(** C9 (amended): for a text input, applying
    [sanitize_transaction_metadata] to its own output returns that output
    with the white space at its ends stripped, so the output is unchanged
    exactly when it neither starts nor ends with white space; for a
    mapping with at least one key the output is JSON text and a second
    application changes it. *)
Theorem sanitize_transaction_metadata_twice :
  (forall s,
     let out := sanitize_transaction_metadata (MStr s) in
     sanitize_transaction_metadata (MStr out) = Py.strip out
     /\ (sanitize_transaction_metadata (MStr out) = out <-> Py.strip out = out))
  /\ (forall k v d,
        let out := sanitize_transaction_metadata (MDict ((k, v) :: d)) in
        sanitize_transaction_metadata (MStr out) <> out).
Proof.
  split.
  - intros s. cbv zeta. cbn [sanitize_transaction_metadata].
    rewrite sanitize_string_twice. split; [done|]. done.
  - intros k v d. cbv zeta. cbn [sanitize_transaction_metadata].
    intros Heq. pose proof (sanitize_string_harmless
      (Json.dumps (map (fun kv : str * Json.value =>
                          match snd kv with
                          | Json.JStr s => (fst kv, Json.JStr (sanitize_string s 500))
                          | v0 => (fst kv, v0)
                          end) ((k, v) :: d))) 1000) as Hh.
    rewrite Heq in Hh. clear Heq.
    assert (exists rest, Json.dumps (map (fun kv : str * Json.value =>
                          match snd kv with
                          | Json.JStr s => (fst kv, Json.JStr (sanitize_string s 500))
                          | v0 => (fst kv, v0)
                          end) ((k, v) :: d)) = Py.chr 123 :: Json.quote :: rest)
      as (rest & Hrest).
    { unfold Json.dumps. cbn [map Json.dumps_value fst snd].
      destruct v; cbn [fst snd]; destruct (map _ d) as [|[k' v'] d'];
        cbn [Json.join Json.dumps_str]; by eexists. }
    rewrite Hrest in Hh. apply Forall_cons in Hh as [_ Hh].
    apply Forall_cons in Hh as [Hq _]. discriminate Hq.
Qed.

Lemma isspace_lower_char c : Py.isspace (Py.lower_char c) = Py.isspace c.
Proof. by destruct c as [[] [] [] [] [] [] [] []]. Qed.

(** A text whose lower-case form has no white space has none itself. *)
Lemma lower_no_space s t :
  Py.lower s = t ->
  Forall (fun c => Py.isspace c = false) t ->
  Forall (fun c => Py.isspace c = false) s.
Proof.
  intros <-. unfold Py.lower. rewrite Forall_map.
  intros H. eapply Forall_impl; [exact H|].
  intros c Hc. simpl in Hc. by rewrite isspace_lower_char in Hc.
Qed.

(** C10, as stated, fails on its own example: [transak] differs only in
    case from [Transak], a method [generate_payment_link] supports, and
    [validate_payment_method] rejects it, as it rejects [Transak] itself;
    the other half holds, [generate_payment_link] returns [None] for it. *)
Lemma transak_is_not_a_valid_method :
  Py.lower (py "transak") = Py.lower (py "Transak")
  /\ is_valid (validate_payment_method (py "transak")) = false
  /\ is_valid (validate_payment_method (py "Transak")) = false
  /\ fst (Payments.generate_payment_link Examples.wallet_env (py "Transak") 10
            (py "order_1") 42) <> None
  /\ Payments.generate_payment_link Examples.wallet_env (py "transak") 10
       (py "order_1") 42 = (None, []).
Proof. vm_compute. repeat split; try reflexivity. discriminate. Qed.

(** C10 (amended): the names [validate_payment_method] accepts are
    [OxaPay], [Cryptomus], [NOWPayments] and [Stars], compared without
    regard to case; [generate_payment_link] compares with [Transak],
    [OxaPay], [Cryptomus], [NOWPayments] and [Stripe] exactly.  So for
    every method text that differs only in letter case from one of the four
    validated names, [validate_payment_method] accepts it (and returns the
    name in its canonical spelling) while [generate_payment_link] returns
    [None] for it, without any call to the outside. *)
Theorem validated_method_fails_link_generation
    env method name amount order_id user_id :
  name ∈ valid_methods ->
  Py.lower method = Py.lower name ->
  method <> name ->
  validate_payment_method method = valid name
  /\ Payments.generate_payment_link env method amount order_id user_id
     = (None, []).
Proof.
  intros Hin Hl Hne.
  assert (Hcases : name = py "OxaPay" \/ name = py "Cryptomus"
                   \/ name = py "NOWPayments" \/ name = py "Stars").
  { unfold valid_methods in Hin. set_unfold in Hin. tauto. }
  assert (Hns : Forall (fun c => Py.isspace c = false) method).
  { apply (lower_no_space _ _ Hl).
    destruct Hcases as [->|[->|[->| ->]]]; by repeat constructor. }
  assert (Hnil : method <> []).
  { intros ->. destruct Hcases as [->|[->|[->| ->]]]; discriminate Hl. }
  assert (Hother : forall x,
    x ∈ [py "Transak"; py "OxaPay"; py "Cryptomus"; py "NOWPayments"; py "Stripe"] ->
    method <> x).
  { intros x Hx ->. set_unfold in Hx.
    destruct Hcases as [->|[->|[->| ->]]];
      destruct Hx as [->|[->|[->|[->|[->|[]]]]]];
      first [ by apply Hne | by vm_compute in Hl ]. }
  split.
  - unfold validate_payment_method.
    rewrite bool_decide_eq_false_2 by done.
    rewrite (strip_no_space _ Hns), Hl.
    by destruct Hcases as [->|[->|[->| ->]]].
  - unfold Payments.generate_payment_link.
    destruct (_ || _); [done|]. destruct (Qle_bool amount 0); [done|].
    unfold Py.str_eqb at 1. rewrite bool_decide_eq_false_2.
    2: { apply Hother. by constructor. }
    rewrite bool_decide_eq_false_2; [done|].
    intros Hx. set_unfold in Hx.
    destruct Hx as [Hx|[Hx|[Hx|[Hx|[]]]]]; revert Hx; apply Hother;
      by repeat constructor.
Qed.

Lemma validated_method_fails_link_generation_witness :
  validate_payment_method (py "oxapay") = valid (py "OxaPay")
  /\ Payments.generate_payment_link Examples.wallet_env (py "oxapay") 10
       (py "order_1") 42 = (None, []).
Proof.
  apply (validated_method_fails_link_generation Examples.wallet_env
           (py "oxapay") (py "OxaPay") 10 (py "order_1") 42).
  - by constructor.
  - reflexivity.
  - discriminate.
Defined.

End Sanitising.

(** ** The webhook verifier *)

Section WebhookVerifier.
Import WebhookValidator.

(** The embedded hash agrees with the published test vectors: FIPS 180-4
    for SHA-256 and RFC 4231 (test cases 2 and 6) for HMAC-SHA256. *)
Example sha256_abc :
  Sha256.hex (Sha256.sha256 (Py.encode (py "abc")))
  = py "ba7816bf8f01cfea414140de5dae2223b00361a396177a9cb410ff61f20015ad".
Proof. vm_compute. reflexivity. Qed.

Example sha256_two_blocks :
  Sha256.hex (Sha256.sha256
    (Py.encode (py "abcdbcdecdefdefgefghfghighijhijkijkljklmklmnlmnomnopnopq")))
  = py "248d6a61d20638b8e5c026930c3e6039a33ce45964ff2167f6ecedd419db06c1".
Proof. vm_compute. reflexivity. Qed.

Example hmac_short_key :
  expected_signature (py "Jefe") (py "what do ya want for nothing?")
  = py "5bdcc146bf60754e6a042426089575c75a003f089d2739839dec58b964ec3843".
Proof. vm_compute. reflexivity. Qed.

Example hmac_long_key :
  Sha256.hex (Sha256.hmac (repeat 170 131)
    (Py.encode (py "Test Using Larger Than Block-Size Key - Hash Key First")))
  = py "60e431591ee0b67f0d8a26aacbf5b77f8e0bc6213728c5140546040f0ee37f54".
Proof. vm_compute. reflexivity. Qed.

(** The accumulator of the comparison loop ends at 0 exactly when it
    started at 0 and every pair of bytes agrees. *)
Lemma tscmp_loop pairs acc :
  fold_left (fun acc lr => Z.lor acc (Z.lxor (fst lr) (snd lr))) pairs acc = 0
  <-> acc = 0 /\ Forall (fun lr : Z * Z => fst lr = snd lr) pairs.
Proof.
  revert acc. induction pairs as [|[x y] pairs IH]; intros acc; simpl.
  - split; [by intros ->|]. by intros [-> _].
  - rewrite IH, Z.lor_eq_0_iff, Z.lxor_eq_0_iff, Forall_cons. simpl. tauto.
Qed.

Lemma combine_agree (a b : list Z) :
  List.length a = List.length b ->
  Forall (fun lr : Z * Z => fst lr = snd lr) (combine a b) -> a = b.
Proof.
  revert b. induction a as [|x a IH]; intros [|y b]; simpl; try done.
  intros [= Hlen] [Hxy Hrest]%Forall_cons. simpl in Hxy. subst y.
  f_equal. by apply IH.
Qed.

Lemma combine_same (a : list Z) :
  Forall (fun lr : Z * Z => fst lr = snd lr) (combine a a).
Proof. induction a; simpl; by constructor. Qed.

(** The comparison loop decides equality. *)
Lemma tscmp_eq a b : tscmp a b = true <-> a = b.
Proof.
  unfold tscmp. rewrite Z.eqb_eq, tscmp_loop.
  case_bool_decide as Hlen.
  - split.
    + intros [_ H]. by apply combine_agree.
    + intros ->. split; [done|apply combine_same].
  - split; [by intros [? _]|]. intros ->. done.
Qed.

Lemma ord_inj c d : Py.ord c = Py.ord d -> c = d.
Proof.
  unfold Py.ord. intros H%N2Z.inj.
  by rewrite <- (ascii_N_embedding c), <- (ascii_N_embedding d), H.
Qed.

Lemma map_ord_inj a b : map Py.ord a = map Py.ord b -> a = b.
Proof.
  revert b. induction a as [|c a IH]; intros [|d b]; simpl; try done.
  intros [= Hc Hrest]. f_equal; [by apply ord_inj|by apply IH].
Qed.

(** [compare_digest] answers [True] exactly on two equal ASCII texts. *)
Lemma compare_digest_true a b :
  compare_digest a b = Some true <-> a = b /\ ascii_only a = true.
Proof.
  unfold compare_digest. split.
  - destruct (ascii_only a) eqn:Ha; [|done].
    destruct (ascii_only b); [|done]. simpl.
    intros [= H%tscmp_eq%map_ord_inj]. done.
  - intros [<- Ha]. rewrite Ha. simpl. f_equal. by apply tscmp_eq.
Qed.

(** *** The expected signature is 64 ASCII characters *)

Lemma length_round v kw : List.length (Sha256.round v kw) = List.length v.
Proof.
  unfold Sha256.round.
  by repeat (destruct v as [|? v]; try done).
Qed.

Lemma length_rounds kws v :
  List.length (fold_left Sha256.round kws v) = List.length v.
Proof.
  revert v. induction kws as [|kw kws IH]; intros v; simpl; [done|].
  by rewrite IH, length_round.
Qed.

Lemma length_compress h block :
  List.length (Sha256.compress h block) = List.length h.
Proof.
  unfold Sha256.compress.
  rewrite length_map, length_combine, length_rounds. lia.
Qed.

Lemma length_be_bytes n x : List.length (Sha256.be_bytes n x) = n.
Proof. induction n; simpl; by f_equal. Qed.

Lemma length_sha256 msg : List.length (Sha256.sha256 msg) = 32%nat.
Proof.
  unfold Sha256.sha256.
  set (bs := Sha256.blocks _ _).
  assert (Hd : List.length (fold_left Sha256.compress bs Sha256.H0) = 8%nat).
  { generalize Sha256.H0 (eq_refl : List.length Sha256.H0 = 8%nat).
    induction bs as [|b bs IH]; intros h Hh; simpl; [done|].
    apply IH. by rewrite length_compress. }
  revert Hd. generalize (fold_left Sha256.compress bs Sha256.H0).
  intros d Hd. do 9 (destruct d as [|? d]; try done).
Qed.

Lemma be_bytes_range n x :
  Forall (fun b => 0 <= b < 256) (Sha256.be_bytes n x).
Proof.
  induction n; simpl; constructor; [|done]. by apply Z.mod_pos_bound.
Qed.

Lemma sha256_range msg : Forall (fun b => 0 <= b < 256) (Sha256.sha256 msg).
Proof.
  unfold Sha256.sha256. apply Forall_flat_map, Forall_forall.
  intros x _. apply be_bytes_range.
Qed.

Lemma hex_digit_ascii n : 0 <= n < 16 -> (Py.ord (Json.hex_digit n) <? 128) = true.
Proof.
  intros H. rewrite <- (Z2Nat.id n) by lia.
  assert (Z.to_nat n < 16)%nat as Hk by lia.
  revert Hk. generalize (Z.to_nat n). intros k Hk.
  do 16 (destruct k as [|k]; [reflexivity|]). lia.
Qed.

Lemma hex_ascii bytes :
  Forall (fun b => 0 <= b < 256) bytes -> ascii_only (Sha256.hex bytes) = true.
Proof.
  induction 1 as [|b bytes Hb _ IH]; [done|].
  unfold Sha256.hex, ascii_only in *. simpl.
  rewrite !hex_digit_ascii, IH; [done| |].
  - by apply Z.mod_pos_bound.
  - split; [apply Z.div_pos; lia|apply Z.div_lt_upper_bound; lia].
Qed.

Lemma expected_signature_ascii key payload :
  ascii_only (expected_signature key payload) = true.
Proof. apply hex_ascii, sha256_range. Qed.

Lemma length_hex bytes :
  List.length (Sha256.hex bytes) = (2 * List.length bytes)%nat.
Proof.
  induction bytes as [|b bytes IH]; [done|].
  unfold Sha256.hex in *. simpl. rewrite IH. lia.
Qed.

Lemma expected_signature_length key payload :
  List.length (expected_signature key payload) = 64%nat.
Proof.
  unfold expected_signature, Sha256.hmac.
  by rewrite length_hex, length_sha256.
Qed.

(** C8, as stated, fails in its last part: a signature computed with a
    secret other than the API key is accepted when that secret is the key
    followed by a zero byte, since HMAC fills a short key with zero bytes
    before use. *)
Lemma wrong_secret_accepted :
  let api_key := py "test_api_key_123" in
  let wrong_secret := api_key ++ [Py.chr 0] in
  let payload := py "orderId=order_1&status=Paid&amount=10" in
  wrong_secret <> api_key
  /\ verify_oxapay payload (Some (expected_signature wrong_secret payload))
       (Some api_key) = true.
Proof. vm_compute. split; [discriminate|reflexivity]. Qed.

(** C8 (amended): [verify_oxapay] is a function of its three arguments
    that returns [True] exactly when the API key is present and the
    received signature equals the lower-case hexadecimal HMAC-SHA256 of the
    UTF-8 payload under the UTF-8 API key; the comparison is
    [hmac.compare_digest], modelled by its loop over every position; it
    returns [False] when the signature or the API key is missing or empty.
    A signature computed with another secret is therefore rejected exactly
    when its HMAC differs from the one under the API key. *)
Theorem verify_oxapay_accepts_exactly_the_hmac payload signature api_key :
  (verify_oxapay payload signature api_key = true
   <-> exists key, key <> [] /\ api_key = Some key
                   /\ signature = Some (expected_signature key payload))
  /\ verify_oxapay payload None api_key = false
  /\ verify_oxapay payload (Some []) api_key = false
  /\ verify_oxapay payload signature None = false
  /\ verify_oxapay payload signature (Some []) = false
  /\ (forall key secret,
        verify_oxapay payload (Some (expected_signature secret payload))
          (Some key) = true
        <-> key <> []
            /\ expected_signature secret payload = expected_signature key payload).
Proof.
  assert (Hiff : forall sig key,
    verify_oxapay payload sig key = true
    <-> exists k, k <> [] /\ key = Some k
                  /\ sig = Some (expected_signature k payload)).
  { intros sig key. unfold verify_oxapay. split.
    - destruct sig as [[|c sig]|]; try done.
      destruct key as [[|d key]|]; try done.
      destruct (compare_digest _ _) as [[]|] eqn:Hcmp; try done.
      apply compare_digest_true in Hcmp as [<- _]. intros _.
      by exists (d :: key).
    - intros (k & Hk & -> & ->).
      pose proof (expected_signature_length k payload) as Hlen.
      destruct (expected_signature k payload) as [|c sig] eqn:Hsig; [done|].
      destruct k as [|d k]; [done|].
      rewrite <- Hsig.
      assert (compare_digest (expected_signature (d :: k) payload)
                (expected_signature (d :: k) payload) = Some true) as ->; [|done].
      apply compare_digest_true. split; [done|apply expected_signature_ascii]. }
  split; [apply Hiff|].
  split; [done|]. split; [done|].
  split; [by destruct signature as [[|]|]|].
  split; [by destruct signature as [[|]|]|].
  intros key secret. rewrite Hiff. split.
  - by intros (k & Hk & [= <-] & [= Heq]).
  - intros [Hk Heq]. exists key. by rewrite Heq.
Qed.

End WebhookVerifier.

(** ** More on the validators *)

Section ValidatorOutputs.
Import Validator.

Lemma keep_all p s : forallb p s = true -> Py.keep p s = s.
Proof.
  induction s as [|c s IH]; [done|]. unfold Py.keep in *. simpl.
  intros (Hc & Hs)%andb_true_iff. rewrite Hc. by rewrite IH.
Qed.

Lemma forallb_keep p s : forallb p (Py.keep p s) = true.
Proof.
  apply forallb_forall. intros c [_ Hc]%List.filter_In. done.
Qed.

Lemma id_char_facts c :
  Py.is_id_char c = true ->
  Py.isspace c = false
  /\ (Py.is_word c || bool_decide (c = "-"%char)) = true.
Proof. by destruct c as [[] [] [] [] [] [] [] []]. Qed.

Lemma id_chars_no_space s :
  forallb Py.is_id_char s = true -> Forall (fun c => Py.isspace c = false) s.
Proof.
  intros H. apply Forall_forall. intros c Hc%list_elem_of_In.
  rewrite forallb_forall in H. by apply id_char_facts, H.
Qed.

(** What [validate_order_id] lets through. *)
Lemma validate_order_id_inv s c :
  sanitized_value (validate_order_id s) = Some c ->
  (3 <= List.length c <= 64)%nat /\ forallb Py.is_id_char c = true.
Proof.
  unfold validate_order_id. case_bool_decide; [done|].
  destruct (_ || _) eqn:Hlen; [done|].
  destruct (forallb Py.is_id_char _) eqn:Hid; [|done].
  intros [= <-]. split; [|done].
  apply orb_false_iff in Hlen as [H1%Nat.ltb_ge H2%Nat.ltb_ge]. lia.
Qed.

(** X1: an order id that [validate_order_id] returns has 3 to 64
    characters, all of them letters, digits, underscores or hyphens, and
    validating it again returns it unchanged. *)
Theorem validate_order_id_output s c :
  sanitized_value (validate_order_id s) = Some c ->
  (3 <= List.length c <= 64)%nat
  /\ forallb Py.is_id_char c = true
  /\ validate_order_id c = valid c.
Proof.
  intros [Hlen Hid]%validate_order_id_inv. split; [done|]. split; [done|].
  unfold validate_order_id.
  rewrite bool_decide_eq_false_2 by (intros ->; simpl in Hlen; lia).
  rewrite (strip_no_space c) by by apply id_chars_no_space.
  rewrite keep_all.
  2: { apply forallb_forall. intros x Hx. rewrite forallb_forall in Hid.
       by apply id_char_facts, Hid. }
  rewrite Hid.
  assert ((List.length c <? 3)%nat = false) as -> by (apply Nat.ltb_ge; lia).
  assert ((64 <? List.length c)%nat = false) as -> by (apply Nat.ltb_ge; lia).
  done.
Qed.

Lemma validate_order_id_output_witness :
  validate_order_id (py "ab$c-1") = valid (py "abc-1")
  /\ validate_order_id (py "abc-1") = valid (py "abc-1").
Proof.
  split; [reflexivity|].
  exact (proj2 (proj2 (validate_order_id_output (py "ab$c-1") (py "abc-1") eq_refl))).
Defined.

(** What [validate_telegram_id] lets through. *)
Lemma validate_telegram_id_inv id n :
  sanitized_value (validate_telegram_id id) = Some n -> 0 < n <= 9999999999.
Proof.
  assert (Hcheck : forall z,
    sanitized_value
      (if z <=? 0 then invalid "Telegram ID must be positive"
       else if 9999999999 <? z then invalid "Telegram ID too large"
            else valid z) = Some n -> 0 < n <= 9999999999).
  { intros z. destruct (z <=? 0) eqn:H0; [done|].
    destruct (9999999999 <? z) eqn:H1; [done|]. intros [= <-]. lia. }
  destruct id as [|z|s]; cbn [validate_telegram_id]; [done|apply Hcheck|].
  case_bool_decide; [done|apply Hcheck].
Qed.

(** X2: a user id that [validate_telegram_id] returns lies between 1 and
    9999999999, and as an integer argument it is accepted unchanged. *)
Theorem validate_telegram_id_output id n :
  sanitized_value (validate_telegram_id id) = Some n ->
  0 < n <= 9999999999 /\ validate_telegram_id (IdInt n) = valid n.
Proof.
  intros H%validate_telegram_id_inv. split; [done|].
  cbn [validate_telegram_id].
  assert ((n <=? 0) = false) as -> by lia.
  by assert ((9999999999 <? n) = false) as -> by lia.
Qed.

Lemma validate_telegram_id_output_witness :
  validate_telegram_id (IdStr (py " id: 12a3 ")) = valid 123
  /\ validate_telegram_id (IdInt 123) = valid 123.
Proof.
  split; [reflexivity|].
  exact (proj2 (validate_telegram_id_output (IdStr (py " id: 12a3 ")) 123 eq_refl)).
Defined.

(** What [validate_payment_method] lets through. *)
Lemma validate_payment_method_inv s m :
  sanitized_value (validate_payment_method s) = Some m -> m ∈ valid_methods.
Proof.
  unfold validate_payment_method. case_bool_decide; [done|].
  destruct (List.find _ _) as [m'|] eqn:Hfind; [|done].
  intros [= <-]. apply find_some in Hfind as [Hin _]. by apply list_elem_of_In.
Qed.

(** X3: the method [validate_payment_method] returns is one of [OxaPay],
    [Cryptomus], [NOWPayments] and [Stars] in that spelling, whatever the
    case and surrounding white space of the input, and validating it again
    returns it unchanged. *)
Theorem validate_payment_method_output s m :
  sanitized_value (validate_payment_method s) = Some m ->
  m ∈ valid_methods /\ validate_payment_method m = valid m.
Proof.
  intros H%validate_payment_method_inv. split; [done|].
  unfold valid_methods in H. set_unfold in H.
  by destruct H as [->|[->|[->|[->|[]]]]].
Qed.

Lemma validate_payment_method_output_witness :
  validate_payment_method (py "  nowPAYMENTS ") = valid (py "NOWPayments")
  /\ validate_payment_method (py "NOWPayments") = valid (py "NOWPayments").
Proof.
  split; [reflexivity|].
  exact (proj2 (validate_payment_method_output (py "  nowPAYMENTS ")
                  (py "NOWPayments") eq_refl)).
Defined.

(** X4: the status [validate_status] returns is one of the five statuses in
    lower case, and validating it again returns it unchanged. *)
Theorem validate_status_output s c :
  sanitized_value (validate_status s) = Some c ->
  c ∈ valid_statuses /\ validate_status c = valid c.
Proof.
  unfold validate_status at 1. case_bool_decide; [done|].
  case_bool_decide as Hin; [|done]. intros [= <-]. split; [done|].
  revert Hin. generalize (Py.lower (Py.strip s)). intros c Hin.
  unfold valid_statuses in Hin. set_unfold in Hin.
  by destruct Hin as [->|[->|[->|[->|[->|[]]]]]].
Qed.

Lemma validate_status_output_witness :
  validate_status (py " Completed ") = valid (py "completed")
  /\ validate_status (py "completed") = valid (py "completed").
Proof.
  split; [reflexivity|].
  exact (proj2 (validate_status_output (py " Completed ") (py "completed") eq_refl)).
Defined.

End ValidatorOutputs.

(** ** Amounts *)

Section Amounts.
Import Validator.







(** X6: a positive amount below half a hundredth passes [validate_amount]
    and comes out as 0.00, a value the same check rejects as not
    positive. *)
Theorem validate_amount_rounds_to_zero q :
  (0 < q < (1 # 200))%Q ->
  validate_amount (AmtNum q) = valid (Qmake 0 100)
  /\ is_valid (validate_amount (AmtNum (Qmake 0 100))) = false.
Proof.
  intros [Hpos Hsmall]. split; [|done]. cbn [validate_amount].
  assert (Qle_bool q 0 = false) as ->.
  { apply not_true_is_false. intros H%Qle_bool_iff. lra. }
  assert (Qle_bool q MAX_AMOUNT = true) as ->.
  { apply Qle_bool_iff. unfold MAX_AMOUNT. lra. }
  cbn [negb]. unfold valid. do 2 f_equal. unfold Py.round2. f_equal.
  unfold Py.round_half_even.
  change (inject_Z 100) with 100%Q.
  assert (Qfloor (q * 100) = 0%Z) as ->.
  { pose proof (Qfloor_le (q * 100)) as Hlo.
    pose proof (Qlt_floor (q * 100)) as Hhi.
    rewrite inject_Z_plus in Hhi. change (inject_Z 1) with 1%Q in Hhi.
    assert (Qfloor (q * 100) < 1)%Z.
    { rewrite Zlt_Qlt. change (inject_Z 1) with 1%Q.
      revert Hlo. generalize (inject_Z (Qfloor (q * 100))). intros; lra. }
    assert (-1 < Qfloor (q * 100))%Z.
    { rewrite Zlt_Qlt. change (inject_Z (-1)) with (-1)%Q.
      revert Hhi. generalize (inject_Z (Qfloor (q * 100))). intros; lra. }
    lia. }
  assert ((q * 100 - inject_Z 0 ?= 1 # 2)%Q = Lt) as ->; [|done].
  apply (proj1 (Qlt_alt _ _)). change (inject_Z 0) with 0%Q. lra.
Qed.

Lemma validate_amount_rounds_to_zero_witness :
  validate_amount (AmtNum (1 # 1000)) = valid (Qmake 0 100).
Proof.
  exact (proj1 (validate_amount_rounds_to_zero (1 # 1000)
                  (conj eq_refl eq_refl))).
Defined.

Lemma keep_lstrip p s :
  (forall c, Py.isspace c = true -> p c = false) ->
  Py.keep p (Py.lstrip s) = Py.keep p s.
Proof.
  intros Hp. induction s as [|c s IH]; [done|]. simpl.
  destruct (Py.isspace c) eqn:Hc; [|done].
  unfold Py.keep in *. simpl. by rewrite (Hp c Hc).
Qed.

(** Stripping before a filter that drops white space changes nothing. *)
Lemma keep_strip p s :
  (forall c, Py.isspace c = true -> p c = false) ->
  Py.keep p (Py.strip s) = Py.keep p s.
Proof.
  intros Hp. unfold Py.strip, Py.rstrip.
  unfold Py.keep at 1. rewrite List.filter_rev.
  fold (Py.keep p (Py.lstrip (rev (Py.lstrip s)))).
  rewrite keep_lstrip by done. unfold Py.keep at 1.
  rewrite List.filter_rev, rev_involutive.
  by apply keep_lstrip.
Qed.

Lemma amount_char_no_space c : Py.isspace c = true -> amount_char c = false.
Proof. by destruct c as [[] [] [] [] [] [] [] []]. Qed.

(** X7: for a text, [validate_amount] reads the digits and dots and
    nothing else: every other character, a sign, a currency symbol, a
    thousands separator or an exponent letter, is dropped before the number
    is read, so the text and its digits-and-dots give the same result. *)
Theorem validate_amount_reads_digits_and_dots s :
  validate_amount (AmtStr s) = validate_amount (AmtStr (Py.keep amount_char s)).
Proof.
  cbn [validate_amount]. fold amount_char.
  rewrite !keep_strip by apply amount_char_no_space.
  by rewrite (keep_all amount_char (Py.keep amount_char s))
    by apply forallb_keep.
Qed.

End Amounts.

(** ** Identifiers *)

Section Identifiers.
Import Validator.

Lemma hex_groups_shape sizes s :
  hex_groups sizes s = true ->
  forallb hex_or_hyphen s = true
  /\ List.length s = (list_sum sizes + (List.length sizes - 1))%nat.
Proof.
  revert s. induction sizes as [|n rest IH]; intros s; cbn [hex_groups].
  - case_bool_decide; [|done]. by subst.
  - intros ((Hlen%Nat.leb_le & Hhex)%andb_true_iff & Hrest)%andb_true_iff.
    rewrite <- (take_drop n s) at 1 2. rewrite forallb_app, length_app.
    rewrite length_take. replace (n `min` List.length s)%nat with n by lia.
    assert (forallb hex_or_hyphen (take n s) = true) as ->.
    { apply forallb_forall. intros c Hc. rewrite forallb_forall in Hhex.
      unfold hex_or_hyphen. by rewrite (Hhex c Hc). }
    destruct rest as [|m rest].
    + case_bool_decide as Hd; [|done]. rewrite Hd. simpl. split; [done|lia].
    + destruct (drop n s) as [|c tail]; [done|].
      apply andb_true_iff in Hrest as [Hc Htail].
      apply IH in Htail as [Hall Hl]. cbn [forallb andb List.length list_sum].
      unfold hex_or_hyphen at 1. rewrite Hc, orb_true_r, Hall.
      split; [done|]. rewrite Hl. simpl. lia.
Qed.

Lemma hex_or_hyphen_no_space c : hex_or_hyphen c = true -> Py.isspace c = false.
Proof. by destruct c as [[] [] [] [] [] [] [] []]. Qed.

(** X8: a value that [validate_uuid] returns is the input without the white
    space around it, has 36 characters, all hexadecimal digits or hyphens,
    and validating it again returns it unchanged. *)
Theorem validate_uuid_output s c :
  sanitized_value (validate_uuid s) = Some c ->
  c = Py.strip s
  /\ List.length c = 36%nat
  /\ forallb hex_or_hyphen c = true
  /\ validate_uuid c = valid c.
Proof.
  unfold validate_uuid at 1. case_bool_decide; [done|].
  destruct (UUID_PATTERN (Py.strip s)) eqn:Hm; [|done].
  intros [= <-]. split; [done|].
  revert Hm. generalize (Py.strip s). intros c Hm.
  destruct (hex_groups_shape _ _ Hm) as [Hall Hlen].
  split; [done|]. split; [done|].
  unfold validate_uuid.
  rewrite bool_decide_eq_false_2 by (intros ->; discriminate Hlen).
  rewrite strip_no_space, Hm; [done|].
  apply Forall_forall. intros x Hx%list_elem_of_In.
  rewrite forallb_forall in Hall. by apply hex_or_hyphen_no_space, Hall.
Qed.

Lemma validate_uuid_output_witness :
  validate_uuid (py " 4FCD6904-706b-4e0e-9764-159cc4142646 ")
  = valid (py "4FCD6904-706b-4e0e-9764-159cc4142646")
  /\ validate_uuid (py "4FCD6904-706b-4e0e-9764-159cc4142646")
     = valid (py "4FCD6904-706b-4e0e-9764-159cc4142646").
Proof.
  split; [reflexivity|].
  exact (proj2 (proj2 (proj2
    (validate_uuid_output (py " 4FCD6904-706b-4e0e-9764-159cc4142646 ")
       (py "4FCD6904-706b-4e0e-9764-159cc4142646") eq_refl)))).
Defined.

Lemma ord_chr k : 0 <= k < 256 -> Py.ord (Py.chr k) = k.
Proof.
  intros H. unfold Py.ord, Py.chr.
  rewrite N_ascii_embedding by lia. lia.
Qed.

Lemma digit_is_id_char k : 0 <= k < 10 -> Py.is_id_char (Py.chr (48 + k)) = true.
Proof.
  intros H. unfold Py.is_id_char, Py.isdecimal, Py.isupper_ascii,
    Py.islower_ascii, Py.between.
  rewrite !ord_chr by lia.
  assert ((48 <=? 48 + k) = true) as -> by lia.
  assert ((48 + k <=? 57) = true) as -> by lia.
  by rewrite !orb_true_r.
Qed.

Lemma digits_of_nat_id fuel n acc :
  0 <= n -> forallb Py.is_id_char acc = true ->
  forallb Py.is_id_char (Py.digits_of_nat fuel n acc) = true
  /\ (List.length (Py.digits_of_nat fuel n acc) <= fuel + List.length acc)%nat.
Proof.
  revert n acc. induction fuel as [|fuel IH]; intros n acc Hn Hacc; simpl.
  - split; [done|lia].
  - assert (forallb Py.is_id_char (Py.chr (48 + n mod 10) :: acc) = true) as Hacc'.
    { simpl. rewrite Hacc, digit_is_id_char; [done|].
      apply Z.mod_pos_bound. lia. }
    destruct (n / 10 =? 0).
    + split; [done|]. simpl. lia.
    + destruct (IH (n / 10) (Py.chr (48 + n mod 10) :: acc)) as [H1 H2];
        [apply Z.div_pos; lia|done|].
      split; [done|]. simpl in H2. lia.
Qed.

Lemma digits_of_nat_nonempty fuel n acc :
  (0 < fuel)%nat -> (0 < List.length (Py.digits_of_nat fuel n acc))%nat.
Proof.
  destruct fuel as [|fuel]; [lia|]. intros _. simpl.
  destruct (n / 10 =? 0); [simpl; lia|].
  clear. generalize (n / 10) (Py.chr (48 + n mod 10)). intros m c.
  assert (forall f k a, (0 < List.length a)%nat ->
                        (0 < List.length (Py.digits_of_nat f k a))%nat) as H.
  { induction f as [|f IH]; intros k a Ha; simpl; [done|].
    destruct (k / 10 =? 0); [simpl; lia|]. apply IH. simpl. lia. }
  apply H. simpl. lia.
Qed.

Lemma upper_hex_digit_id n : 0 <= n < 16 -> Py.is_id_char (upper_hex_digit n) = true.
Proof.
  intros H. rewrite <- (Z2Nat.id n) by lia.
  assert (Z.to_nat n < 16)%nat as Hk by lia.
  revert Hk. generalize (Z.to_nat n). intros k Hk.
  do 16 (destruct k as [|k]; [reflexivity|]). lia.
Qed.

Lemma token_hex_upper_id random :
  Forall (fun b => 0 <= b < 256) random ->
  forallb Py.is_id_char (token_hex_upper random) = true
  /\ List.length (token_hex_upper random) = (2 * List.length random)%nat.
Proof.
  induction 1 as [|b random Hb _ [IH1 IH2]]; [done|].
  unfold token_hex_upper in *. simpl. rewrite IH1, IH2.
  rewrite !upper_hex_digit_id; [split; [done|lia]| |].
  - by apply Z.mod_pos_bound.
  - split; [apply Z.div_pos; lia|apply Z.div_lt_upper_bound; lia].
Qed.

(** X9: an identifier made by [generate_secure_order_id] passes
    [validate_order_id] unchanged, for every clock value from 0 to below
    2^48 milliseconds, every four random bytes and every prefix of at most
    six letters, digits, underscores or hyphens, as the default [order]. *)
Theorem generate_secure_order_id_is_valid prefix timestamp random :
  forallb Py.is_id_char prefix = true ->
  (List.length prefix <= 6)%nat ->
  0 <= timestamp < 2 ^ 48 ->
  List.length random = 4%nat ->
  Forall (fun b => 0 <= b < 256) random ->
  validate_order_id (generate_secure_order_id prefix timestamp random)
  = valid (generate_secure_order_id prefix timestamp random).
Proof.
  intros Hp Hplen Ht Hrlen Hr.
  destruct (token_hex_upper_id random Hr) as [Hx Hxlen].
  assert (Z.log2 timestamp < 48) as Hlog.
  { destruct (decide (timestamp = 0)) as [->|]; [done|].
    apply Z.log2_lt_pow2; lia. }
  pose proof (Z.log2_nonneg timestamp) as Hlog0.
  destruct (digits_of_nat_id (S (Z.to_nat (Z.log2 timestamp))) timestamp [])
    as [Hd Hdlen]; [lia|done|].
  pose proof (digits_of_nat_nonempty (S (Z.to_nat (Z.log2 timestamp)))
                timestamp [] ltac:(lia)) as Hdpos.
  set (id := generate_secure_order_id prefix timestamp random).
  assert (forallb Py.is_id_char id = true) as Hid.
  { unfold id, generate_secure_order_id, Py.str_of_int.
    assert ((timestamp <? 0) = false) as -> by lia.
    by rewrite !forallb_app, Hp, Hd, Hx. }
  assert (3 <= List.length id <= 64)%nat as Hlen.
  { unfold id, generate_secure_order_id, Py.str_of_int.
    assert ((timestamp <? 0) = false) as -> by lia.
    rewrite !length_app, Hxlen, Hrlen. simpl in Hdlen |- *. lia. }
  unfold validate_order_id.
  rewrite bool_decide_eq_false_2 by (intros Hnil; rewrite Hnil in Hlen; simpl in Hlen; lia).
  rewrite (strip_no_space id) by by apply id_chars_no_space.
  rewrite keep_all.
  2: { apply forallb_forall. intros x Hx'. rewrite forallb_forall in Hid.
       by apply id_char_facts, Hid. }
  rewrite Hid.
  assert ((List.length id <? 3)%nat = false) as -> by (apply Nat.ltb_ge; lia).
  assert ((64 <? List.length id)%nat = false) as -> by (apply Nat.ltb_ge; lia).
  done.
Qed.

Lemma generate_secure_order_id_is_valid_witness :
  validate_order_id (py "order_1700000000123_AB01FF10")
  = valid (py "order_1700000000123_AB01FF10").
Proof.
  exact (generate_secure_order_id_is_valid (py "order") 1700000000123
           [171; 1; 255; 16] eq_refl ltac:(simpl; lia) ltac:(lia) eq_refl
           ltac:(repeat constructor; lia)).
Defined.

End Identifiers.

(** ** Sanitised text and validated transactions *)

Section ValidatedTransactions.
Import Validator.

(** X10: the text [sanitize_string] returns has no angle bracket, no
    double or single quote and no semicolon, and at most [max_length]
    characters; so the metadata stored for a text input has at most 1000
    characters and none of those five. *)
Theorem sanitize_string_output s n :
  Forall harmless (sanitize_string s n)
  /\ (List.length (sanitize_string s n) <= n)%nat
  /\ Forall harmless (sanitize_transaction_metadata (MStr s))
  /\ (List.length (sanitize_transaction_metadata (MStr s)) <= 1000)%nat.
Proof.
  cbn [sanitize_transaction_metadata].
  repeat split; auto using sanitize_string_harmless, sanitize_string_length.
Qed.

Lemma strip_infix s : exists before after, s = before ++ Py.strip s ++ after.
Proof.
  destruct (lstrip_suffix s) as (before & Hs).
  destruct (lstrip_suffix (rev (Py.lstrip s))) as (spaces & Hr).
  exists before, (rev spaces). unfold Py.strip, Py.rstrip.
  rewrite <- rev_app_distr, <- Hr, rev_involutive. done.
Qed.

Lemma strip_same_length s :
  List.length (Py.strip s) = List.length s -> Py.strip s = s.
Proof.
  destruct (strip_infix s) as (before & after & Hs). intros Hlen.
  rewrite Hs in Hlen at 2. rewrite !length_app in Hlen.
  destruct before; [|simpl in Hlen; lia].
  destruct after; [|simpl in Hlen; lia].
  rewrite Hs at 2. simpl. by rewrite app_nil_r.
Qed.

Lemma keep_same_length p s :
  List.length (Py.keep p s) = List.length s -> Py.keep p s = s.
Proof.
  unfold Py.keep. induction s as [|c s IH]; [done|]. simpl.
  pose proof (List.filter_length_le p s).
  destruct (p c); simpl; [|lia]. intros [= Hl]. by rewrite IH.
Qed.

(** X11: the texts [sanitize_string] returns unchanged are exactly those
    that have none of the five removed characters, no white space at either
    end and at most [max_length] characters. *)
Theorem sanitize_string_fixpoints s n :
  sanitize_string s n = s
  <-> Forall harmless s /\ Py.strip s = s /\ (List.length s <= n)%nat.
Proof.
  split.
  - intros Heq.
    pose proof (sanitize_string_harmless s n) as Hh.
    pose proof (sanitize_string_length s n) as Hl. rewrite Heq in Hh, Hl.
    split; [done|]. split; [|done].
    revert Heq. unfold sanitize_string. case_bool_decide as Hnil; [by subst|].
    set (kept := Py.keep _ (Py.strip s)).
    pose proof (List.filter_length_le (fun c => negb (dangerous c)) (Py.strip s)) as Hk.
    fold (Py.keep (fun c => negb (dangerous c)) (Py.strip s)) in Hk. fold kept in Hk.
    pose proof (length_strip s) as Hs.
    intros Heq. apply strip_same_length.
    assert (List.length s <= List.length kept)%nat; [|lia].
    destruct (_ <? _)%nat; [|by rewrite Heq].
    rewrite <- Heq at 1. rewrite length_take. lia.
  - intros (Hh & Hs & Hl). unfold sanitize_string.
    case_bool_decide as Hnil; [by subst|].
    rewrite Hs, keep_harmless by done.
    by assert ((n <? List.length s)%nat = false) as -> by (apply Nat.ltb_ge; lia).
Qed.




End ValidatedTransactions.

(** ** More on the ledger *)

Section LedgerOperations.
Import Database.

#[local] Arguments declared : simpl never.

Ltac run_ledger :=
  unfold run, update_transaction_status, create_transaction, add_user,
    get_user, cleanup_old_sessions, try_except,
    mbind, storage_bind, bind, mret, storage_ret, ret,
    execute_update, execute_query,
    sql_select_user, sql_insert_user, sql_touch_user, sql_insert_transaction,
    sql_update_transaction, sql_select_owner, sql_set_vip, sql_cleanup,
    sql_select_user_row; cbn.

Ltac split_step :=
  match goal with
  | |- context [?faults ?n] =>
      match type of faults with (nat -> bool) => destruct (faults n) eqn:? end
  | |- context [declared ?d ?t ?l] => is_var d; destruct (declared d t l) eqn:?
  | |- context [Validator.validate_transaction_input ?a ?b ?c ?e ?f] =>
      destruct (Validator.validate_transaction_input a b c e f) eqn:?
  | |- context [Py.str_eqb ?a ?b] => destruct (Py.str_eqb a b) eqn:?
  | |- context [users ?d !! ?k] =>
      is_var d;
      match goal with
      | H : users d !! k = _ |- _ => rewrite H
      | _ => destruct (users d !! k) eqn:?
      end
  | |- context [transactions ?d !! ?k] =>
      is_var d;
      match goal with
      | H : transactions d !! k = _ |- _ => rewrite H
      | _ => destruct (transactions d !! k) eqn:?
      end
  | |- context [users_columns ?d] => is_var d; destruct (users_columns d) eqn:?
  end.

Ltac split_cases :=
  repeat (cbn; first [ rewrite declared_set_transactions
                     | rewrite declared_set_users
                     | rewrite lookup_insert_eq
                     | split_step ]);
  cbn.



(** X14: when the cleaned id is already in the table, [create_transaction]
    returns [False] and the database is unchanged, whatever the other
    fields and whatever the storage does. *)
Theorem create_transaction_rejects_duplicate
    tx uid amt meth meta now faults d v r :
  Validator.validate_transaction_input tx uid amt meth meta = Some v ->
  transactions d !! Validator.v_tx_id v = Some r ->
  run (create_transaction tx uid amt meth meta now) faults d = (Return false, d).
Proof.
  intros Hv Hr. run_ledger. rewrite Hv. simpl. rewrite Hr.
  by split_cases.
Qed.

Lemma create_transaction_rejects_duplicate_witness :
  run (create_transaction (py "order_1") (Validator.IdInt 7)
         (Validator.AmtNum 99) (py "Stars") (Validator.MStr (py "again"))
         (py "2024-01-03T10:00:00")) no_faults Examples.pending_ledger
  = (Return false, Examples.pending_ledger).
Proof.
  exact (create_transaction_rejects_duplicate (py "order_1") (Validator.IdInt 7)
           (Validator.AmtNum 99) (py "Stars") (Validator.MStr (py "again"))
           (py "2024-01-03T10:00:00") no_faults Examples.pending_ledger
           (Validator.mkValidated (py "order_1") 7 (Py.round2 99) (py "Stars")
              (py "again"))
           (mkTx 42 (Py.round2 10) (py "OxaPay") (py "vip") (py "pending")
              (py "2024-01-01T10:00:00") None (py "2024-01-01T10:00:00") None)
           eq_refl eq_refl).
Defined.

(** X15: for a transaction id that is not in the table,
    [update_transaction_status] returns [False] and writes nothing: no row
    is created and no user becomes VIP, whatever the status asked for and
    whatever the storage does. *)
Theorem update_transaction_status_unknown tx stat now faults d :
  transactions d !! tx = None ->
  run (update_transaction_status tx stat now) faults d = (Return false, d).
Proof.
  intros Hr. run_ledger. rewrite Hr.
  by split_cases.
Qed.

Lemma update_transaction_status_unknown_witness :
  run (update_transaction_status (py "order_9") (py "completed") (py "t"))
      no_faults Examples.pending_ledger
  = (Return false, Examples.pending_ledger).
Proof.
  exact (update_transaction_status_unknown (py "order_9") (py "completed")
           (py "t") no_faults Examples.pending_ledger eq_refl).
Defined.

Lemma user_kept_refl u : user_kept u u.
Proof. by split. Qed.

Lemma tx_kept_refl r : tx_kept r r.
Proof. by repeat split. Qed.

Ltac lookup_cases :=
  simpl;
  repeat match goal with
         | |- context [<[?k:=_]> _ !! ?i] =>
             destruct (decide (k = i)) as [?|?];
             [subst; rewrite lookup_insert_eq|rewrite lookup_insert_ne by done]
         end;
  simplify_eq; eauto using user_kept_refl, tx_kept_refl.

(** One call keeps every user row it finds. *)
Lemma perform_users_kept c faults d uid u :
  users d !! uid = Some u ->
  exists u', users (perform c faults d) !! uid = Some u' /\ user_kept u u'.
Proof.
  intros Hu. destruct c; unfold perform; run_ledger; split_cases; lookup_cases;
    try (eexists; split; [done|]; by split).
  rewrite lookup_fmap, Hu. simpl. unfold cleaned.
  destruct (stale _ _); eexists; (split; [done|]); by split.
Qed.

(** One call keeps every transaction row it finds. *)
Lemma perform_transactions_kept c faults d tx r :
  transactions d !! tx = Some r ->
  exists r', transactions (perform c faults d) !! tx = Some r' /\ tx_kept r r'.
Proof.
  intros Hr. destruct c; unfold perform; run_ledger; split_cases; lookup_cases;
    try (eexists; split; [done|]; by repeat split).
Qed.

(** X16: no sequence of calls of [add_user], [create_transaction],
    [update_transaction_status] and [cleanup_old_sessions] deletes a user,
    changes the day a user joined, or takes VIP away from a user who has
    it, whatever the arguments and whatever the storage does. *)
Theorem users_are_kept calls d uid u :
  users d !! uid = Some u ->
  exists u', users (perform_all calls d) !! uid = Some u'
             /\ join_date u' = join_date u
             /\ (is_vip u = true -> is_vip u' = true).
Proof.
  revert d u. unfold perform_all.
  induction calls as [|[c faults] calls IH]; intros d u Hu; simpl.
  - by exists u.
  - destruct (perform_users_kept c faults d uid u Hu) as (u1 & Hu1 & Hj & Hv).
    destruct (IH _ _ Hu1) as (u' & Hu' & Hj' & Hv').
    exists u'. split; [done|]. split; [congruence|auto].
Qed.

Lemma users_are_kept_witness :
  exists u',
    users (perform_all
             [(CallUpdateTransactionStatus (py "order_1") (py "completed") (py "t1"),
               no_faults);
              (CallCleanupOldSessions (py "2030-01-01") (py "t2"), no_faults);
              (CallUpdateTransactionStatus (py "order_1") (py "failed") (py "t3"),
               no_faults)]
             Examples.pending_ledger) !! 42 = Some u'
    /\ join_date u' = py "2024-01-01T09:00:00".
Proof.
  destruct (users_are_kept
              [(CallUpdateTransactionStatus (py "order_1") (py "completed") (py "t1"),
                no_faults);
               (CallCleanupOldSessions (py "2030-01-01") (py "t2"), no_faults);
               (CallUpdateTransactionStatus (py "order_1") (py "failed") (py "t3"),
                no_faults)]
              Examples.pending_ledger 42
              (mkUser (py "2024-01-01T09:00:00") (py "2024-01-01T09:00:00")
                 false (py "2024-01-01T09:00:00")) eq_refl) as (u' & H1 & H2 & _).
  exists u'. split; [exact H1|exact H2].
Defined.

(** X17: no sequence of those calls deletes a transaction or changes its
    owner, amount, method, metadata, timestamp or creation time; only the
    status, [processed_at] and [updated_at] of a transaction ever change. *)
Theorem transactions_are_kept calls d tx r :
  transactions d !! tx = Some r ->
  exists r', transactions (perform_all calls d) !! tx = Some r'
             /\ user_id r' = user_id r /\ amount r' = amount r
             /\ method r' = method r /\ metadata r' = metadata r
             /\ timestamp r' = timestamp r /\ created_at r' = created_at r.
Proof.
  revert d r. unfold perform_all.
  induction calls as [|[c faults] calls IH]; intros d r Hr; simpl.
  - by exists r.
  - destruct (perform_transactions_kept c faults d tx r Hr)
      as (r1 & Hr1 & H1 & H2 & H3 & H4 & H5 & H6).
    destruct (IH _ _ Hr1) as (r' & Hr' & H1' & H2' & H3' & H4' & H5' & H6').
    exists r'. split; [done|]. repeat split; congruence.
Qed.

Lemma transactions_are_kept_witness :
  exists r',
    transactions (perform_all
      [(CallUpdateTransactionStatus (py "order_1") (py "completed") (py "t1"),
        no_faults);
       (CallCreateTransaction (py "order_1") (Validator.IdInt 7)
          (Validator.AmtNum 99) (py "Stars") (Validator.MStr (py "again"))
          (py "t2"), no_faults)]
      Examples.pending_ledger) !! py "order_1" = Some r'
    /\ user_id r' = 42.
Proof.
  destruct (transactions_are_kept
      [(CallUpdateTransactionStatus (py "order_1") (py "completed") (py "t1"),
        no_faults);
       (CallCreateTransaction (py "order_1") (Validator.IdInt 7)
          (Validator.AmtNum 99) (py "Stars") (Validator.MStr (py "again"))
          (py "t2"), no_faults)]
      Examples.pending_ledger (py "order_1")
      (mkTx 42 (Py.round2 10) (py "OxaPay") (py "vip") (py "pending")
         (py "2024-01-01T10:00:00") None (py "2024-01-01T10:00:00") None)
      eq_refl) as (r' & H1 & H2 & _).
  exists r'. split; [exact H1|exact H2].
Defined.



Lemma bytes_ltb_irrefl a : bytes_ltb a a = false.
Proof.
  induction a as [|x a IH]; [done|]. simpl.
  rewrite Z.ltb_irrefl, Z.eqb_refl. done.
Qed.

Lemma cleaned_not_stale cutoff_date now u :
  stale cutoff_date (cleaned cutoff_date now u) = false.
Proof.
  unfold cleaned. destruct (stale cutoff_date u) eqn:Hs; [|done].
  unfold stale, text_ltb. simpl. by rewrite bytes_ltb_irrefl.
Qed.

(** X19: on a [users] table with the columns the statement names and
    without a storage fault, [cleanup_old_sessions] returns the number of
    users that are not VIP and whose last interaction is before the cutoff,
    moves the last interaction of exactly those users to the cutoff, leaves
    every VIP user and every transaction as they are, and a second run with
    the same cutoff returns 0 and changes nothing. *)
Theorem cleanup_old_sessions_effect cutoff_date now later faults d :
  declared d Users ["last_interaction"; "updated_at"; "is_vip"] = true ->
  faults 0%nat = false ->
  let '(res, d') := run (cleanup_old_sessions cutoff_date now) faults d in
  res = Return (size (filter (fun kv : Z * user_row =>
                                stale cutoff_date (snd kv) = true) (users d)))
  /\ transactions d' = transactions d
  /\ (forall uid, users d' !! uid = cleaned cutoff_date now <$> users d !! uid)
  /\ (forall uid u, users d !! uid = Some u -> is_vip u = true ->
                    users d' !! uid = Some u)
  /\ run (cleanup_old_sessions cutoff_date later) faults d' = (Return 0%nat, d').
Proof.
  intros Hd Hf. run_ledger. rewrite Hf, Hd. cbn.
  split; [done|]. split; [done|].
  split; [intros uid; by rewrite lookup_fmap|].
  split.
  { intros uid u Hu Hvip. rewrite lookup_fmap, Hu. cbn.
    unfold cleaned, stale. by rewrite Hvip, andb_false_r. }
  rewrite declared_set_users, Hd. cbn.
  assert (Hnone : filter (fun kv : Z * user_row => stale cutoff_date (snd kv) = true)
                    (cleaned cutoff_date now <$> users d) = ∅).
  { apply map_empty. intros uid. apply map_lookup_filter_None. right.
    intros u'. rewrite lookup_fmap.
    destruct (users d !! uid) as [u|]; [|done]. intros [= <-]. cbn.
    by rewrite cleaned_not_stale. }
  assert (Hsame : cleaned cutoff_date later <$> (cleaned cutoff_date now <$> users d)
                  = cleaned cutoff_date now <$> users d).
  { apply map_eq. intros uid. rewrite !lookup_fmap.
    destruct (users d !! uid) as [u|]; [|done]. cbn. f_equal.
    pose proof (cleaned_not_stale cutoff_date now u) as Hs.
    unfold cleaned at 1. by rewrite Hs. }
  rewrite Hnone, map_size_empty. unfold set_users. cbn. by rewrite Hsame.
Qed.

Lemma cleanup_old_sessions_effect_witness :
  let '(res, d') :=
    run (cleanup_old_sessions (py "2024-02-01") (py "2024-03-01")) no_faults
        Examples.pending_ledger in
  users d' !! 42
  = Some (mkUser (py "2024-01-01T09:00:00") (py "2024-02-01") false (py "2024-03-01")).
Proof.
  pose proof (cleanup_old_sessions_effect (py "2024-02-01") (py "2024-03-01")
                (py "2024-03-02") no_faults Examples.pending_ledger
                eq_refl eq_refl) as H.
  destruct (run _ _ Examples.pending_ledger) as [res d'].
  destruct H as (_ & _ & H & _). exact (H 42).
Defined.

(** Every statement of [init_db] after the two [CREATE TABLE] leaves the
    database as it is, and the loop over the indexes never raises. *)
Lemma init_db_indexes ixs faults w :
  exists n,
    fold_right
      (fun ix k =>
         try_except (execute_update (sql_create_index (fst ix) (snd ix)) ;; mret tt)
                    (fun _ => mret tt) ;; k)
      (mret tt) ixs faults w
    = (Return tt, mkWorld (db w) n).
Proof.
  revert w. induction ixs as [|[t names] ixs IH]; intros [d n].
  - by exists n.
  - cbn [fold_right fst snd].
    unfold mbind, storage_bind, bind, try_except, mret, storage_ret, ret,
      execute_update, sql_create_index in *. cbn [db calls].
    destruct (faults n); [apply (IH (mkWorld d (S n)))|].
    destruct (declared d t names); apply (IH (mkWorld d (S n))).
Qed.

(** [init_db] on a file without a [transactions] table, when the two
    [CREATE TABLE] statements go through. *)
Lemma init_db_creates_transactions faults d :
  transactions_columns d = [] ->
  faults 0%nat = false -> faults 1%nat = false ->
  let '(res, d') := run init_db faults d in
  res = Return tt
  /\ transactions_columns d' = create_transactions_table
  /\ users d' = users d /\ transactions d' = transactions d.
Proof.
  intros Hc Hf0 Hf1. unfold run, init_db.
  set (loop := fold_right _ _ indexes).
  unfold mbind, storage_bind, bind, execute_update. cbn [db calls].
  rewrite Hf0.
  assert (exists d1, sql_create_table Users d = Return (0%nat, d1)
                     /\ transactions_columns d1 = []
                     /\ users d1 = users d /\ transactions d1 = transactions d)
    as (d1 & -> & Hc1 & Hu1 & Ht1).
  { unfold sql_create_table, columns.
    destruct (users_columns d); eexists; (split; [reflexivity|]); by cbn. }
  cbn [db calls]. rewrite Hf1.
  unfold sql_create_table, columns. rewrite Hc1.
  subst loop.
  destruct (init_db_indexes indexes faults
              (mkWorld (mkDb (users_columns d1) create_transactions_table
                          (users d1) (transactions d1)) 2)) as (n & ->).
  by cbn.
Qed.

Lemma perform_keeps_columns c faults d :
  transactions_columns (perform c faults d) = transactions_columns d.
Proof. destruct c; unfold perform; run_ledger; by split_cases. Qed.

Lemma perform_all_keeps_columns calls d :
  transactions_columns (perform_all calls d) = transactions_columns d.
Proof.
  revert d. unfold perform_all.
  induction calls as [|[c faults] calls IH]; intros d; simpl; [done|].
  by rewrite IH, perform_keeps_columns.
Qed.

Lemma perform_keeps_pending c faults d :
  transactions_columns d = create_transactions_table ->
  all_pending d -> all_pending (perform c faults d).
Proof.
  intros Hc Hp. destruct c; unfold perform.
  - unfold all_pending. run_ledger; split_cases; exact Hp.
  - unfold all_pending. run_ledger; split_cases; try exact Hp.
    intros tx r.
    destruct (decide (Validator.v_tx_id v = tx)) as [->|Hne].
    + rewrite lookup_insert_eq. by intros [= <-].
    + rewrite lookup_insert_ne by done. apply Hp.
  - by rewrite (update_transaction_status_init_db_schema d tx_id stat now faults Hc).
  - unfold all_pending. run_ledger; split_cases; exact Hp.
Qed.

Lemma perform_all_keeps_pending calls d :
  transactions_columns d = create_transactions_table ->
  all_pending d -> all_pending (perform_all calls d).
Proof.
  revert d. unfold perform_all.
  induction calls as [|[c faults] calls IH]; intros d Hc Hp; simpl; [done|].
  apply IH; [by rewrite perform_keeps_columns|by apply perform_keeps_pending].
Qed.

(** X20: on a file whose [transactions] table [init_db] created, no status
    is ever recorded.  The table has no [updated_at] column, which the
    [UPDATE] of [update_transaction_status] names: after any sequence of
    calls of [add_user], [create_transaction], [update_transaction_status]
    and [cleanup_old_sessions], [update_transaction_status] returns [False]
    for every id and status and leaves the database as it is, and every
    transaction is still [pending] without a [processed_at]. *)
Theorem init_db_schema_records_no_status faults0 d0 calls tx stat now faults :
  transactions_columns d0 = [] -> transactions d0 = ∅ ->
  faults0 0%nat = false -> faults0 1%nat = false ->
  let d := perform_all calls (snd (run init_db faults0 d0)) in
  run (update_transaction_status tx stat now) faults d = (Return false, d)
  /\ forall tx' r,
       transactions d !! tx' = Some r ->
       status r = py "pending" /\ processed_at r = None.
Proof.
  intros Hc He Hf0 Hf1. cbv zeta.
  pose proof (init_db_creates_transactions faults0 d0 Hc Hf0 Hf1) as Hinit.
  destruct (run init_db faults0 d0) as [res d1].
  destruct Hinit as (_ & Hc1 & _ & Ht1). cbn [snd].
  split.
  - apply update_transaction_status_init_db_schema.
    by rewrite perform_all_keeps_columns.
  - apply (perform_all_keeps_pending calls d1 Hc1).
    intros tx' r. rewrite Ht1, He. by rewrite lookup_empty.
Qed.

Lemma init_db_schema_records_no_status_witness :
  let d :=
    perform_all
      [(CallAddUser 42 (py "t0"), no_faults);
       (CallCreateTransaction (py "order_1") (Validator.IdInt 42)
          (Validator.AmtNum 10) (py "oxapay") (Validator.MStr (py "vip"))
          (py "t1"), no_faults);
       (CallUpdateTransactionStatus (py "order_1") (py "completed") (py "t2"),
        no_faults)]
      (snd (run init_db no_faults (mkDb [] [] ∅ ∅))) in
  run (update_transaction_status (py "order_1") (py "completed") (py "t3"))
      no_faults d = (Return false, d).
Proof.
  cbv zeta.
  exact (proj1 (init_db_schema_records_no_status no_faults (mkDb [] [] ∅ ∅)
    [(CallAddUser 42 (py "t0"), no_faults);
     (CallCreateTransaction (py "order_1") (Validator.IdInt 42)
        (Validator.AmtNum 10) (py "oxapay") (Validator.MStr (py "vip"))
        (py "t1"), no_faults);
     (CallUpdateTransactionStatus (py "order_1") (py "completed") (py "t2"),
      no_faults)]
    (py "order_1") (py "completed") (py "t3") no_faults
    eq_refl eq_refl eq_refl eq_refl)).
Defined.

End LedgerOperations.

(** ** The calls of the payment gateways *)

Section GatewayCalls.
Import Payments.

(** The events of [_make_request]: the attempts 0 to [n - 1], for some [n]
    from 1 to 4. *)
Lemma make_request_events net url :
  exists n : nat,
    (1 <= n <= 4)%nat
    /\ snd (_make_request MAX_RETRIES net url)
       = flat_map (attempt_events url) (seq 0 n).
Proof.
  destruct (request_loop_spec MAX_RETRIES net url (S MAX_RETRIES) 0)
    as (n & Hn & _ & _ & Heq); [done|lia|].
  exists (S n). unfold MAX_RETRIES in *. split; [lia|].
  unfold _make_request. rewrite Heq. by rewrite Nat.sub_0_r.
Qed.

(** A dictionary returned by [_make_request] is the body of a response
    that did not raise, at the first attempt that did not raise. *)
Lemma make_request_answer net url body events :
  _make_request MAX_RETRIES net url = (Some body, events) ->
  exists (n : nat) status_code,
    (n <= 3)%nat
    /\ (forall j, (j < n)%nat -> attempt_raises (net j) = true)
    /\ net n = Response status_code (Some body)
    /\ ~ (400 <= status_code < 600)
    /\ events = flat_map (attempt_events url) (seq 0 (S n)).
Proof.
  destruct (request_loop_spec MAX_RETRIES net url (S MAX_RETRIES) 0)
    as (n & Hn & Hbefore & _ & Heq); [done|lia|].
  unfold _make_request. rewrite Heq, Nat.sub_0_r. intros [= Hbody <-].
  destruct (net n) as [| | | |status_code answer] eqn:Hnet; try done.
  cbn [attempt_raises response_json] in Hbody.
  destruct (raise_for_status status_code) eqn:Hs; [done|]. subst answer.
  exists n, status_code. unfold MAX_RETRIES in Hn.
  repeat split; try done; try lia.
  - intros j Hj. apply Hbefore. lia.
  - unfold raise_for_status in Hs. lia.
Qed.

Lemma OxaPay_create_payment_events env amount :
  let url := py "https://api.oxapay.com/merchants/request" in
  snd (OxaPay_create_payment env amount) = []
  \/ (truthy (OXAPAY_API_KEY env) = true
      /\ snd (OxaPay_create_payment env amount)
         = snd (_make_request MAX_RETRIES (network env url) url)).
Proof.
  cbv zeta. unfold OxaPay_create_payment.
  destruct (truthy (OXAPAY_API_KEY env)); [|by left].
  destruct (Qle_bool amount 0); [by left|]. right. split; [done|].
  destruct (_make_request MAX_RETRIES _ _) as [response events].
  destruct (nonempty response) as [r|]; [|done].
  repeat case_match; by simplify_eq.
Qed.

Lemma Cryptomus_create_payment_events env amount :
  let url := py "https://api.cryptomus.com/v1/payment" in
  snd (Cryptomus_create_payment env amount) = []
  \/ (truthy (CRYPTOMUS_API_KEY env) = true
      /\ truthy (CRYPTOMUS_MERCHANT_ID env) = true
      /\ snd (Cryptomus_create_payment env amount)
         = snd (_make_request MAX_RETRIES (network env url) url)).
Proof.
  cbv zeta. unfold Cryptomus_create_payment.
  destruct (truthy (CRYPTOMUS_API_KEY env)); [|by left].
  destruct (truthy (CRYPTOMUS_MERCHANT_ID env)); [|by left].
  destruct (Qle_bool amount 0); [by left|]. right. do 2 (split; [done|]).
  destruct (_make_request MAX_RETRIES _ _) as [response events].
  destruct (nonempty response) as [r|]; [|done].
  repeat case_match; by simplify_eq.
Qed.

Lemma NOWPayments_create_payment_events env amount :
  let url := py "https://api.nowpayments.io/v1/invoice" in
  snd (NOWPayments_create_payment env amount) = []
  \/ (truthy (NOWPAYMENTS_API_KEY env) = true
      /\ snd (NOWPayments_create_payment env amount)
         = snd (_make_request MAX_RETRIES (network env url) url)).
Proof.
  cbv zeta. unfold NOWPayments_create_payment.
  destruct (truthy (NOWPAYMENTS_API_KEY env)); [|by left].
  destruct (Qle_bool amount 0); [by left|]. right. split; [done|].
  destruct (_make_request MAX_RETRIES _ _) as [response events].
  destruct (nonempty response) as [r|]; [|done].
  by destruct (Json.get (py "invoice_url") r).
Qed.

Lemma StripePayment_create_payment_events env amount :
  snd (StripePayment_create_payment env amount) = []
  \/ (truthy (STRIPE_SECRET_KEY env) = true /\ stripe env <> None
      /\ snd (StripePayment_create_payment env amount) = [StripeCall]).
Proof.
  unfold StripePayment_create_payment.
  destruct (stripe env) as [session|]; [|by left].
  destruct (truthy (STRIPE_SECRET_KEY env)); [|by left].
  right. do 2 (split; [done|]). by destruct session as [[]|].
Qed.

(** The calls [generate_payment_link] makes to the outside: none, or those
    of the one gateway that was asked for. *)
Lemma generate_payment_link_events env method amount order_id user_id :
  let events := snd (generate_payment_link env method amount order_id user_id) in
  events = []
  \/ ((0 < amount)%Q /\ order_id <> [] /\ user_id <> 0
      /\ ((exists url,
             (method = py "OxaPay"
              /\ url = py "https://api.oxapay.com/merchants/request"
              /\ truthy (OXAPAY_API_KEY env) = true
              \/ method = py "Cryptomus"
                 /\ url = py "https://api.cryptomus.com/v1/payment"
                 /\ truthy (CRYPTOMUS_API_KEY env) = true
                 /\ truthy (CRYPTOMUS_MERCHANT_ID env) = true
              \/ method = py "NOWPayments"
                 /\ url = py "https://api.nowpayments.io/v1/invoice"
                 /\ truthy (NOWPAYMENTS_API_KEY env) = true)
             /\ events = snd (_make_request MAX_RETRIES (network env url) url))
          \/ (method = py "Stripe" /\ truthy (STRIPE_SECRET_KEY env) = true
              /\ stripe env <> None /\ events = [StripeCall]))).
Proof.
  cbv zeta. unfold generate_payment_link.
  destruct (bool_decide (method = [])); [by left|].
  destruct (Qeq_bool amount 0); [by left|].
  destruct (bool_decide (order_id = [])) eqn:Ho; [by left|].
  destruct (user_id =? 0) eqn:Hu; [by left|].
  apply bool_decide_eq_false in Ho. apply Z.eqb_neq in Hu.
  cbn [orb].
  destruct (Qle_bool amount 0) eqn:Hpos; [by left|].
  assert (0 < amount)%Q as Hamount.
  { apply Qnot_le_lt. intros H%Qle_bool_iff. congruence. }
  unfold Py.str_eqb.
  case_bool_decide as Ht.
  { destruct (truthy (USDT_WALLET_ADDRESS env)); by left. }
  case_bool_decide as Hin; [|by left]. cbn [negb].
  case_bool_decide as H1.
  { destruct (truthy (OXAPAY_API_KEY env)); [|by left]. cbn [negb].
    destruct (OxaPay_create_payment_events env amount) as [->|(Hk & ->)];
      [by left|right].
    do 3 (split; [done|]). left. eexists. split; [|done]. by left. }
  case_bool_decide as H2.
  { destruct (truthy (CRYPTOMUS_API_KEY env)); [|by left]. cbn [negb].
    destruct (Cryptomus_create_payment_events env amount) as [->|(Hk & Hm & ->)];
      [by left|right].
    do 3 (split; [done|]). left. eexists. split; [|done]. right. by left. }
  case_bool_decide as H3.
  { destruct (truthy (NOWPAYMENTS_API_KEY env)); [|by left]. cbn [negb].
    destruct (NOWPayments_create_payment_events env amount) as [->|(Hk & ->)];
      [by left|right].
    do 3 (split; [done|]). left. eexists. split; [|done]. by do 2 right. }
  assert (method = py "Stripe") as Hs.
  { repeat (apply elem_of_cons in Hin as [?|Hin]; [congruence|]).
    by apply elem_of_nil in Hin. }
  destruct (truthy (STRIPE_SECRET_KEY env)); [|by left]. cbn [negb].
  destruct (StripePayment_create_payment_events env amount)
    as [->|(Hk & Hl & ->)]; [by left|right].
  do 3 (split; [done|]). by right.
Qed.

Ltac bounded_events :=
  repeat split; try reflexivity; try (vm_compute; discriminate);
  try (vm_compute; lia).

(** X21: whatever the configuration, the gateways' answers and the
    arguments, one call of [generate_payment_link] sends at most four
    requests, all to one address and numbered from 0, sleeps
    [2 ** n - 2] seconds when it sent [n] of them, so at most 14 seconds,
    and calls the Stripe library at most once. *)
Theorem generate_payment_link_calls_bounded env method amount order_id user_id :
  let events := snd (generate_payment_link env method amount order_id user_id) in
  exists (url : str) (n : nat),
    (n <= 4)%nat
    /\ requests events = map (fun k => (url, k)) (seq 0 n)
    /\ slept events = Z.max 0 (2 ^ Z.of_nat n - 2)
    /\ 0 <= slept events <= 14
    /\ (List.length (List.filter
                       (fun e => match e with StripeCall => true | _ => false end)
                       events) <= 1)%nat.
Proof.
  cbv zeta.
  destruct (generate_payment_link_events env method amount order_id user_id)
    as [->|(_ & _ & _ & [(url & _ & ->)|(_ & _ & _ & ->)])].
  - exists [], 0%nat. bounded_events.
  - destruct (make_request_events (network env url) url) as (n & Hn & ->).
    exists url, n.
    assert (n = 1 \/ n = 2 \/ n = 3 \/ n = 4)%nat
      as [->|[->|[->| ->]]] by lia; bounded_events.
  - exists [], 0%nat. bounded_events.
Qed.



(** A positive amount passes the first two tests of
    [generate_payment_link]. *)
Lemma positive_amount amount :
  (0 < amount)%Q -> Qeq_bool amount 0 = false /\ Qle_bool amount 0 = false.
Proof.
  intros H. split; apply not_true_is_false.
  - intros E%Qeq_bool_iff. rewrite E in H. by apply Qlt_irrefl in H.
  - intros E%Qle_bool_iff. by apply Qle_not_lt in E.
Qed.

Ltac link_of_gateway :=
  intros Ha Ho Hu Hk; unfold generate_payment_link;
  destruct (positive_amount _ Ha) as [-> ->];
  rewrite (bool_decide_eq_false_2 _ Ho);
  rewrite (proj2 (Z.eqb_neq _ _) Hu), ?Hk.

Lemma generate_payment_link_OxaPay env amount order_id user_id :
  (0 < amount)%Q -> order_id <> [] -> user_id <> 0 ->
  truthy (OXAPAY_API_KEY env) = true ->
  generate_payment_link env (py "OxaPay") amount order_id user_id
  = OxaPay_create_payment env amount.
Proof. link_of_gateway. reflexivity. Qed.

Lemma generate_payment_link_Cryptomus env amount order_id user_id :
  (0 < amount)%Q -> order_id <> [] -> user_id <> 0 ->
  truthy (CRYPTOMUS_API_KEY env) = true ->
  generate_payment_link env (py "Cryptomus") amount order_id user_id
  = Cryptomus_create_payment env amount.
Proof. link_of_gateway. reflexivity. Qed.

Lemma generate_payment_link_NOWPayments env amount order_id user_id :
  (0 < amount)%Q -> order_id <> [] -> user_id <> 0 ->
  truthy (NOWPAYMENTS_API_KEY env) = true ->
  generate_payment_link env (py "NOWPayments") amount order_id user_id
  = NOWPayments_create_payment env amount.
Proof. link_of_gateway. reflexivity. Qed.

Lemma OxaPay_create_payment_link env amount link events :
  let url := py "https://api.oxapay.com/merchants/request" in
  OxaPay_create_payment env amount = (Some link, events) ->
  exists body,
    _make_request MAX_RETRIES (network env url) url = (Some body, events)
    /\ Json.get (py "result") body = Some (Json.JInt 100)
    /\ link = [(py "trackId", RGet (Json.get (py "trackId") body));
               (py "payLink", RGet (Json.get (py "payLink") body));
               (py "amount", RGet (Json.get (py "amount") body));
               (py "currency", RGet (Json.get (py "currency") body))].
Proof.
  cbv zeta. unfold OxaPay_create_payment.
  destruct (truthy (OXAPAY_API_KEY env)); [|done].
  destruct (Qle_bool amount 0); [done|]. cbn [negb].
  destruct (_make_request MAX_RETRIES _ _) as [response ev].
  destruct response as [[|kv body]|]; cbn [nonempty]; [done| |done].
  intros H. exists (kv :: body).
  repeat case_match; simplify_eq. done.
Qed.

Lemma Cryptomus_create_payment_link env amount link events :
  let url := py "https://api.cryptomus.com/v1/payment" in
  Cryptomus_create_payment env amount = (Some link, events) ->
  exists body,
    _make_request MAX_RETRIES (network env url) url = (Some body, events)
    /\ (Json.get (py "state") body = Some (Json.JInt 0)
        \/ Json.get (py "state") body = Some (Json.JBool false))
    /\ (exists res,
          Json.get (py "result") body = Some (Json.JObj res)
          /\ link = [(py "uuid", RGet (Json.get (py "uuid") res));
                     (py "url", RGet (Json.get (py "url") res));
                     (py "amount", RGet (Json.get (py "amount") res));
                     (py "currency", RGet (Json.get (py "currency") res))]).
Proof.
  cbv zeta. unfold Cryptomus_create_payment.
  destruct (truthy (CRYPTOMUS_API_KEY env)); [|done].
  destruct (truthy (CRYPTOMUS_MERCHANT_ID env)); [|done].
  destruct (Qle_bool amount 0); [done|]. cbn [negb orb].
  destruct (_make_request MAX_RETRIES _ _) as [response ev].
  destruct response as [[|kv body]|]; cbn [nonempty]; [done| |done].
  intros H. exists (kv :: body).
  repeat case_match; simplify_eq; (split; [done|]);
    (split; [by (left + right)|]); by eexists.
Qed.

Lemma NOWPayments_create_payment_link env amount link events :
  let url := py "https://api.nowpayments.io/v1/invoice" in
  NOWPayments_create_payment env amount = (Some link, events) ->
  exists body,
    _make_request MAX_RETRIES (network env url) url = (Some body, events)
    /\ Json.get (py "invoice_url") body <> None
    /\ link = [(py "id", RGet (Json.get (py "id") body));
               (py "invoice_url", RGet (Json.get (py "invoice_url") body));
               (py "price_amount", RGet (Json.get (py "price_amount") body));
               (py "price_currency",
                RGet (Json.get (py "price_currency") body))].
Proof.
  cbv zeta. unfold NOWPayments_create_payment.
  destruct (truthy (NOWPAYMENTS_API_KEY env)); [|done].
  destruct (Qle_bool amount 0); [done|]. cbn [negb].
  destruct (_make_request MAX_RETRIES _ _) as [response ev].
  destruct response as [[|kv body]|]; cbn [nonempty]; [done| |done].
  intros H. exists (kv :: body).
  repeat case_match; simplify_eq. done.
Qed.


(** X23: a link that [generate_payment_link] returns after a call to
    OxaPay, Cryptomus or NOWPayments comes from a response of that gateway
    whose status is not 4xx or 5xx and whose JSON body is accepted: with
    [result] 100 for OxaPay, with [state] 0 and a [result] object for
    Cryptomus, with an [invoice_url] for NOWPayments; it is the answer to
    the first attempt that did not raise, one of the four allowed. *)
Theorem gateway_link_comes_from_response
    env method amount order_id user_id link events :
  generate_payment_link env method amount order_id user_id = (Some link, events) ->
  events <> [] -> method <> py "Stripe" ->
  exists url (n : nat) status_code body,
    (n <= 3)%nat
    /\ (forall j, (j < n)%nat -> attempt_raises (network env url j) = true)
    /\ network env url n = Response status_code (Some body)
    /\ ~ (400 <= status_code < 600)
    /\ events = flat_map (attempt_events url) (seq 0 (S n))
    /\ (method = py "OxaPay"
        /\ url = py "https://api.oxapay.com/merchants/request"
        /\ Json.get (py "result") body = Some (Json.JInt 100)
        /\ link = [(py "trackId", RGet (Json.get (py "trackId") body));
                   (py "payLink", RGet (Json.get (py "payLink") body));
                   (py "amount", RGet (Json.get (py "amount") body));
                   (py "currency", RGet (Json.get (py "currency") body))]
        \/ method = py "Cryptomus"
           /\ url = py "https://api.cryptomus.com/v1/payment"
           /\ (Json.get (py "state") body = Some (Json.JInt 0)
               \/ Json.get (py "state") body = Some (Json.JBool false))
           /\ (exists res,
                 Json.get (py "result") body = Some (Json.JObj res)
                 /\ link = [(py "uuid", RGet (Json.get (py "uuid") res));
                            (py "url", RGet (Json.get (py "url") res));
                            (py "amount", RGet (Json.get (py "amount") res));
                            (py "currency", RGet (Json.get (py "currency") res))])
        \/ method = py "NOWPayments"
           /\ url = py "https://api.nowpayments.io/v1/invoice"
           /\ Json.get (py "invoice_url") body <> None
           /\ link = [(py "id", RGet (Json.get (py "id") body));
                      (py "invoice_url", RGet (Json.get (py "invoice_url") body));
                      (py "price_amount", RGet (Json.get (py "price_amount") body));
                      (py "price_currency",
                       RGet (Json.get (py "price_currency") body))]).
Proof.
  intros Hgen Hev Hns.
  pose proof (generate_payment_link_events env method amount order_id user_id)
    as Hc.
  cbv zeta in Hc. rewrite Hgen in Hc. cbn [snd] in Hc.
  destruct Hc as [?|(Ha & Ho & Hu & [(url & Hm & _)|(? & _)])]; [done| |done].
  exists url.
  destruct Hm as [(-> & -> & Hk)|[(-> & -> & Hk & Hi)|(-> & -> & Hk)]].
  - rewrite generate_payment_link_OxaPay in Hgen by done.
    apply OxaPay_create_payment_link in Hgen as (body & Hreq & Hres & ->).
    apply make_request_answer in Hreq as (n & status_code & H).
    exists n, status_code, body. destruct H as (? & ? & ? & ? & ?).
    do 5 (split; [done|]). by left.
  - rewrite generate_payment_link_Cryptomus in Hgen by done.
    apply Cryptomus_create_payment_link in Hgen as (body & Hreq & Hst & Hres).
    apply make_request_answer in Hreq as (n & status_code & H).
    exists n, status_code, body. destruct H as (? & ? & ? & ? & ?).
    do 5 (split; [done|]). right. by left.
  - rewrite generate_payment_link_NOWPayments in Hgen by done.
    apply NOWPayments_create_payment_link in Hgen as (body & Hreq & Hres & ->).
    apply make_request_answer in Hreq as (n & status_code & H).
    exists n, status_code, body. destruct H as (? & ? & ? & ? & ?).
    do 5 (split; [done|]). by do 2 right.
Qed.

Lemma gateway_link_comes_from_response_witness :
  exists url (n : nat) status_code body,
    (n <= 3)%nat
    /\ network Examples.oxapay_env url n = Response status_code (Some body)
    /\ Json.get (py "result") body = Some (Json.JInt 100).
Proof.
  destruct (gateway_link_comes_from_response Examples.oxapay_env (py "OxaPay")
              10 (py "order_1") 42 _ _ eq_refl
              ltac:(discriminate) ltac:(discriminate))
    as (url & n & status_code & body & Hn & _ & Hnet & _ & _ & H).
  exists url, n, status_code, body. split; [exact Hn|]. split; [exact Hnet|].
  destruct H as [(_ & _ & H & _)|[(H & _)|(H & _)]];
    [exact H|discriminate H|discriminate H].
Defined.

End GatewayCalls.

(** ** The query string of a link *)

Section QueryStrings.
Import Payments.

Lemma quote_plus_char c : forallb url_safe (quote_plus [c]) = true.
Proof. destruct c as [[] [] [] [] [] [] [] []]; by vm_compute. Qed.

Lemma quote_plus_safe s : forallb url_safe (quote_plus s) = true.
Proof.
  induction s as [|c s IH]; [done|].
  pose proof (quote_plus_char c) as Hc. unfold quote_plus in *.
  simpl in *. rewrite app_nil_r in Hc. by rewrite forallb_app, Hc, IH.
Qed.

Lemma count_app c a b : Py.count c (a ++ b) = (Py.count c a + Py.count c b)%nat.
Proof. unfold Py.count. by rewrite List.filter_app, length_app. Qed.

Lemma count_safe c s :
  url_safe c = false -> forallb url_safe s = true -> Py.count c s = 0%nat.
Proof.
  intros Hc. induction s as [|d s IH]; [done|]. simpl.
  intros (Hd & Hs)%andb_true_iff. unfold Py.count in *. simpl.
  destruct (ascii_dec d c) as [->|]; [congruence|]. by apply IH.
Qed.

Lemma count_quote_plus c s : url_safe c = false -> Py.count c (quote_plus s) = 0%nat.
Proof. intros Hc. apply count_safe; [done|apply quote_plus_safe]. Qed.

Lemma count_urlencode c params :
  url_safe c = false ->
  Py.count c (urlencode params)
  = (List.length params * Py.count c (py "=")
     + (List.length params - 1) * Py.count c (py "&"))%nat.
Proof.
  intros Hc. unfold urlencode.
  induction params as [|[k v] params IH]; [done|].
  destruct params as [|kv params].
  - change (Json.join _ (map _ [(k, v)]))
      with (quote_plus k ++ py "=" ++ quote_plus v).
    rewrite !count_app, !count_quote_plus by done.
    cbn [List.length]. lia.
  - change (map ?f ((k, v) :: kv :: params))
      with (f (k, v) :: map f (kv :: params)).
    change (Json.join ?sep (?x :: map ?f (kv :: params)))
      with (x ++ sep ++ Json.join sep (map f (kv :: params))).
    rewrite !count_app, IH, !count_quote_plus by done.
    cbn [fst snd List.length].
    replace (S (S (List.length params)) - 1)%nat with (S (List.length params))
      by lia.
    replace (S (List.length params) - 1)%nat with (List.length params) by lia.
    simpl. lia.
Qed.

(** X24: the query string [urlencode] writes for [n] parameters has
    exactly [n] equals signs and [n - 1] ampersands, and no question mark,
    hash sign, space, slash or quote, whatever the names and the values
    are: a value cannot add a parameter or end the query. *)
Theorem urlencode_keeps_parameters_apart params :
  let query := urlencode params in
  Py.count "="%char query = List.length params
  /\ Py.count "&"%char query = (List.length params - 1)%nat
  /\ Forall (fun c => Py.count c query = 0%nat)
       ["?"; "#"; " "; "/"; Py.chr 34; "'"; "<"; ">"]%char.
Proof.
  cbv zeta. split; [|split].
  - rewrite count_urlencode by done.
    change (Py.count "=" (py "=")) with 1%nat.
    change (Py.count "=" (py "&")) with 0%nat. lia.
  - rewrite count_urlencode by done.
    change (Py.count "&" (py "=")) with 0%nat.
    change (Py.count "&" (py "&")) with 1%nat. lia.
  - repeat constructor; rewrite count_urlencode by done;
      match goal with
      | |- context [Py.count ?c (py "=")] =>
          change (Py.count c (py "=")) with 0%nat;
          change (Py.count c (py "&")) with 0%nat
      end; lia.
Qed.

End QueryStrings.

(** ** The consumer of the notification queue *)

Section NotificationDelivery.
Import Bridge.

Lemma produce_all_items q cs :
  sync_queue_state q ->
  produce_all q cs = Some (mkQueue 0 (items q ++ map described cs)).
Proof.
  revert q. induction cs as [|c cs IH]; intros [mx its] Hq.
  - unfold sync_queue_state in Hq. simpl in *. subst mx. by rewrite app_nil_r.
  - unfold sync_queue_state in Hq. simpl in Hq. subst mx.
    destruct c; simpl; rewrite IH by done; simpl; by rewrite <- app_assoc.
Qed.

Lemma drain_all_delivered ADMIN_ID raises k cs :
  (forall j, raises j = false) ->
  drain ADMIN_ID raises k (map described cs)
  = (flat_map (fun c => [to_user (described c); to_admin ADMIN_ID (described c)]) cs,
     (k + 2 * List.length cs)%nat).
Proof.
  intros Hr. revert k. induction cs as [|c cs IH]; intros k.
  - simpl. f_equal. lia.
  - cbn [map drain].
    replace (Py.str_eqb (type (described c)) (py "payment_notification"))
      with true by (by destruct c).
    unfold _handle_payment_notification. rewrite !Hr, IH.
    cbn [flat_map List.length app]. f_equal. lia.
Qed.

(** X25: the producers and the consumer together.  Calls of
    [send_payment_notification] and [notify_user_success] on the empty
    queue all return; when no [bot.send_message] raises, the next round of
    [bridge_task] delivers for every call, in the order of the calls, the
    message to the user and then the message to the admin (the admin of the
    call, or [config.ADMIN_ID] when the call gives none or 0), makes two
    sends per call, and leaves the queue empty. *)
Theorem queued_notifications_are_delivered_in_order ADMIN_ID raises k cs :
  (forall j, raises j = false) ->
  exists q,
    produce_all _sync_queue cs = Some q
    /\ bridge_task_round ADMIN_ID raises k q
       = (flat_map (fun c => [to_user (described c);
                              to_admin ADMIN_ID (described c)]) cs,
          (k + 2 * List.length cs)%nat,
          _sync_queue).
Proof.
  intros Hr. eexists. split.
  - by apply produce_all_items.
  - unfold bridge_task_round. cbn [items _sync_queue new_Queue app maxsize].
    by rewrite drain_all_delivered.
Qed.

Lemma queued_notifications_are_delivered_in_order_witness :
  exists q,
    produce_all _sync_queue
      [CallNotifyUserSuccess (py "order_1") 42 None;
       CallSendPaymentNotification (py "order_2") 43 (py "ok") (Some 7)]
    = Some q
    /\ map chat_id (fst (fst (bridge_task_round 1 (fun _ => false) 0 q)))
       = [42; 1; 43; 7].
Proof.
  destruct (queued_notifications_are_delivered_in_order 1 (fun _ => false) 0
              [CallNotifyUserSuccess (py "order_1") 42 None;
               CallSendPaymentNotification (py "order_2") 43 (py "ok") (Some 7)]
              (fun _ => eq_refl)) as (q & Hq & Hround).
  exists q. split; [exact Hq|]. rewrite Hround. reflexivity.
Defined.

(** X26: whatever [bot.send_message] does, a round of [bridge_task]
    leaves the queue empty, so a notification whose delivery raised is not
    tried again; it makes at most two sends per item; and what it delivers
    is, for the payment notifications in queue order, nothing, the message
    to the user, or the message to the user followed by the message to the
    admin: the admin is never told of a sale the user was not told of, and
    items of another type are dropped. *)
Theorem bridge_task_round_outcome ADMIN_ID raises k q :
  let '(delivered, k', q') := bridge_task_round ADMIN_ID raises k q in
  items q' = []
  /\ (k <= k' <= k + 2 * List.length (items q))%nat
  /\ exists parts,
       delivered = concat parts
       /\ Forall2 (fun data part =>
                     part `prefix_of` [to_user data; to_admin ADMIN_ID data])
            (filter (fun data => type data = py "payment_notification") (items q))
            parts.
Proof.
  unfold bridge_task_round. destruct q as [mx its]. cbn [items maxsize].
  destruct (drain ADMIN_ID raises k its) as [delivered k'] eqn:Hd.
  split; [done|]. revert k delivered k' Hd.
  induction its as [|data rest IH]; intros k delivered k' Hd.
  - injection Hd as <- <-. split; [simpl; lia|]. exists []. by split.
  - cbn [drain] in Hd. unfold Py.str_eqb in Hd.
    rewrite filter_cons. case_bool_decide as Ht.
    + rewrite decide_True by done.
      destruct (_handle_payment_notification ADMIN_ID raises k data)
        as [first k1] eqn:Hh.
      destruct (drain ADMIN_ID raises k1 rest) as [later k2] eqn:Hl.
      injection Hd as <- <-.
      destruct (IH _ _ _ Hl) as (Hk & parts & -> & Hparts).
      assert ((k < k1 <= k + 2)%nat
              /\ first `prefix_of` [to_user data; to_admin ADMIN_ID data])
        as (Hk1 & Hfirst).
      { unfold _handle_payment_notification in Hh.
        destruct (raises k); [|destruct (raises (S k))];
          injection Hh as <- <-; (split; [lia|]).
        - by apply prefix_nil.
        - by exists [to_admin ADMIN_ID data].
        - done. }
      split; [simpl; lia|]. exists (first :: parts). split; [done|].
      by constructor.
    + rewrite decide_False by done.
      destruct (IH _ _ _ Hd) as (Hk & parts & -> & Hparts).
      split; [simpl; lia|]. by exists parts.
Qed.

End NotificationDelivery.

(** ** The NOWPayments verifier *)

Section NowpaymentsVerifier.
Import WebhookValidator.

(** The embedded hash agrees with the published test vectors: FIPS 180-4
    for SHA-512 and RFC 4231 (test cases 2 and 6) for HMAC-SHA512. *)
Example sha512_abc :
  Sha256.hex (Sha512.sha512 (Py.encode (py "abc")))
  = py "ddaf35a193617abacc417349ae20413112e6fa4e89a97ea20a9eeee64b55d39a2192992a274fc1a836ba3c23a3feebbd454d4423643ce80e2a9ac94fa54ca49f".
Proof. vm_compute. reflexivity. Qed.

Example sha512_two_blocks :
  Sha256.hex (Sha512.sha512
    (Py.encode (py "abcdefghbcdefghicdefghijdefghijkefghijklfghijklmghijklmnhijklmnoijklmnopjklmnopqklmnopqrlmnopqrsmnopqrstnopqrstu")))
  = py "8e959b75dae313da8cf4f72814fc143f8f7779c6eb9f7fa17299aeadb6889018501d289e4900f7e4331b99dec4b5433ac7d329eeb6dd26545e96e55b874be909".
Proof. vm_compute. reflexivity. Qed.

Example hmac_sha512_short_key :
  expected_signature_sha512 (py "Jefe") (py "what do ya want for nothing?")
  = py "164b7a7bfcf819e2e395fbe73b56e0a387bd64222e831fd610270cd7ea2505549758bf75c05a994a6d034f65f8f0e6fdcaeab1a34d4a6b4b636e070a38bce737".
Proof. vm_compute. reflexivity. Qed.

Example hmac_sha512_long_key :
  Sha256.hex (Sha512.hmac (repeat 170 131)
    (Py.encode (py "Test Using Larger Than Block-Size Key - Hash Key First")))
  = py "80b24263c7c1a3ebb71493c1dd7be8b49b46d1f41b4aeec1121b013783f8f3526b56d037e05f2598bd0fd2215d6a1e5295e64f73f63f0aec8b915a985d786598".
Proof. vm_compute. reflexivity. Qed.

(** *** The expected signature is 128 ASCII characters *)

Lemma length_round_sha512 v kw :
  List.length (Sha512.round v kw) = List.length v.
Proof.
  unfold Sha512.round.
  by repeat (destruct v as [|? v]; try done).
Qed.

Lemma length_compress_sha512 h block :
  List.length (Sha512.compress h block) = List.length h.
Proof.
  unfold Sha512.compress. rewrite length_map, length_combine.
  assert (forall kws v,
            List.length (fold_left Sha512.round kws v) = List.length v) as ->.
  { intros kws. induction kws as [|kw kws IH]; intros v; simpl; [done|].
    by rewrite IH, length_round_sha512. }
  lia.
Qed.

Lemma length_sha512 msg : List.length (Sha512.sha512 msg) = 64%nat.
Proof.
  unfold Sha512.sha512.
  set (bs := Sha256.blocks _ _).
  assert (Hd : List.length (fold_left Sha512.compress bs Sha512.H0) = 8%nat).
  { generalize Sha512.H0 (eq_refl : List.length Sha512.H0 = 8%nat).
    induction bs as [|b bs IH]; intros h Hh; simpl; [done|].
    apply IH. by rewrite length_compress_sha512. }
  revert Hd. generalize (fold_left Sha512.compress bs Sha512.H0).
  intros d Hd. do 9 (destruct d as [|? d]; try done).
Qed.

Lemma sha512_range msg : Forall (fun b => 0 <= b < 256) (Sha512.sha512 msg).
Proof.
  unfold Sha512.sha512. apply Forall_flat_map, Forall_forall.
  intros x _. apply be_bytes_range.
Qed.

Lemma expected_signature_sha512_ascii secret payload :
  ascii_only (expected_signature_sha512 secret payload) = true.
Proof. apply hex_ascii, sha512_range. Qed.

Lemma expected_signature_sha512_length secret payload :
  List.length (expected_signature_sha512 secret payload) = 128%nat.
Proof.
  unfold expected_signature_sha512, Sha512.hmac.
  by rewrite length_hex, length_sha512.
Qed.

(** X27: [verify_nowpayments] returns [True] exactly when the IPN secret
    is present and not empty and the received signature is the lower-case
    hexadecimal HMAC-SHA512 of the UTF-8 payload under the UTF-8 secret, a
    text of 128 ASCII characters; a signature that is missing, empty, of
    another length or not ASCII is rejected without an exception. *)
Theorem verify_nowpayments_accepts_exactly_the_hmac payload signature ipn_secret :
  (verify_nowpayments payload signature ipn_secret = true
   <-> exists secret,
         secret <> [] /\ ipn_secret = Some secret
         /\ signature = Some (expected_signature_sha512 secret payload))
  /\ (forall sig,
        signature = Some sig ->
        List.length sig <> 128%nat \/ ascii_only sig = false ->
        verify_nowpayments payload signature ipn_secret = false).
Proof.
  assert (Hiff : verify_nowpayments payload signature ipn_secret = true
    <-> exists secret,
          secret <> [] /\ ipn_secret = Some secret
          /\ signature = Some (expected_signature_sha512 secret payload)).
  { unfold verify_nowpayments. split.
    - destruct signature as [[|c sig]|]; try done.
      destruct ipn_secret as [[|d secret]|]; try done.
      destruct (compare_digest _ _) as [[]|] eqn:Hcmp; try done.
      apply compare_digest_true in Hcmp as [<- _]. intros _.
      by exists (d :: secret).
    - intros (k & Hk & -> & ->).
      pose proof (expected_signature_sha512_length k payload) as Hlen.
      destruct (expected_signature_sha512 k payload) as [|c sig] eqn:Hsig;
        [done|].
      destruct k as [|d k]; [done|].
      rewrite <- Hsig.
      assert (compare_digest (expected_signature_sha512 (d :: k) payload)
                (expected_signature_sha512 (d :: k) payload) = Some true)
        as ->; [|done].
      apply compare_digest_true. split; [done|].
      apply expected_signature_sha512_ascii. }
  split; [exact Hiff|].
  intros sig -> Hbad. apply not_true_is_false. intros Hv.
  apply Hiff in Hv as (secret & _ & _ & [= ->]).
  destruct Hbad as [Hlen|Hascii].
  - by rewrite expected_signature_sha512_length in Hlen.
  - by rewrite expected_signature_sha512_ascii in Hascii.
Qed.

Lemma verify_nowpayments_accepts_exactly_the_hmac_witness :
  verify_nowpayments (py "payment_id=1") (Some (py "ABCDEF")) (Some (py "secret"))
  = false.
Proof.
  destruct (verify_nowpayments_accepts_exactly_the_hmac (py "payment_id=1")
              (Some (py "ABCDEF")) (Some (py "secret"))) as [_ H].
  apply (H (py "ABCDEF") eq_refl). left. vm_compute. discriminate.
Defined.

Lemma has_key_keys k d d' : map fst d = map fst d' -> has_key k d = has_key k d'.
Proof. unfold has_key. by intros ->. Qed.

(** X28: [validate_webhook_data] looks at the keys only: it accepts a
    dictionary exactly when one of [order_id], [orderId], [trackId] and [id]
    is among its keys, so two payloads with the same keys get the same
    verdict whatever the values are (an id that is null or empty passes),
    and an argument that is no dictionary or an empty one is refused. *)
Theorem validate_webhook_data_reads_keys_only d d' :
  (validate_webhook_data (Some d) = true
   <-> exists field,
         field ∈ [py "order_id"; py "orderId"; py "trackId"; py "id"]
         /\ field ∈ map fst d)
  /\ (map fst d = map fst d' ->
      validate_webhook_data (Some d) = validate_webhook_data (Some d'))
  /\ validate_webhook_data None = false
  /\ validate_webhook_data (Some []) = false.
Proof.
  split; [|split; [|done]].
  - unfold validate_webhook_data. split.
    + destruct d as [|kv d]; [done|].
      intros (field & Hin & Hk)%existsb_exists.
      exists field. split; [by apply list_elem_of_In|].
      unfold has_key in Hk. by apply bool_decide_eq_true in Hk.
    + intros (field & Hin & Hk).
      destruct d as [|kv d]; [by apply elem_of_nil in Hk|].
      apply existsb_exists. exists field.
      split; [by apply list_elem_of_In|]. by apply bool_decide_eq_true.
  - intros Hkeys. unfold validate_webhook_data.
    destruct d as [|kv d], d' as [|kv' d']; try done.
    cbn [existsb]. by rewrite !(has_key_keys _ _ _ Hkeys).
Qed.

End NowpaymentsVerifier.

(** ** The connection pool *)

Section Connections.
Import ConnectionPool.

Lemma live_apart (live : gset Z) t t' : t ∈ live -> t' ∉ live -> t' <> t.
Proof. by intros Hin Hout ->. Qed.

Lemma get_connection_inv threads live t c s :
  pool_inv threads live s ->
  exists live',
    pool_inv ({[t]} ∪ threads) live' (snd (get_connection t c s)).
Proof.
  intros (Hc & Ho & Hsub & Hdom & Hlive & Hrest).
  destruct (decide (t ∈ live)) as [Hin|Hout].
  - destruct (Hlive t Hin) as (conn & Hconn).
    exists live.
    unfold get_connection, give_back. rewrite Hconn. cbn.
    rewrite lookup_insert_eq. cbn. rewrite insert_insert_eq.
    repeat split; cbn; try done.
    + etrans; [exact Hsub|apply union_subseteq_r].
    + by rewrite dom_insert_L, Hdom.
    + intros t' Ht'. destruct (decide (t' = t)) as [->|Hne].
      * exists conn. by rewrite lookup_insert_eq.
      * rewrite lookup_insert_ne by done. by apply Hlive.
    + intros t' Ht'.
      rewrite lookup_insert_ne by (symmetry; by eapply live_apart).
      by apply Hrest.
  - assert (default [] (pool s !! t) = []) as Hw.
    { by destruct (Hrest t Hout) as [-> | ->]. }
    assert (forall t', t' ∈ live -> t <> t') as Hother.
    { intros t' Ht'. by eapply live_apart. }
    assert (forall conn,
              pool_inv ({[t]} ∪ threads) ({[t]} ∪ live)
                (mkState (<[t := [conn]]> (pool s)) (S (opened s)) (closed s)))
      as Hnew.
    { intros conn. repeat split; cbn; try done.
      - rewrite size_union by (by apply disjoint_singleton_l).
        rewrite size_singleton. lia.
      - by apply union_mono_l.
      - by rewrite dom_insert_L, Hdom.
      - intros t' [->%elem_of_singleton|Ht']%elem_of_union.
        + eexists. by rewrite lookup_insert_eq.
        + rewrite lookup_insert_ne by (by apply Hother). by apply Hlive.
      - intros t' [Hne%not_elem_of_singleton Ht']%not_elem_of_union.
        rewrite lookup_insert_ne by done. by apply Hrest. }
    destruct c.
    + exists live.
      unfold get_connection. rewrite Hw. cbn.
      repeat split; cbn; try done.
      * etrans; [exact Hsub|apply union_subseteq_r].
      * by rewrite dom_insert_L, Hdom.
      * intros t' Ht'. rewrite lookup_insert_ne by (by apply Hother).
        by apply Hlive.
      * intros t' Ht'. destruct (decide (t' = t)) as [->|Hne].
        -- right. by rewrite lookup_insert_eq.
        -- rewrite lookup_insert_ne by done. by apply Hrest.
    + exists ({[t]} ∪ live).
      unfold get_connection, give_back. rewrite Hw. cbn.
      rewrite lookup_insert_eq. cbn. rewrite insert_insert_eq. apply Hnew.
    + exists ({[t]} ∪ live).
      unfold get_connection, give_back. rewrite Hw. cbn.
      rewrite lookup_insert_eq. cbn. rewrite insert_insert_eq. apply Hnew.
Qed.

Lemma uses_inv calls threads live s :
  pool_inv threads live s ->
  exists live',
    pool_inv (list_to_set (map fst calls) ∪ threads) live' (uses calls s).
Proof.
  revert threads live s. unfold uses.
  induction calls as [|[t c] calls IH]; intros threads live s Hinv.
  - exists live. cbn. by rewrite (left_id_L ∅ (∪)).
  - cbn [fold_left map list_to_set fst snd].
    destruct (get_connection_inv threads live t c s Hinv) as (live1 & H1).
    destruct (IH _ _ _ H1) as (live' & H').
    exists live'.
    replace ({[t]} ∪ list_to_set (map fst calls) ∪ threads)
      with (list_to_set (map fst calls) ∪ ({[t]} ∪ threads)); [done|].
    by rewrite (assoc_L (∪)), (comm_L (∪) _ {[t]}).
Qed.

(** X29: the pool as [execute_query], [execute_update] and [execute_many]
    use it.  After any sequence of uses by any threads, whatever raised, no
    connection has been closed, every thread has at most one connection
    waiting, so the limit of 5 is never reached, and at most one
    connection was opened per thread that made a use. *)
Theorem one_connection_per_thread calls :
  let s := uses calls initial in
  closed s = []
  /\ (forall t, List.length (default [] (pool s !! t)) <= 1)%nat
  /\ (opened s <= size (list_to_set (map fst calls) : gset Z))%nat.
Proof.
  cbv zeta.
  destruct (uses_inv calls ∅ ∅ initial) as (live & Hc & Ho & Hsub & _ & Hl & Hr).
  { repeat split; try done. intros t _. by left. }
  split; [done|]. split.
  - intros t. destruct (decide (t ∈ live)) as [Hin|Hout].
    + destruct (Hl t Hin) as (conn & ->). done.
    + destruct (Hr t Hout) as [-> | ->]; cbn; lia.
  - rewrite Ho. apply subseteq_size.
    by rewrite (right_id_L ∅ (∪)) in Hsub.
Qed.

End Connections.
